(** * Automobile Defect Detection Portal: inspection processing and ledger

    A shallow embedding of [app.py] (the Flask portal around a YOLO
    detector) and the properties of its upload pipeline and of the
    [detection_history] queries.

    Modelling conventions.
    - The SQLite table [detection_history] is a list of rows in rowid
      (insertion) order, next to the AUTOINCREMENT counter.
    - The file system is a finite map from files to their content; which
      file a path names, and whether it can be opened at all, is the
      operating system's answer ([fs_resolve]), fixed while the portal
      runs since no handler creates or removes a directory. A file that
      [file.save] has written can be read back.
    - A handler is a computation in a state-and-exception monad over the
      [World]; an uncaught Python exception ends the request and keeps the
      effects done so far.
    - The detector, OpenCV's codec and font metrics, Python's float
      formatting and the per-request readings (uuid, clocks) are outside
      the repository: they are the fields of [Externals] and [Ambient].
    - Strings are sequences of characters with code points below 256.
    - SQLite itself is assumed not to fail. *)

From Stdlib Require Import ZArith String Ascii SpecFloat.
From stdpp Require Import gmap strings list sorting.

Local Open Scope Z_scope.

(** ** Python built-ins used by the handlers *)

Module Py.

(** [c.lower()] for one character: the capitals A-Z and, above 127, the
    capitals 192-222 except the multiplication sign 215. *)
Definition lower_char (c : ascii) : ascii :=
  let n := nat_of_ascii c in
  if ((Nat.leb 65 n && Nat.leb n 90)
      || (Nat.leb 192 n && Nat.leb n 222 && negb (Nat.eqb n 215)))%bool
  then ascii_of_nat (n + 32) else c.

(** [s.lower()]. *)
Fixpoint lower (s : string) : string :=
  match s with
  | EmptyString => EmptyString
  | String c s' => String (lower_char c) (lower s')
  end.

(** [s.rsplit(sep, 1)[-1]] for a one-character separator: the text after
    the last separator, the whole string when there is none. [acc] is the
    segment read since the last separator. *)
Fixpoint rsplit_last_from (sep : ascii) (acc s : string) : string :=
  match s with
  | EmptyString => acc
  | String c s' =>
      if Ascii.eqb c sep then rsplit_last_from sep EmptyString s'
      else rsplit_last_from sep (acc +:+ String c EmptyString) s'
  end.

Definition rsplit_last (sep : ascii) (s : string) : string :=
  rsplit_last_from sep EmptyString s.

(** [sep.join(parts)]. *)
Definition join (sep : string) (parts : list string) : string :=
  String.concat sep parts.

(** [s[:n]]. *)
Definition slice_to (n : nat) (s : string) : string := substring 0 n s.

(** [s.startswith(c)] and [s.endswith(c)] for one character. *)
Definition startswith (c : ascii) (s : string) : bool :=
  match s with
  | String c' _ => Ascii.eqb c' c
  | EmptyString => false
  end.

Fixpoint endswith (c : ascii) (s : string) : bool :=
  match s with
  | EmptyString => false
  | String c' EmptyString => Ascii.eqb c' c
  | String _ s' => endswith c s'
  end.

(** [os.path.join(a, b)] (posixpath): an absolute [b] discards [a]. *)
Definition os_path_join (a b : string) : string :=
  if startswith "/" b then b
  else if (String.eqb a "" || endswith "/" a)%bool then a +:+ b
  else a +:+ "/" +:+ b.

End Py.

(** ** Application configuration *)

Definition UPLOAD_FOLDER : string := "static/uploads".
Definition RESULT_FOLDER : string := "static/results".

(** A colour in OpenCV's BGR order. *)
Abbreviation BGR := (Z * Z * Z)%type.

Definition DEFECT_COLORS : gmap string BGR :=
  <["dent" := (203, 192, 255)]>
  (<["scratch" := (255, 0, 0)]>
  (<["lamp_broken" := (0, 255, 255)]>
  (<["glass_broken" := (128, 0, 128)]>
  (<["tire_flat" := (0, 0, 255)]> ∅)))).

(** [DEFECT_COLORS.get(class_name, (0, 255, 0))]. *)
Definition DEFECT_COLORS_get (class_name : string) : BGR :=
  default (0, 255, 0) (DEFECT_COLORS !! class_name).

Definition allowed_extensions : gset string :=
  {[ "jpg"%string; "jpeg"%string; "png"%string ]}.

(** ** Images and detector output *)

(** The drawing calls the handler issues; [getTextSize] and [putText] are
    always called with FONT_HERSHEY_SIMPLEX at scale 0.7. *)
Inductive DrawCall :=
| Rectangle (pt1 pt2 : Z * Z) (color : BGR) (thickness : Z)
| PutText (text : string) (org : Z * Z) (color : BGR) (thickness : Z).

(** A decoded image (numpy array): its shape, its decoded pixel data and
    the drawing calls applied to it since, oldest first. Drawing never
    changes the shape. *)
Record Mat := {
  mat_rows : Z;
  mat_cols : Z;
  mat_data : list Z;
  mat_drawn : list DrawCall
}.

(** One element of [results.boxes], read the way the loop reads it:
    [int(box.cls[0])], [float(box.conf[0])], [map(int, box.xyxy[0])].
    The confidence is any binary64 value, NaN and the infinities included;
    the class id and the corners are the integers the conversions give. *)
Record Box := {
  cls : Z;
  conf : spec_float;
  xyxy : Z * Z * Z * Z
}.

(** ** Exceptions and the handler monad *)

Inductive Exn :=
| KeyError          (* model.names[cls_id] on an unknown id *)
| Cv2Error          (* an OpenCV call raised *)
| InferenceError    (* the model call raised *)
| OSError.          (* file.save could not open its path (for a path with
                       a NUL character Python raises ValueError instead;
                       the two are not told apart) *)

Inductive Outcome (A : Type) :=
| Ok (a : A)
| Raise (e : Exn).
Arguments Ok {A} a.
Arguments Raise {A} e.

#[global] Instance Outcome_ret : MRet Outcome := fun _ a => Ok a.
#[global] Instance Outcome_bind : MBind Outcome := fun _ _ f m =>
  match m with
  | Ok a => f a
  | Raise e => Raise e
  end.

(** ** The persisted state *)

(** A row of [detection_history]. [timestamp] is CURRENT_TIMESTAMP, a text
    'YYYY-MM-DD HH:MM:SS' whose order is the order of instants: it is kept
    as the count of seconds, the clock's resolution. *)
Record Row := {
  row_id : Z;
  user_id : Z;
  original_image : string;
  result_image : string;
  vehicle_status : string;
  defect_classes : string;
  confidence_scores : string;
  detection_count : nat;
  timestamp : Z
}.

Inductive File :=
| Uploaded (stream : list Z)     (* bytes written by file.save *)
| Written (img : Mat).           (* image written by cv2.imwrite *)

(** [files] gives the content of each file, under the name [fs_resolve]
    gives the file: two paths that name one file share one entry. *)
Record World := {
  files : gmap string File;
  detection_history : list Row;
  sqlite_sequence : Z;           (* largest rowid AUTOINCREMENT has given *)
  inferences : list string       (* paths handed to the model, oldest first *)
}.

Definition initial_world : World :=
  {| files := ∅; detection_history := []; sqlite_sequence := 0;
     inferences := [] |}.

Definition M (A : Type) : Type := World -> Outcome A * World.

#[global] Instance M_ret : MRet M := fun _ a w => (Ok a, w).
#[global] Instance M_bind : MBind M := fun _ _ f m w =>
  match m w with
  | (Ok a, w') => f a w'
  | (Raise e, w') => (Raise e, w')
  end.

Definition lift {A} (o : Outcome A) : M A := fun w => (o, w).
Definition gets {A} (f : World -> A) : M A := fun w => (Ok (f w), w).
Definition modify (f : World -> World) : M unit := fun w => (Ok tt, f w).

(** ** External collaborators *)

Record Externals := {
  (* the file a path names, None when the path cannot be opened (a missing
     or closed directory, a name the system refuses) *)
  fs_resolve : string -> option string;
  (* model.names *)
  model_names : gmap Z string;
  (* model(image_path, conf=0.05)[0].boxes on the file's bytes *)
  model_boxes : list Z -> Outcome (list Box);
  (* cv2's decoder: None when the bytes are not a readable image *)
  cv2_imdecode : list Z -> option Mat;
  (* cv2.getTextSize(label, FONT_HERSHEY_SIMPLEX, 0.7, 2)[0] *)
  cv2_getTextSize : string -> Z * Z;
  (* f"{conf:.N%}" *)
  format_percent : nat -> spec_float -> string
}.

(** What one request reads from its surroundings. *)
Record Ambient := {
  uuid4 : string;              (* str(uuid.uuid4()) *)
  now_strftime : string;       (* datetime.now().strftime("%Y%m%d_%H%M%S") *)
  CURRENT_TIMESTAMP : Z        (* SQLite's clock at the INSERT *)
}.

(** ** Requests and responses *)

Inductive Method := GET | POST.

(** [request.files.get("image")]. *)
Record FileStorage := {
  filename : string;
  stream : list Z
}.

(** The two keys [login] puts in the Flask session. *)
Record Session := {
  session_user_id : Z;
  session_username : string
}.

Record Request := {
  method : Method;
  session : option Session;
  files_image : option FileStorage
}.

(** A flashed message and its category. *)
Definition Flash : Type := string * string.

Inductive Response (Ctx : Type) :=
| redirect (endpoint : string)
| render_template (template : string) (flashed : list Flash) (context : Ctx).
Arguments redirect {Ctx} endpoint.
Arguments render_template {Ctx} template flashed context.

(** One entry of [detections]: the dict with keys "class", "confidence". *)
Record Detection := {
  detection_class : string;
  detection_confidence : string
}.

Record ResultData := {
  rd_result_image : string;
  rd_original_image : string;
  rd_vehicle_status : string;
  rd_detections : list Detection;
  rd_detection_count : nat
}.

Record UploadContext := {
  up_username : string;
  up_result_data : option ResultData
}.

Record DashboardContext := {
  dash_username : string;
  dash_total_inspections : nat;
  dash_broken_count : nat;
  dash_non_broken_count : nat;
  dash_recent_inspections : list Row
}.

Record HistoryContext := {
  hist_username : string;
  hist_records : list Row
}.

(** The content of the file a path names, if it names one that exists. *)
Definition file_at (E : Externals) (path : string) (w : World) : option File :=
  match fs_resolve E path with
  | Some f => files w !! f
  | None => None
  end.

(** ** OpenCV calls *)

Module cv2.

(** OpenCV converts every coordinate to a C int and raises when one does
    not fit. *)
Definition fits_int (z : Z) : bool :=
  (-2147483648 <=? z) && (z <=? 2147483647).

Definition point_fits (p : Z * Z) : bool := fits_int p.1 && fits_int p.2.

Definition call_fits (call : DrawCall) : bool :=
  match call with
  | Rectangle pt1 pt2 _ _ => point_fits pt1 && point_fits pt2
  | PutText _ org _ _ => point_fits org
  end.

(** [cv2.rectangle] and [cv2.putText] draw in place. They raise on a
    coordinate that is no C int; on the None of a failed imread they draw
    nothing and return. *)
Definition draw (call : DrawCall) (img : option Mat) : Outcome (option Mat) :=
  if call_fits call then
    Ok match img with
       | None => None
       | Some m =>
           Some {| mat_rows := mat_rows m; mat_cols := mat_cols m;
                   mat_data := mat_data m;
                   mat_drawn := mat_drawn m ++ [call] |}
       end
  else Raise Cv2Error.

Definition rectangle (img : option Mat) (pt1 pt2 : Z * Z) (color : BGR)
    (thickness : Z) : Outcome (option Mat) :=
  draw (Rectangle pt1 pt2 color thickness) img.

Definition putText (img : option Mat) (text : string) (org : Z * Z)
    (color : BGR) (thickness : Z) : Outcome (option Mat) :=
  draw (PutText text org color thickness) img.

(** [cv2.imread(path)]: None for a missing or unreadable file. *)
Definition imread (E : Externals) (path : string) : M (option Mat) :=
  gets (fun w =>
    match file_at E path w with
    | Some (Uploaded bytes) => cv2_imdecode E bytes
    | Some (Written m) => Some m
    | None => None
    end).

(** [cv2.imwrite(path, img)]: raises on None; when the path cannot be
    opened it writes nothing and returns False, which [upload] ignores. *)
Definition imwrite (E : Externals) (path : string) (img : option Mat)
    : M unit :=
  match img with
  | None => lift (Raise Cv2Error)
  | Some m =>
      modify (fun w =>
        {| files :=
             match fs_resolve E path with
             | Some f => <[f := Written m]> (files w)
             | None => files w
             end;
           detection_history := detection_history w;
           sqlite_sequence := sqlite_sequence w;
           inferences := inferences w |})
  end.

End cv2.

(** [file.save(path)]: opens the path for writing, which raises when the
    path cannot be opened, and copies the upload. *)
Definition file_save (E : Externals) (file : FileStorage) (path : string)
    : M unit :=
  match fs_resolve E path with
  | None => lift (Raise OSError)
  | Some f =>
      modify (fun w =>
        {| files := <[f := Uploaded (stream file)]> (files w);
           detection_history := detection_history w;
           sqlite_sequence := sqlite_sequence w;
           inferences := inferences w |})
  end.

(** [model(image_path, conf=0.05)[0]]: runs the detector on the stored
    file and leaves a trace of the call. *)
Definition model_call (E : Externals) (path : string) : M (list Box) :=
  fun w =>
    let w' := {| files := files w;
                 detection_history := detection_history w;
                 sqlite_sequence := sqlite_sequence w;
                 inferences := inferences w ++ [path] |} in
    match file_at E path w with
    | Some (Uploaded bytes) => (model_boxes E bytes, w')
    | _ => (Raise InferenceError, w')
    end.

(** ** The [detection_history] table *)

Module sql.

Definition max_rowid (rows : list Row) : Z :=
  foldr (fun r acc => Z.max (row_id r) acc) 0 rows.

(** The rowid an INTEGER PRIMARY KEY AUTOINCREMENT column gives next. *)
Definition next_rowid (w : World) : Z :=
  Z.max (max_rowid (detection_history w)) (sqlite_sequence w) + 1.

(** [WHERE user_id = ?]. *)
Definition where_user (uid : Z) (rows : list Row) : list Row :=
  filter (fun r => user_id r = uid) rows.

(** [WHERE user_id = ? AND vehicle_status = '...']. *)
Definition where_user_status (uid : Z) (status : string) (rows : list Row)
    : list Row :=
  filter (fun r => user_id r = uid /\ vehicle_status r = status) rows.

(** [COUNT( * )]. *)
Definition count (rows : list Row) : nat := length rows.

(** [ORDER BY timestamp DESC]: the query names no other sort key, so rows
    with equal timestamps keep the order of the table scan, as in SQLite's
    sort. [place r sorted] puts [r], which the scan met before every row
    of [sorted], in front of the first row that is not newer than it. *)
Fixpoint place (r : Row) (sorted : list Row) : list Row :=
  match sorted with
  | [] => [r]
  | r' :: rest =>
      if timestamp r' <=? timestamp r then r :: sorted
      else r' :: place r rest
  end.

Definition order_by_timestamp_desc (rows : list Row) : list Row :=
  foldr place [] rows.

(** [LIMIT n], or no LIMIT clause. *)
Definition limit (n : option nat) (rows : list Row) : list Row :=
  match n with
  | Some k => take k rows
  | None => rows
  end.

(** [SELECT * FROM detection_history WHERE user_id = ?
     ORDER BY timestamp DESC [LIMIT n]]. *)
Definition select_history (uid : Z) (n : option nat) (w : World) : list Row :=
  limit n (order_by_timestamp_desc (where_user uid (detection_history w))).

End sql.

(** The INSERT of [upload], followed by its commit. *)
Definition insert_detection_history (now : Z) (uid : Z)
    (original result status classes scores : string) (n : nat) : M unit :=
  modify (fun w =>
    let new_id := sql.next_rowid w in
    {| files := files w;
       detection_history := detection_history w ++
         [ {| row_id := new_id; user_id := uid;
              original_image := original; result_image := result;
              vehicle_status := status; defect_classes := classes;
              confidence_scores := scores; detection_count := n;
              timestamp := now |} ];
       sqlite_sequence := new_id;
       inferences := inferences w |}).

(** ** The upload handler *)

(** The local variables the detection loop updates. *)
Record Locals := {
  l_img : option Mat;
  l_detections : list Detection;
  l_defect_classes : list string;
  l_confidence_scores : list string
}.

(** [model.names[cls_id]]. *)
Definition names_getitem (E : Externals) (cls_id : Z) : Outcome string :=
  match model_names E !! cls_id with
  | Some class_name => Ok class_name
  | None => Raise KeyError
  end.

(** The body of [for box in results.boxes]. *)
Definition annotate_box (E : Externals) (box : Box) (st : Locals)
    : Outcome Locals :=
  let cls_id := cls box in
  let conf := conf box in
  class_name ← names_getitem E cls_id;
  let defect_classes := l_defect_classes st ++ [class_name] in
  let confidence_scores := l_confidence_scores st ++ [format_percent E 2 conf] in
  let '(x1, y1, x2, y2) := xyxy box in
  let color := DEFECT_COLORS_get class_name in
  img ← cv2.rectangle (l_img st) (x1, y1) (x2, y2) color 3;
  let label := class_name +:+ " | " +:+ format_percent E 0 conf in
  let '(label_w, label_h) := cv2_getTextSize E label in
  img ← cv2.rectangle img (x1, y1 - label_h - 10) (x1 + label_w + 10, y1)
                      color (-1);
  img ← cv2.putText img label (x1 + 5, y1 - 5) (255, 255, 255) 2;
  mret {| l_img := img;
          l_detections := l_detections st ++
            [ {| detection_class := class_name;
                 detection_confidence := format_percent E 2 conf |} ];
          l_defect_classes := defect_classes;
          l_confidence_scores := confidence_scores |}.

Fixpoint for_boxes (E : Externals) (boxes : list Box) (st : Locals)
    : Outcome Locals :=
  match boxes with
  | [] => Ok st
  | box :: rest => st' ← annotate_box E box st; for_boxes E rest st'
  end.

(** Lines 361-408: the status and the annotation loop. *)
Definition process_results (E : Externals) (boxes : list Box)
    (img : option Mat) : Outcome (string * Locals) :=
  let st := {| l_img := img; l_detections := []; l_defect_classes := [];
               l_confidence_scores := [] |} in
  if (0 <? length boxes)%nat then
    st' ← for_boxes E boxes st; mret ("Broken"%string, st')
  else
    mret ("Non-Broken"%string, st).

(** [file.filename.rsplit(".", 1)[-1].lower()]. *)
Definition file_ext_of (file : FileStorage) : string :=
  Py.lower (Py.rsplit_last "." (filename file)).

(** The name both images are stored under. *)
Definition unique_filename (A : Ambient) (sess : Session) (file_ext : string)
    : string :=
  let unique_id := Py.slice_to 8 (uuid4 A) in
  let timestamp := now_strftime A in
  session_username sess +:+ "_" +:+ timestamp +:+ "_" +:+ unique_id
    +:+ "." +:+ file_ext.

(** Lines 342-442: an accepted file is saved, analysed, annotated and
    recorded. *)
Definition upload_process (E : Externals) (A : Ambient) (sess : Session)
    (file : FileStorage) (file_ext : string) : M (Response UploadContext) :=
  let filename := unique_filename A sess file_ext in
  let image_path := Py.os_path_join UPLOAD_FOLDER filename in
  let result_path := Py.os_path_join RESULT_FOLDER filename in
  _ ← file_save E file image_path;
  boxes ← model_call E image_path;
  img ← cv2.imread E image_path;
  '(vehicle_status, st) ← lift (process_results E boxes img);
  _ ← cv2.imwrite E result_path (l_img st);
  _ ← insert_detection_history (CURRENT_TIMESTAMP A) (session_user_id sess)
        filename filename vehicle_status
        (if l_defect_classes st is [] then "None"
         else Py.join ", " (l_defect_classes st))
        (if l_confidence_scores st is [] then "N/A"
         else Py.join ", " (l_confidence_scores st))
        (length (l_detections st));
  let result_data :=
    {| rd_result_image := result_path;
       rd_original_image := image_path;
       rd_vehicle_status := vehicle_status;
       rd_detections := l_detections st;
       rd_detection_count := length (l_detections st) |} in
  mret (render_template "upload.html"
          [("Image processed successfully!", "success")]
          {| up_username := session_username sess;
             up_result_data := Some result_data |}).

Definition upload (E : Externals) (A : Ambient) (req : Request)
    : M (Response UploadContext) :=
  match session req with
  | None => mret (redirect "login")
  | Some sess =>
      let form flashed :=
        render_template "upload.html" flashed
          {| up_username := session_username sess; up_result_data := None |} in
      match method req with
      | GET => mret (form [])
      | POST =>
          match files_image req with
          | None =>
              mret (form [("Please select an image file to upload.", "error")])
          | Some file =>
              if String.eqb (filename file) "" then
                mret (form [("Please select an image file to upload.", "error")])
              else
                let file_ext := file_ext_of file in
                if bool_decide (file_ext ∈ allowed_extensions) then
                  upload_process E A sess file file_ext
                else
                  mret (form [("Invalid file type. Please upload JPG or PNG images only.",
                               "error")])
          end
      end
  end.

(** ** The read-only handlers *)

Definition total_inspections (uid : Z) (w : World) : nat :=
  sql.count (sql.where_user uid (detection_history w)).

Definition broken_count (uid : Z) (w : World) : nat :=
  sql.count (sql.where_user_status uid "Broken" (detection_history w)).

Definition non_broken_count (uid : Z) (w : World) : nat :=
  sql.count (sql.where_user_status uid "Non-Broken" (detection_history w)).

Definition recent_inspections (uid : Z) (w : World) : list Row :=
  sql.select_history uid (Some 5%nat) w.

Definition dashboard (req : Request) (w : World) : Response DashboardContext :=
  match session req with
  | None => redirect "login"
  | Some sess =>
      let uid := session_user_id sess in
      render_template "dashboard.html" []
        {| dash_username := session_username sess;
           dash_total_inspections := total_inspections uid w;
           dash_broken_count := broken_count uid w;
           dash_non_broken_count := non_broken_count uid w;
           dash_recent_inspections := recent_inspections uid w |}
  end.

Definition history (req : Request) (w : World) : Response HistoryContext :=
  match session req with
  | None => redirect "login"
  | Some sess =>
      render_template "history.html" []
        {| hist_username := session_username sess;
           hist_records := sql.select_history (session_user_id sess) None w |}
  end.

(** ** Serving a sequence of uploads *)

(** The world after the server has handled the given upload requests in
    turn, whatever each one's outcome. No other handler writes to
    [detection_history] or to the image folders. *)
Fixpoint serve (E : Externals) (reqs : list (Ambient * Request)) (w : World)
    : World :=
  match reqs with
  | [] => w
  | (A, req) :: rest => serve E rest (upload E A req w).2
  end.

(** ** Descriptions used in the statements *)

(** The class name the loop reads for a box whose id [model.names] knows. *)
Definition box_class_name (E : Externals) (b : Box) : string :=
  default ""%string (model_names E !! cls b).

Definition known_class (E : Externals) (b : Box) : Prop :=
  is_Some (model_names E !! cls b).

Definition box_label (E : Externals) (b : Box) : string :=
  box_class_name E b +:+ " | " +:+ format_percent E 0 (conf b).

(** The three drawing calls of one loop iteration, in order. *)
Definition box_draw_calls (E : Externals) (b : Box) : list DrawCall :=
  let '(x1, y1, x2, y2) := xyxy b in
  let color := DEFECT_COLORS_get (box_class_name E b) in
  let '(label_w, label_h) := cv2_getTextSize E (box_label E b) in
  [ Rectangle (x1, y1) (x2, y2) color 3;
    Rectangle (x1, y1 - label_h - 10) (x1 + label_w + 10, y1) color (-1);
    PutText (box_label E b) (x1 + 5, y1 - 5) (255, 255, 255) 2 ].

Definition box_detection (E : Externals) (b : Box) : Detection :=
  {| detection_class := box_class_name E b;
     detection_confidence := format_percent E 2 (conf b) |}.

(** [m] after the given drawing calls. *)
Definition drawn_on (m : Mat) (calls : list DrawCall) : Mat :=
  {| mat_rows := mat_rows m; mat_cols := mat_cols m; mat_data := mat_data m;
     mat_drawn := mat_drawn m ++ calls |}.

(** One iteration's calls all pass OpenCV's coordinate check. *)
Definition box_fits (E : Externals) (b : Box) : Prop :=
  Forall (fun call => cv2.call_fits call = true) (box_draw_calls E b).

(** The locals after the loop has run over [boxes] from [st] on the image
    [img] that imread gave. *)
Definition locals_after (E : Externals) (boxes : list Box) (img : option Mat)
    (st : Locals) : Locals :=
  {| l_img :=
       (fun m => drawn_on m (concat (map (box_draw_calls E) boxes))) <$> img;
     l_detections := l_detections st ++ map (box_detection E) boxes;
     l_defect_classes := l_defect_classes st ++ map (box_class_name E) boxes;
     l_confidence_scores :=
       l_confidence_scores st ++
       map (fun b => format_percent E 2 (conf b)) boxes |}.

(** The locals before the loop. *)
Definition fresh_locals (img : option Mat) : Locals :=
  {| l_img := img; l_detections := []; l_defect_classes := [];
     l_confidence_scores := [] |}.

Definition image_path_of (A : Ambient) (sess : Session) (file_ext : string)
    : string :=
  Py.os_path_join UPLOAD_FOLDER (unique_filename A sess file_ext).

Definition result_path_of (A : Ambient) (sess : Session) (file_ext : string)
    : string :=
  Py.os_path_join RESULT_FOLDER (unique_filename A sess file_ext).

(** The world once the upload is saved as the file [saved] and the model
    has been called. *)
Definition world_analysed (A : Ambient) (sess : Session) (file : FileStorage)
    (file_ext : string) (saved : string) (w : World) : World :=
  {| files := <[saved := Uploaded (stream file)]> (files w);
     detection_history := detection_history w;
     sqlite_sequence := sqlite_sequence w;
     inferences := inferences w ++ [image_path_of A sess file_ext] |}.

(** The row the INSERT writes, given the loop's results. *)
Definition history_row (A : Ambient) (sess : Session) (file_ext : string)
    (status : string) (st : Locals) (w : World) : Row :=
  {| row_id := sql.next_rowid w;
     user_id := session_user_id sess;
     original_image := unique_filename A sess file_ext;
     result_image := unique_filename A sess file_ext;
     vehicle_status := status;
     defect_classes :=
       if l_defect_classes st is [] then "None"
       else Py.join ", " (l_defect_classes st);
     confidence_scores :=
       if l_confidence_scores st is [] then "N/A"
       else Py.join ", " (l_confidence_scores st);
     detection_count := length (l_detections st);
     timestamp := CURRENT_TIMESTAMP A |}.

(** The files once imwrite has been asked to write [m] to a path that
    names the file [result], or that cannot be opened. *)
Definition files_written (result : option string) (m : Mat)
    (fs : gmap string File) : gmap string File :=
  match result with
  | Some f => <[f := Written m]> fs
  | None => fs
  end.

(** The world once the upload is saved as the file [saved], the annotated
    image [m] is written and the row is inserted. *)
Definition world_recorded (E : Externals) (A : Ambient) (sess : Session)
    (file : FileStorage) (file_ext : string) (status : string) (st : Locals)
    (saved : string) (m : Mat) (w : World) : World :=
  {| files :=
       files_written (fs_resolve E (result_path_of A sess file_ext)) m
         (files (world_analysed A sess file file_ext saved w));
     detection_history :=
       detection_history w ++ [history_row A sess file_ext status st w];
     sqlite_sequence := sql.next_rowid w;
     inferences := inferences (world_analysed A sess file file_ext saved w) |}.

(** The page shown after a processed upload. *)
Definition result_page (A : Ambient) (sess : Session) (file_ext : string)
    (status : string) (st : Locals) : Response UploadContext :=
  render_template "upload.html"
    [("Image processed successfully!", "success")]
    {| up_username := session_username sess;
       up_result_data := Some
         {| rd_result_image := result_path_of A sess file_ext;
            rd_original_image := image_path_of A sess file_ext;
            rd_vehicle_status := status;
            rd_detections := l_detections st;
            rd_detection_count := length (l_detections st) |} |}.

(** The upload form, with the messages flashed by this request. *)
Definition upload_form (sess : Session) (flashed : list Flash)
    : Response UploadContext :=
  render_template "upload.html" flashed
    {| up_username := session_username sess; up_result_data := None |}.

Definition invalid_file_type : Flash :=
  ("Invalid file type. Please upload JPG or PNG images only.", "error").

(** Newest first: [a] may precede [b] when [b] is not newer than [a]. *)
Definition not_older (a b : Row) : Prop := timestamp b <= timestamp a.

(** The request is an upload that passes the handler's checks: a logged-in
    POST carrying a named file whose extension is allowed. *)
Definition accepted (req : Request) (sess : Session) (file : FileStorage)
    : Prop :=
  session req = Some sess /\ method req = POST /\
  files_image req = Some file /\ filename file <> ""%string /\
  file_ext_of file ∈ allowed_extensions.

(** The status [upload] derives from the number of boxes. *)
Definition status_of (boxes : list Box) : string :=
  if (0 <? length boxes)%nat then "Broken" else "Non-Broken".

(** *** Structural validity of a finding, as the specification words it *)

(** 1.0 as a binary64 value. *)
Definition binary64_one : spec_float :=
  S754_finite false 4503599627370496 (-52).

Definition conf_finite (c : spec_float) : bool :=
  match c with
  | S754_zero _ | S754_finite _ _ _ => true
  | S754_infinity _ | S754_nan => false
  end.

Definition conf_in_unit_interval (c : spec_float) : bool :=
  SFleb (S754_zero false) c && SFleb c binary64_one.

Definition bbox_degenerate (bbox : Z * Z * Z * Z) : bool :=
  let '(x1, y1, x2, y2) := bbox in (x2 <=? x1) || (y2 <=? y1).

Definition malformed_finding (b : Box) : Prop :=
  conf_finite (conf b) = false \/
  conf_in_unit_interval (conf b) = false \/
  bbox_degenerate (xyxy b) = true.

(** A handler that validated detector output would, on a finding set with
    a malformed finding, end in an exception and leave the table as it
    was. *)
Definition rejects_malformed (E : Externals) (A : Ambient) (req : Request)
    (w : World) : Prop :=
  forall file boxes,
    files_image req = Some file ->
    model_boxes E (stream file) = Ok boxes ->
    Exists malformed_finding boxes ->
    (exists e, (upload E A req w).1 = Raise e) /\
    detection_history (upload E A req w).2 = detection_history w.

(** *** The ordering the specification words for the recent query *)

(** Newest first, and among equal timestamps the higher id first. *)
Definition newest_then_highest_id (a b : Row) : Prop :=
  timestamp b < timestamp a \/
  (timestamp b = timestamp a /\ row_id b < row_id a).

Definition recent_as_specified (uid : Z) (n : nat) (w : World) : Prop :=
  Sorted newest_then_highest_id (sql.select_history uid (Some n) w).

(** *** Stand-ins for the external collaborators

    A fixed detector, decoder, font metric and formatter, to run the
    handlers on concrete requests. The detector's answer is chosen by
    the first byte of the file. *)

Definition demo_names : gmap Z string :=
  <[0 := "dent"%string]> (<[1 := "scratch"%string]>
  (<[2 := "lamp_broken"%string]> (<[3 := "glass_broken"%string]>
  (<[4 := "tire_flat"%string]> (<[5 := "rust"%string]> ∅))))).

(** 0.5 and 1.5 as binary64 values. *)
Definition binary64_half : spec_float :=
  S754_finite false 4503599627370496 (-53).
Definition binary64_three_halves : spec_float :=
  S754_finite false 6755399441055744 (-52).

Definition demo_dent : Box :=
  {| cls := 0; conf := binary64_half; xyxy := (10, 20, 110, 80) |}.
Definition demo_rust : Box :=
  {| cls := 5; conf := binary64_half; xyxy := (200, 40, 260, 90) |}.
(** An inverted box with a NaN confidence. *)
Definition demo_inverted : Box :=
  {| cls := 1; conf := S754_nan; xyxy := (300, 200, 100, 50) |}.
(** A well-shaped box with confidence 1.5. *)
Definition demo_overconfident : Box :=
  {| cls := 0; conf := binary64_three_halves; xyxy := (10, 20, 110, 80) |}.

Definition demo_model_boxes (bytes : list Z) : Outcome (list Box) :=
  match bytes with
  | 0 :: _ => Ok []
  | 1 :: _ => Ok [demo_dent; demo_rust]
  | 2 :: _ => Ok [demo_inverted; demo_overconfident]
  | _ => Raise InferenceError
  end.

Definition demo_imdecode (bytes : list Z) : option Mat :=
  match bytes with
  | [] => None
  | _ => Some {| mat_rows := 480; mat_cols := 640; mat_data := bytes;
                 mat_drawn := [] |}
  end.

(** A name without a directory part. *)
Fixpoint no_slash (s : string) : bool :=
  match s with
  | EmptyString => true
  | String c s' => negb (Ascii.eqb c "/") && no_slash s'
  end.

(** [path] is [folder], a slash and a name without a directory part. *)
Definition under (folder path : string) : bool :=
  String.prefix (folder +:+ "/") path &&
  no_slash (substring (String.length folder + 1) (String.length path) path).

(** A disk with the two image folders and /tmp and no other directory:
    a path directly under one of them names itself, no other path opens. *)
Definition demo_resolve (path : string) : option string :=
  if under UPLOAD_FOLDER path || under RESULT_FOLDER path || under "/tmp" path
  then Some path else None.

Definition demo_E : Externals :=
  {| fs_resolve := demo_resolve;
     model_names := demo_names;
     model_boxes := demo_model_boxes;
     cv2_imdecode := demo_imdecode;
     cv2_getTextSize := fun label => (14 * Z.of_nat (String.length label), 16);
     format_percent := fun digits c =>
       let percent :=
         match c with
         | S754_nan => "nan"
         | S754_infinity _ => "inf"
         | _ => if SFeqb c binary64_half then "50"
                else if SFeqb c binary64_three_halves then "150" else "0"
         end%string in
       match c with
       | S754_nan | S754_infinity _ => percent +:+ "%"
       | _ => if (digits =? 0)%nat then percent +:+ "%"
              else percent +:+ ".00%"
       end |}.

Definition demo_A (suffix : string) (now : Z) : Ambient :=
  {| uuid4 := suffix +:+ "-e89b-12d3-a456-426614174000";
     now_strftime := "20240101_120000";
     CURRENT_TIMESTAMP := now |}.

Definition amy : Session :=
  {| session_user_id := 7; session_username := "amy" |}.
Definition bob : Session :=
  {| session_user_id := 8; session_username := "bob" |}.

Definition demo_post (sess : Session) (name : string) (bytes : list Z)
    : Request :=
  {| method := POST; session := Some sess;
     files_image := Some {| filename := name; stream := bytes |} |}.

Definition demo_get (sess : Session) : Request :=
  {| method := GET; session := Some sess; files_image := None |}.

(** Amy uploads a clean and a dented car within one second, Bob a dented
    one a second later. *)
Definition demo_world : World :=
  serve demo_E
    [ (demo_A "0a1b2c3d" 100, demo_post amy "clean.png" [0; 9]);
      (demo_A "4e5f6a7b" 100, demo_post amy "dent.JPG" [1; 9]);
      (demo_A "8c9d0e1f" 101, demo_post bob "dent.jpeg" [1; 9]) ]
    initial_world.

(** Every row carries one of the two statuses [upload] writes. *)
Definition statuses_known (w : World) : Prop :=
  Forall (fun r => vehicle_status r = "Broken"%string \/
                   vehicle_status r = "Non-Broken"%string)
         (detection_history w).

(** The rows carry strictly increasing ids in table order. *)
Definition ids_increasing (w : World) : Prop :=
  StronglySorted Z.lt (map row_id (detection_history w)).

(** ** Accounts: the [users] table and the authentication handlers

    Strings are sequences of characters with code points below 256. *)

Module str.

(** [c.isspace()] for one character. *)
Definition isspace (c : ascii) : bool :=
  let n := nat_of_ascii c in
  (Nat.leb 9 n && Nat.leb n 13) || (Nat.leb 28 n && Nat.leb n 32)
  || Nat.eqb n 133 || Nat.eqb n 160.

(** [s.lstrip()], [s.rstrip()], [s.strip()]. *)
Fixpoint lstrip (s : string) : string :=
  match s with
  | EmptyString => EmptyString
  | String c s' => if isspace c then lstrip s' else s
  end.

Fixpoint rstrip (s : string) : string :=
  match s with
  | EmptyString => EmptyString
  | String c s' =>
      let r := rstrip s' in
      if (isspace c && String.eqb r "")%bool then EmptyString else String c r
  end.

Definition strip (s : string) : string := rstrip (lstrip s).

End str.

(** A row of [users]. *)
Record UserRow := {
  u_id : Z;
  u_username : string;
  u_password_hash : string;
  u_created_at : Z
}.

Record Accounts := {
  users : list UserRow;
  users_sequence : Z           (* largest rowid AUTOINCREMENT has given *)
}.

Definition initial_accounts : Accounts :=
  {| users := []; users_sequence := 0 |}.

(** werkzeug.security: [generate_password_hash(password)] draws a salt,
    [check_password_hash(pwhash, password)]. *)
Record Werkzeug := {
  generate_password_hash : string -> string -> string;
  check_password_hash : string -> string -> bool
}.

(** What [register] and [profile] read from their surroundings. *)
Record AccountAmbient := {
  salt : string;               (* the salt generate_password_hash draws *)
  users_now : Z                (* SQLite's clock at the INSERT *)
}.

(** A request to a form handler: [request.form] is a dict of strings. *)
Record FormRequest := {
  form_method : Method;
  form_session : option Session;
  form : gmap string string
}.

(** [request.form.get(key, "")]. *)
Definition form_get (req : FormRequest) (key : string) : string :=
  default ""%string (form req !! key).

Inductive AccountExn :=
| IntegrityError    (* INSERT of a username the UNIQUE column already holds *)
| TypeError.        (* subscripting the None that fetchone returned *)

Inductive Result (A : Type) :=
| Returned (a : A)
| Raised (e : AccountExn).
Arguments Returned {A} a.
Arguments Raised {A} e.

(** What a form handler leaves behind: its response, the messages flashed
    before a redirect (shown by the next page), the session and the
    [users] table. *)
Record Handled (Ctx : Type) := {
  response : Response Ctx;
  pending : list Flash;
  session_after : option Session;
  accounts_after : Accounts
}.
Arguments response {Ctx} h.
Arguments pending {Ctx} h.
Arguments session_after {Ctx} h.
Arguments accounts_after {Ctx} h.

Record ProfileContext := {
  prof_username : string;
  prof_user : option UserRow;
  prof_total_inspections : nat;
  prof_broken_count : nat;
  prof_non_broken_count : nat
}.

Module users_sql.

(** [SELECT ... FROM users WHERE username = ?], [fetchone()]. *)
Definition by_username (username : string) (db : Accounts) : option UserRow :=
  head (filter (fun u => u_username u = username) (users db)).

(** [SELECT * FROM users WHERE id = ?], [fetchone()]. *)
Definition by_id (uid : Z) (db : Accounts) : option UserRow :=
  head (filter (fun u => u_id u = uid) (users db)).

Definition max_id (rows : list UserRow) : Z :=
  foldr (fun u acc => Z.max (u_id u) acc) 0 rows.

Definition next_id (db : Accounts) : Z :=
  Z.max (max_id (users db)) (users_sequence db) + 1.

(** [INSERT INTO users (username, password_hash) VALUES (?, ?)]: the
    UNIQUE column refuses a username already present. *)
Definition insert (now : Z) (username password_hash : string) (db : Accounts)
    : Result Accounts :=
  if bool_decide (Exists (fun u => u_username u = username) (users db)) then
    Raised IntegrityError
  else
    Returned
      {| users := users db ++
           [ {| u_id := next_id db; u_username := username;
                u_password_hash := password_hash; u_created_at := now |} ];
         users_sequence := next_id db |}.

(** [UPDATE users SET password_hash = ? WHERE id = ?]. *)
Definition update_password_hash (new_hash : string) (uid : Z) (db : Accounts)
    : Accounts :=
  {| users :=
       map (fun u =>
              if bool_decide (u_id u = uid) then
                {| u_id := u_id u; u_username := u_username u;
                   u_password_hash := new_hash;
                   u_created_at := u_created_at u |}
              else u)
           (users db);
     users_sequence := users_sequence db |}.

End users_sql.

(** [home]. *)
Definition home (sess : option Session) : Response unit :=
  match sess with
  | Some _ => redirect "dashboard"
  | None => redirect "login"
  end.

(** [login]. *)
Definition login (W : Werkzeug) (req : FormRequest) (db : Accounts)
    : Handled unit :=
  let stay flashed :=
    {| response := render_template "login.html" flashed tt; pending := [];
       session_after := None; accounts_after := db |} in
  match form_session req with
  | Some sess =>
      {| response := redirect "dashboard"; pending := [];
         session_after := Some sess; accounts_after := db |}
  | None =>
      match form_method req with
      | GET => stay []
      | POST =>
          let username := str.strip (form_get req "username") in
          let password := form_get req "password" in
          if (String.eqb username "" || String.eqb password "")%bool then
            stay [("Please enter both username and password.", "error")]
          else
            match users_sql.by_username username db with
            | Some user =>
                if check_password_hash W (u_password_hash user) password then
                  {| response := redirect "dashboard";
                     pending := [("Welcome back, " +:+ username +:+ "!",
                                  "success")];
                     session_after :=
                       Some {| session_user_id := u_id user;
                               session_username := u_username user |};
                     accounts_after := db |}
                else stay [("Invalid username or password.", "error")]
            | None => stay [("Invalid username or password.", "error")]
            end
      end
  end.

(** [register]. *)
Definition register (W : Werkzeug) (a : AccountAmbient) (req : FormRequest)
    (db : Accounts) : Result (Handled unit) :=
  let stay flashed :=
    Returned
      {| response := render_template "register.html" flashed tt;
         pending := []; session_after := form_session req;
         accounts_after := db |} in
  match form_session req with
  | Some sess =>
      Returned {| response := redirect "dashboard"; pending := [];
                  session_after := Some sess; accounts_after := db |}
  | None =>
      match form_method req with
      | GET => stay []
      | POST =>
          let username := str.strip (form_get req "username") in
          let password := form_get req "password" in
          let confirm_password := form_get req "confirm_password" in
          if (String.eqb username "" || String.eqb password "")%bool then
            stay [("Please fill in all fields.", "error")]
          else if (String.length username <? 3)%nat then
            stay [("Username must be at least 3 characters long.", "error")]
          else if (String.length password <? 4)%nat then
            stay [("Password must be at least 4 characters long.", "error")]
          else if negb (String.eqb password confirm_password) then
            stay [("Passwords do not match.", "error")]
          else
            match users_sql.by_username username db with
            | Some _ =>
                stay [("Username already exists. Please choose another.",
                       "error")]
            | None =>
                let password_hash :=
                  generate_password_hash W (salt a) password in
                match users_sql.insert (users_now a) username password_hash db
                with
                | Raised e => Raised e
                | Returned db' =>
                    Returned
                      {| response := redirect "login";
                         pending := [("Registration successful! Please log in.",
                                      "success")];
                         session_after := None; accounts_after := db' |}
                end
            end
      end
  end.

(** [register] when requests served at the same time commit between its
    SELECT and its INSERT (the two run on one connection but in no
    transaction): the SELECT reads [db], the INSERT meets [db']. With
    [db' = db] this is [register]. *)
Definition register_between (W : Werkzeug) (a : AccountAmbient)
    (req : FormRequest) (db db' : Accounts) : Result (Handled unit) :=
  let stay flashed :=
    Returned
      {| response := render_template "register.html" flashed tt;
         pending := []; session_after := form_session req;
         accounts_after := db' |} in
  match form_session req with
  | Some sess =>
      Returned {| response := redirect "dashboard"; pending := [];
                  session_after := Some sess; accounts_after := db' |}
  | None =>
      match form_method req with
      | GET => stay []
      | POST =>
          let username := str.strip (form_get req "username") in
          let password := form_get req "password" in
          let confirm_password := form_get req "confirm_password" in
          if (String.eqb username "" || String.eqb password "")%bool then
            stay [("Please fill in all fields.", "error")]
          else if (String.length username <? 3)%nat then
            stay [("Username must be at least 3 characters long.", "error")]
          else if (String.length password <? 4)%nat then
            stay [("Password must be at least 4 characters long.", "error")]
          else if negb (String.eqb password confirm_password) then
            stay [("Passwords do not match.", "error")]
          else
            match users_sql.by_username username db with
            | Some _ =>
                stay [("Username already exists. Please choose another.",
                       "error")]
            | None =>
                let password_hash :=
                  generate_password_hash W (salt a) password in
                match users_sql.insert (users_now a) username password_hash db'
                with
                | Raised e => Raised e
                | Returned db'' =>
                    Returned
                      {| response := redirect "login";
                         pending := [("Registration successful! Please log in.",
                                      "success")];
                         session_after := None; accounts_after := db'' |}
                end
            end
      end
  end.

(** [logout]. *)
Definition logout (db : Accounts) : Handled unit :=
  {| response := redirect "login";
     pending := [("You have been logged out successfully.", "info")];
     session_after := None; accounts_after := db |}.

(** [profile]. *)
Definition profile (W : Werkzeug) (a : AccountAmbient) (req : FormRequest)
    (db : Accounts) (w : World) : Result (Handled ProfileContext) :=
  match form_session req with
  | None =>
      Returned {| response := redirect "login"; pending := [];
                  session_after := None; accounts_after := db |}
  | Some sess =>
      let uid := session_user_id sess in
      let user := users_sql.by_id uid db in
      let page flashed db' :=
        Returned
          {| response :=
               render_template "profile.html" flashed
                 {| prof_username := session_username sess;
                    prof_user := user;
                    prof_total_inspections := total_inspections uid w;
                    prof_broken_count := broken_count uid w;
                    prof_non_broken_count := non_broken_count uid w |};
             pending := []; session_after := Some sess;
             accounts_after := db' |} in
      match form_method req with
      | GET => page [] db
      | POST =>
          let current_password := form_get req "current_password" in
          let new_password := form_get req "new_password" in
          let confirm_password := form_get req "confirm_password" in
          match user with
          | None => Raised TypeError
          | Some row =>
              if negb (check_password_hash W (u_password_hash row)
                         current_password) then
                page [("Current password is incorrect.", "error")] db
              else if (String.length new_password <? 4)%nat then
                page [("New password must be at least 4 characters long.",
                       "error")] db
              else if negb (String.eqb new_password confirm_password) then
                page [("New passwords do not match.", "error")] db
              else
                let new_hash :=
                  generate_password_hash W (salt a) new_password in
                page [("Password updated successfully!", "success")]
                     (users_sql.update_password_hash new_hash uid db)
          end
      end
  end.

(** ** The whole site *)

Record Site := {
  site_world : World;
  site_accounts : Accounts
}.

Definition initial_site : Site :=
  {| site_world := initial_world; site_accounts := initial_accounts |}.

(** The requests that can change what the server stores. The other
    handlers only read it. *)
Inductive Event :=
| Upload (A : Ambient) (req : Request)
| Register (a : AccountAmbient) (req : FormRequest)
| Profile (a : AccountAmbient) (req : FormRequest).

Definition step (E : Externals) (W : Werkzeug) (ev : Event) (s : Site)
    : Site :=
  match ev with
  | Upload A req =>
      {| site_world := (upload E A req (site_world s)).2;
         site_accounts := site_accounts s |}
  | Register a req =>
      match register W a req (site_accounts s) with
      | Returned h =>
          {| site_world := site_world s; site_accounts := accounts_after h |}
      | Raised _ => s
      end
  | Profile a req =>
      match profile W a req (site_accounts s) (site_world s) with
      | Returned h =>
          {| site_world := site_world s; site_accounts := accounts_after h |}
      | Raised _ => s
      end
  end.

Fixpoint run (E : Externals) (W : Werkzeug) (evs : list Event) (s : Site)
    : Site :=
  match evs with
  | [] => s
  | ev :: rest => run E W rest (step E W ev s)
  end.

(** The session names a row of [users]: what [login] hands out. *)
Definition valid_session (db : Accounts) (sess : Session) : Prop :=
  exists u, u ∈ users db /\ u_id u = session_user_id sess /\
            u_username u = session_username sess.

(** Every upload of the sequence comes with no session or with one that is
    valid when the request arrives. *)
Fixpoint sessions_valid (E : Externals) (W : Werkzeug) (evs : list Event)
    (s : Site) : Prop :=
  match evs with
  | [] => True
  | ev :: rest =>
      match ev with
      | Upload _ req =>
          forall sess, session req = Some sess ->
                       valid_session (site_accounts s) sess
      | _ => True
      end /\ sessions_valid E W rest (step E W ev s)
  end.

(** The law of werkzeug's pair: a hash checks against its own password. *)
Definition hash_sound (W : Werkzeug) : Prop :=
  forall s password,
    check_password_hash W (generate_password_hash W s password) password = true.

(** The [users] table as the schema keeps it: ids and usernames unique. *)
Definition accounts_wf (db : Accounts) : Prop :=
  StronglySorted Z.lt (map u_id (users db)) /\
  NoDup (map u_username (users db)).

(** Stand-ins for werkzeug (the hash is the password itself) and for the
    forms of two users. *)
Definition demo_W : Werkzeug :=
  {| generate_password_hash := fun _ password => password;
     check_password_hash := fun pwhash password => String.eqb pwhash password |}.

Definition demo_a (now : Z) : AccountAmbient :=
  {| salt := "c0ffee"; users_now := now |}.

Definition demo_register_form (username password : string) : FormRequest :=
  {| form_method := POST; form_session := None;
     form := <["username" := username]> (<["password" := password]>
             (<["confirm_password" := password]> ∅)) |}.

Definition demo_login_form (username password : string) : FormRequest :=
  {| form_method := POST; form_session := None;
     form := <["username" := username]> (<["password" := password]> ∅) |}.

Definition demo_password_form (sess : Session) (current new : string)
    : FormRequest :=
  {| form_method := POST; form_session := Some sess;
     form := <["current_password" := current]> (<["new_password" := new]>
             (<["confirm_password" := new]> ∅)) |}.

(** Amy and Bob have registered. *)
Definition demo_accounts : Accounts :=
  site_accounts
    (run demo_E demo_W
       [ Register (demo_a 90) (demo_register_form "  amy " "s3cret");
         Register (demo_a 91) (demo_register_form "bob" "hunter2") ]
       initial_site).

(** Two more stand-ins: a decoder that reads no file as an image, and a
    model that reports a class id its [names] do not have. *)
Definition demo_E_blind : Externals :=
  {| fs_resolve := demo_resolve;
     model_names := demo_names; model_boxes := demo_model_boxes;
     cv2_imdecode := fun _ => None;
     cv2_getTextSize := cv2_getTextSize demo_E;
     format_percent := format_percent demo_E |}.

Definition demo_E_alien : Externals :=
  {| fs_resolve := demo_resolve;
     model_names := demo_names;
     model_boxes := fun _ =>
       Ok [demo_dent;
           {| cls := 99; conf := binary64_half; xyxy := (1, 2, 3, 4) |}];
     cv2_imdecode := demo_imdecode;
     cv2_getTextSize := cv2_getTextSize demo_E;
     format_percent := format_percent demo_E |}.

(** A disk on which the results folder is missing. *)
Definition demo_E_no_results : Externals :=
  {| fs_resolve := fun path =>
       if under UPLOAD_FOLDER path then Some path else None;
     model_names := demo_names; model_boxes := demo_model_boxes;
     cv2_imdecode := demo_imdecode;
     cv2_getTextSize := cv2_getTextSize demo_E;
     format_percent := format_percent demo_E |}.

(** A user whose name is an absolute path. *)
Definition mallory : Session :=
  {| session_user_id := 9; session_username := "/tmp/x" |}.

(** Amy's session as [login] issues it from [demo_accounts]. *)
Definition amy_session : Session :=
  {| session_user_id := 1; session_username := "amy" |}.

(** The ledger's ids: increasing in table order, from 1 up to the
    AUTOINCREMENT counter. *)
Definition ledger_ids_ok (w : World) : Prop :=
  StronglySorted Z.lt (map row_id (detection_history w)) /\
  Forall (fun r => 1 <= row_id r <= sqlite_sequence w) (detection_history w) /\
  0 <= sqlite_sequence w.

(** What the site keeps true of [users]: unique ids and usernames, and
    every username stripped and at least three characters long. *)
Definition accounts_ok (db : Accounts) : Prop :=
  accounts_wf db /\
  Forall (fun name => (3 <= String.length name)%nat /\ str.strip name = name)
         (map u_username (users db)).

(** Every row of the ledger belongs to a registered user. *)
Definition rows_have_users (s : Site) : Prop :=
  forall r, r ∈ detection_history (site_world s) ->
            exists u, u ∈ users (site_accounts s) /\ u_id u = user_id r.

(** Amy registers, logs in and uploads; Bob registers. *)
Definition demo_events : list Event :=
  [ Register (demo_a 90) (demo_register_form "  amy " "s3cret");
    Upload (demo_A "0a1b2c3d" 100) (demo_post amy_session "clean.png" [0; 9]);
    Register (demo_a 91) (demo_register_form "bob" "hunter2");
    Profile (demo_a 99) (demo_password_form amy_session "s3cret" "n3wpass");
    Upload (demo_A "4e5f6a7b" 100) (demo_post amy_session "dent.JPG" [1; 9]) ].

(** The colour a class is drawn in, class by class: pink, blue, yellow,
    purple and red for the five listed classes, green for any other
    name. *)
Definition colour_drawn (name : string) : BGR :=
  if String.eqb name "dent" then (203, 192, 255)
  else if String.eqb name "scratch" then (255, 0, 0)
  else if String.eqb name "lamp_broken" then (0, 255, 255)
  else if String.eqb name "glass_broken" then (128, 0, 128)
  else if String.eqb name "tire_flat" then (0, 0, 255)
  else (0, 255, 0).

(** *** The format check, as the specification words it *)

(** A JPEG stream starts with FF D8 FF, a PNG stream with the eight bytes
    of the PNG signature. *)
Definition is_jpeg (bytes : list Z) : bool :=
  match bytes with
  | 255 :: 216 :: 255 :: _ => true
  | _ => false
  end.

Definition is_png (bytes : list Z) : bool :=
  match bytes with
  | 137 :: 80 :: 78 :: 71 :: 13 :: 10 :: 26 :: 10 :: _ => true
  | _ => false
  end.

(** A handler that rejected every upload that is neither, before any
    detection, annotation or persistence, would leave the world as it
    was. *)
Definition rejects_other_formats (E : Externals) (A : Ambient)
    (req : Request) (w : World) : Prop :=
  forall file,
    files_image req = Some file ->
    is_jpeg (stream file) = false -> is_png (stream file) = false ->
    (upload E A req w).2 = w.

(** *** The two stored references, as the specification words them *)


(** GIF89a, then two bytes. *)
Definition demo_gif : list Z := [71; 73; 70; 56; 57; 97; 1; 0].

(** ** The annotation loop *)

Ltac unfold_outcome :=
  unfold mbind, mret, Outcome_bind, Outcome_ret in *.

Lemma drawn_on_nil m : drawn_on m [] = m.
Proof. destruct m; unfold drawn_on; simpl. by rewrite app_nil_r. Qed.

Lemma drawn_on_app m c1 c2 : drawn_on (drawn_on m c1) c2 = drawn_on m (c1 ++ c2).
Proof. unfold drawn_on; simpl. by rewrite app_assoc. Qed.

Lemma draw_fits call img :
  cv2.call_fits call = true ->
  cv2.draw call img = Ok ((fun m => drawn_on m [call]) <$> img).
Proof. unfold cv2.draw. intros ->. by destruct img. Qed.

Lemma draw_inv call img img' :
  cv2.draw call img = Ok img' ->
  cv2.call_fits call = true /\ img' = (fun m => drawn_on m [call]) <$> img.
Proof.
  unfold cv2.draw. destruct (cv2.call_fits call); [|done].
  intros [= <-]. by destruct img.
Qed.

Lemma draw_raise call img e :
  cv2.draw call img = Raise e -> cv2.call_fits call = false /\ e = Cv2Error.
Proof.
  unfold cv2.draw. destruct (cv2.call_fits call); [done|]. by intros [= <-].
Qed.

Lemma annotate_box_inv E box st st' :
  annotate_box E box st = Ok st' ->
  known_class E box /\ box_fits E box /\
  st' = locals_after E [box] (l_img st) st.
Proof.
  unfold annotate_box, names_getitem, known_class, box_fits, locals_after,
    box_draw_calls, box_detection, box_label, box_class_name,
    cv2.rectangle, cv2.putText.
  unfold_outcome. simpl.
  destruct (model_names E !! cls box) as [name|] eqn:Hn; [|done].
  destruct (xyxy box) as [[[x1 y1] x2] y2]. simpl.
  destruct (cv2.draw _ (l_img st)) as [img1|] eqn:H1; [|done].
  destruct (cv2_getTextSize E _) as [lw lh]. simpl.
  destruct (cv2.draw _ img1) as [img2|] eqn:H2; [|done].
  destruct (cv2.draw _ img2) as [img3|] eqn:H3; [|done].
  apply draw_inv in H1 as [F1 ->], H2 as [F2 ->], H3 as [F3 ->].
  intros [= <-]. split; [by eexists|]. split.
  { by repeat constructor. }
  f_equal. destruct (l_img st) as [m|]; simpl; [|done].
  by rewrite !drawn_on_app.
Qed.

Lemma annotate_box_ok E box st :
  known_class E box -> box_fits E box ->
  annotate_box E box st = Ok (locals_after E [box] (l_img st) st).
Proof.
  intros [name Hn].
  unfold annotate_box, names_getitem, box_fits, locals_after, box_draw_calls,
    box_detection, box_label, box_class_name, cv2.rectangle, cv2.putText.
  unfold_outcome. simpl. rewrite Hn.
  destruct (xyxy box) as [[[x1 y1] x2] y2]. simpl.
  destruct (cv2_getTextSize E _) as [lw lh]. simpl.
  intros Hfit.
  inversion_clear Hfit as [|? ? F1 Hfit']. inversion_clear Hfit' as [|? ? F2 Hfit].
  inversion_clear Hfit as [|? ? F3 _].
  rewrite (draw_fits _ _ F1), (draw_fits _ _ F2), (draw_fits _ _ F3).
  f_equal. f_equal. destruct (l_img st) as [m|]; simpl; [|done].
  by rewrite !drawn_on_app.
Qed.

Lemma annotate_box_raise E box st e :
  annotate_box E box st = Raise e ->
  ~ known_class E box /\ e = KeyError \/
  known_class E box /\ ~ box_fits E box /\ e = Cv2Error.
Proof.
  unfold annotate_box, names_getitem, known_class, box_fits,
    box_draw_calls, box_label, box_class_name, cv2.rectangle, cv2.putText.
  unfold_outcome. simpl.
  destruct (model_names E !! cls box) as [name|] eqn:Hn.
  2: { intros [= <-]. left. split; [|done]. by intros [? ?]. }
  destruct (xyxy box) as [[[x1 y1] x2] y2]. simpl.
  destruct (cv2_getTextSize E _) as [lw lh]. simpl.
  intros H. right. split; [by eexists|].
  destruct (cv2.draw _ (l_img st)) as [img1|e1] eqn:H1.
  2: { injection H as <-. apply draw_raise in H1 as [F ->]. split; [|done].
       intros Hfit. inversion_clear Hfit as [|? ? F1 _]. congruence. }
  destruct (cv2.draw _ img1) as [img2|e2] eqn:H2.
  2: { injection H as <-. apply draw_raise in H2 as [F ->]. split; [|done].
       intros Hfit. inversion_clear Hfit as [|? ? _ Hfit'].
       inversion_clear Hfit' as [|? ? F2 _]. congruence. }
  destruct (cv2.draw _ img2) as [img3|e3] eqn:H3; [done|].
  injection H as <-. apply draw_raise in H3 as [F ->]. split; [|done].
  intros Hfit. inversion_clear Hfit as [|? ? _ Hfit'].
  inversion_clear Hfit' as [|? ? _ Hfit]. inversion_clear Hfit as [|? ? F3 _].
  congruence.
Qed.

Lemma locals_after_fresh_nil E img :
  locals_after E [] img (fresh_locals img) = fresh_locals img.
Proof.
  unfold locals_after, fresh_locals; simpl. f_equal.
  destruct img as [m|]; simpl; [|done]. by rewrite drawn_on_nil.
Qed.

Lemma locals_after_cons E b boxes img st :
  locals_after E boxes (l_img (locals_after E [b] img st))
    (locals_after E [b] img st)
  = locals_after E (b :: boxes) img st.
Proof.
  unfold locals_after; simpl. rewrite <- !app_assoc. simpl. f_equal.
  destruct img as [m|]; simpl; [|done].
  by rewrite app_nil_r, drawn_on_app.
Qed.

Lemma locals_after_img E boxes img st :
  l_img (locals_after E boxes img st)
  = (fun m => drawn_on m (concat (map (box_draw_calls E) boxes))) <$> img.
Proof. done. Qed.

Lemma locals_after_self E st : locals_after E [] (l_img st) st = st.
Proof.
  destruct st as [img ? ? ?]; unfold locals_after; simpl.
  rewrite !app_nil_r. f_equal.
  destruct img as [m|]; simpl; [|done]. by rewrite drawn_on_nil.
Qed.

Lemma for_boxes_inv E boxes : forall st st',
  for_boxes E boxes st = Ok st' ->
  Forall (known_class E) boxes /\ Forall (box_fits E) boxes /\
  st' = locals_after E boxes (l_img st) st.
Proof.
  induction boxes as [|b boxes IH]; simpl; intros st st' H.
  - injection H as <-. do 2 (split; [constructor|]).
    by rewrite locals_after_self.
  - unfold_outcome.
    destruct (annotate_box E b st) as [st1|] eqn:Hb; [|done].
    apply annotate_box_inv in Hb as (Hk & Hf & ->).
    apply IH in H as (Hall & Hfits & ->).
    do 2 (split; [by constructor|]).
    apply locals_after_cons.
Qed.

Lemma for_boxes_ok E boxes : forall st,
  Forall (known_class E) boxes -> Forall (box_fits E) boxes ->
  for_boxes E boxes st = Ok (locals_after E boxes (l_img st) st).
Proof.
  induction boxes as [|b boxes IH]; intros st Hall Hfits.
  - simpl. by rewrite locals_after_self.
  - inversion_clear Hall as [|? ? Hb Hrest].
    inversion_clear Hfits as [|? ? Hf Hfrest]. simpl. unfold_outcome.
    rewrite (annotate_box_ok E b st Hb Hf).
    rewrite (IH _ Hrest Hfrest). by rewrite locals_after_cons.
Qed.

Lemma process_results_inv E boxes img status st :
  process_results E boxes img = Ok (status, st) ->
  Forall (known_class E) boxes /\ Forall (box_fits E) boxes /\
  status = status_of boxes /\
  st = locals_after E boxes img (fresh_locals img).
Proof.
  unfold process_results, status_of. fold (fresh_locals img).
  destruct boxes as [|b boxes].
  - simpl. intros [= <- <-]. do 2 (split; [constructor|]).
    split; [done|]. by rewrite locals_after_fresh_nil.
  - change (0 <? length (b :: boxes))%nat with true. cbv iota.
    unfold_outcome.
    destruct (for_boxes E (b :: boxes) (fresh_locals img)) as [st2|] eqn:H;
      [|done].
    intros [= <- <-].
    apply for_boxes_inv in H as (Hall & Hfits & ->). done.
Qed.

Lemma process_results_ok E boxes img :
  Forall (known_class E) boxes -> Forall (box_fits E) boxes ->
  process_results E boxes img
  = Ok (status_of boxes, locals_after E boxes img (fresh_locals img)).
Proof.
  intros Hall Hfits. unfold process_results, status_of.
  fold (fresh_locals img).
  destruct boxes as [|b boxes].
  - simpl. by rewrite locals_after_fresh_nil.
  - change (0 <? length (b :: boxes))%nat with true. cbv iota.
    unfold mbind, Outcome_bind.
    by rewrite (for_boxes_ok E (b :: boxes) (fresh_locals img) Hall Hfits).
Qed.

(** ** The upload handler, step by step *)

Lemma upload_process_run E A sess file file_ext w :
  upload_process E A sess file file_ext w =
  match fs_resolve E (image_path_of A sess file_ext) with
  | None => (Raise OSError, w)
  | Some saved =>
      let w1 := world_analysed A sess file file_ext saved w in
      match model_boxes E (stream file) with
      | Raise e => (Raise e, w1)
      | Ok boxes =>
          match process_results E boxes (cv2_imdecode E (stream file)) with
          | Raise e => (Raise e, w1)
          | Ok (status, st) =>
              match l_img st with
              | None => (Raise Cv2Error, w1)
              | Some m =>
                  (Ok (result_page A sess file_ext status st),
                   world_recorded E A sess file file_ext status st saved m w)
              end
          end
      end
  end.
Proof.
  unfold upload_process, file_save, model_call, cv2.imread, cv2.imwrite,
    file_at, insert_detection_history, lift, gets, modify.
  fold (image_path_of A sess file_ext). fold (result_path_of A sess file_ext).
  destruct (fs_resolve E (image_path_of A sess file_ext)) as [saved|] eqn:Hs.
  2: { by unfold mbind, mret, M_bind, M_ret. }
  unfold mbind, mret, M_bind, M_ret. simpl.
  rewrite lookup_insert_eq.
  unfold world_analysed.
  destruct (model_boxes E (stream file)) as [boxes|e]; [|done].
  simpl. rewrite lookup_insert_eq.
  destruct (process_results E boxes _) as [[status st]|e]; [|done].
  destruct (l_img st) as [m|]; [|done].
  unfold world_recorded, files_written, world_analysed. simpl.
  by destruct (fs_resolve E (result_path_of A sess file_ext)).
Qed.

(** ** The queries *)

Section Queries.

Implicit Types (r : Row) (rows : list Row) (uid t : Z).

Lemma place_Permutation r rows : sql.place r rows ≡ₚ r :: rows.
Proof.
  induction rows as [|r' rows IH]; simpl; [done|].
  destruct (timestamp r' <=? timestamp r); [done|].
  rewrite IH. apply Permutation_swap.
Qed.

Lemma order_by_Permutation rows : sql.order_by_timestamp_desc rows ≡ₚ rows.
Proof.
  induction rows as [|r rows IH]; simpl; [done|].
  by rewrite place_Permutation, IH.
Qed.

Lemma place_HdRel a r rows :
  timestamp r < timestamp a -> HdRel not_older a rows ->
  HdRel not_older a (sql.place r rows).
Proof.
  intros Hlt Hhd. destruct rows as [|r' rows]; simpl.
  - constructor. unfold not_older. lia.
  - destruct (timestamp r' <=? timestamp r).
    + constructor. unfold not_older. lia.
    + constructor. by inversion Hhd.
Qed.

Lemma place_Sorted r rows :
  Sorted not_older rows -> Sorted not_older (sql.place r rows).
Proof.
  induction rows as [|r' rows IH]; simpl; intros Hs.
  - by repeat constructor.
  - destruct (timestamp r' <=? timestamp r) eqn:Hle.
    + constructor; [done|]. constructor. unfold not_older. lia.
    + inversion_clear Hs as [|? ? Hrest Hhd].
      constructor; [by apply IH|]. apply place_HdRel; [lia | done].
Qed.

Lemma order_by_Sorted rows :
  Sorted not_older (sql.order_by_timestamp_desc rows).
Proof.
  induction rows as [|r rows IH]; simpl; [constructor|].
  by apply place_Sorted.
Qed.

(** The sort is stable: rows that share a timestamp keep the order the
    table scan met them in. *)
Lemma place_same_timestamp t r rows :
  filter (fun x => timestamp x = t) (sql.place r rows)
  = filter (fun x => timestamp x = t) (r :: rows).
Proof.
  induction rows as [|r' rows IH]; simpl; [done|].
  destruct (timestamp r' <=? timestamp r) eqn:Hle; [done|].
  rewrite filter_cons, IH, !filter_cons.
  destruct (decide (timestamp r' = t)), (decide (timestamp r = t)); try done.
  lia.
Qed.

Lemma order_by_stable t rows :
  filter (fun x => timestamp x = t) (sql.order_by_timestamp_desc rows)
  = filter (fun x => timestamp x = t) rows.
Proof.
  induction rows as [|r rows IH]; simpl; [done|].
  by rewrite place_same_timestamp, !filter_cons, IH.
Qed.

Lemma Sorted_take {A} (R : A -> A -> Prop) (l : list A) n :
  Sorted R l -> Sorted R (take n l).
Proof.
  revert n. induction l as [|a l IH]; intros [|n] Hs; simpl;
    try constructor.
  - apply IH. by inversion Hs.
  - inversion_clear Hs as [|? ? _ Hhd].
    destruct l, n; simpl; constructor. by inversion Hhd.
Qed.

Lemma select_history_limit uid n w :
  sql.select_history uid (Some n) w = take n (sql.select_history uid None w).
Proof. done. Qed.

Lemma select_history_all_Permutation uid w :
  sql.select_history uid None w ≡ₚ sql.where_user uid (detection_history w).
Proof. apply order_by_Permutation. Qed.

Lemma select_history_elem uid n w r :
  r ∈ sql.select_history uid n w ->
  user_id r = uid /\ r ∈ detection_history w.
Proof.
  intros Hin.
  assert (r ∈ sql.select_history uid None w) as Hall.
  { destruct n as [k|]; [|done].
    rewrite select_history_limit in Hin.
    eapply elem_of_sublist; [exact Hin | apply sublist_take]. }
  rewrite select_history_all_Permutation in Hall.
  unfold sql.where_user in Hall. by apply list_elem_of_filter in Hall.
Qed.

Lemma select_history_Sorted uid n w :
  Sorted not_older (sql.select_history uid n w).
Proof.
  unfold sql.select_history, sql.limit.
  destruct n; [apply Sorted_take|]; apply order_by_Sorted.
Qed.

End Queries.

(** The extension the handler checks. *)
Example file_ext_upper :
  file_ext_of {| filename := "car.JPG"; stream := [] |} = "jpg"%string.
Proof. reflexivity. Qed.

Example file_ext_last_dot :
  file_ext_of {| filename := "scan.png.exe"; stream := [] |} = "exe"%string.
Proof. reflexivity. Qed.

Example file_ext_no_dot :
  file_ext_of {| filename := "png"; stream := [] |} = "png"%string.
Proof. reflexivity. Qed.

Lemma upload_accepted E A req sess file w :
  accepted req sess file ->
  upload E A req w = upload_process E A sess file (file_ext_of file) w.
Proof.
  intros (Hs & Hm & Hf & Hname & Hext). unfold upload.
  rewrite Hs, Hm, Hf.
  destruct (String.eqb_spec (filename file) "") as [|_]; [done|].
  by rewrite bool_decide_eq_true_2.
Qed.

Lemma upload_cases E A req w :
  (exists sess file, accepted req sess file) \/
  (exists resp, upload E A req w = (Ok resp, w)).
Proof.
  unfold upload, accepted.
  destruct (session req) as [sess|]; [|right; by eexists].
  destruct (method req); [right; by eexists|].
  destruct (files_image req) as [file|]; [|right; by eexists].
  destruct (String.eqb_spec (filename file) "") as [|Hname];
    [right; by eexists|].
  destruct (decide (file_ext_of file ∈ allowed_extensions)) as [Hext|Hext].
  - left. by exists sess, file.
  - right. rewrite bool_decide_eq_false_2 by done. by eexists.
Qed.

(** Whenever a request leaves a new row, it was an accepted upload whose
    detection, decoding and annotation all went through. *)
Lemma record_created_inv E A req w out w' :
  upload E A req w = (out, w') ->
  detection_history w' <> detection_history w ->
  exists sess file boxes status st m saved,
    accepted req sess file /\
    model_boxes E (stream file) = Ok boxes /\
    process_results E boxes (cv2_imdecode E (stream file)) = Ok (status, st) /\
    l_img st = Some m /\
    out = Ok (result_page A sess (file_ext_of file) status st) /\
    w' = world_recorded E A sess file (file_ext_of file) status st saved m w /\
    fs_resolve E (image_path_of A sess (file_ext_of file)) = Some saved.
Proof.
  intros Hrun Hnew.
  destruct (upload_cases E A req w) as [(sess & file & Hacc) | [resp Hsame]].
  2: { rewrite Hsame in Hrun. by injection Hrun as <- <-. }
  rewrite (upload_accepted E A req sess file w Hacc) in Hrun.
  rewrite upload_process_run in Hrun. cbv zeta in Hrun.
  exists sess, file.
  destruct (fs_resolve E _) as [saved|] eqn:Hsaved;
    [|by injection Hrun as <- <-].
  destruct (model_boxes E (stream file)) as [boxes|e];
    [|by injection Hrun as <- <-].
  destruct (process_results E boxes _) as [[status st]|e] eqn:Hres;
    [|by injection Hrun as <- <-].
  destruct (l_img st) as [m|] eqn:Himg; [|by injection Hrun as <- <-].
  injection Hrun as <- <-. by exists boxes, status, st, m, saved.
Qed.

(** An accepted upload goes through when its path can be opened, the
    detector answers, the image decodes, every class id is named and every
    coordinate passes OpenCV's check. *)
Lemma upload_ok E A req sess file boxes m saved w :
  accepted req sess file ->
  fs_resolve E (image_path_of A sess (file_ext_of file)) = Some saved ->
  model_boxes E (stream file) = Ok boxes ->
  cv2_imdecode E (stream file) = Some m ->
  Forall (known_class E) boxes ->
  Forall (box_fits E) boxes ->
  let st := locals_after E boxes (Some m) (fresh_locals (Some m)) in
  let m' := drawn_on m (concat (map (box_draw_calls E) boxes)) in
  upload E A req w =
  (Ok (result_page A sess (file_ext_of file) (status_of boxes) st),
   world_recorded E A sess file (file_ext_of file) (status_of boxes) st
     saved m' w).
Proof.
  intros Hacc Hsaved Hboxes Himg Hknown Hfits st m'.
  rewrite (upload_accepted E A req sess file w Hacc), upload_process_run.
  cbv zeta.
  rewrite Hsaved, Hboxes, Himg, (process_results_ok E boxes _ Hknown Hfits).
  done.
Qed.

Lemma process_results_status E boxes img status st :
  process_results E boxes img = Ok (status, st) ->
  status = status_of boxes /\ length (l_detections st) = length boxes.
Proof.
  intros H. apply process_results_inv in H as (_ & _ & -> & ->).
  split; [done|]. unfold locals_after; simpl. by rewrite length_map.
Qed.

Lemma status_of_Broken boxes :
  status_of boxes = "Broken"%string <-> (0 < length boxes)%nat.
Proof. destruct boxes; simpl; split; intros H; try done; lia. Qed.

Lemma status_of_Non_Broken boxes :
  status_of boxes = "Non-Broken"%string <-> length boxes = 0%nat.
Proof. destruct boxes; simpl; split; intros H; done. Qed.

Lemma unique_filename_relative A sess file_ext :
  Py.startswith "/" (session_username sess) = false ->
  Py.startswith "/" (unique_filename A sess file_ext) = false.
Proof. unfold unique_filename. by destruct (session_username sess). Qed.

Lemma folders_differ name :
  Py.startswith "/" name = false ->
  Py.os_path_join UPLOAD_FOLDER name <> Py.os_path_join RESULT_FOLDER name.
Proof.
  intros Hrel. unfold Py.os_path_join. rewrite Hrel. simpl. intros [=].
Qed.

(** Two finding sets of the same size get the same status, whatever their
    classes and confidences. *)
Lemma status_depends_on_count_only E boxes1 boxes2 img1 img2 s1 s2 st1 st2 :
  process_results E boxes1 img1 = Ok (s1, st1) ->
  process_results E boxes2 img2 = Ok (s2, st2) ->
  length boxes1 = length boxes2 -> s1 = s2.
Proof.
  intros H1 H2 Hlen.
  apply process_results_status in H1 as [-> _].
  apply process_results_status in H2 as [-> _].
  unfold status_of. by rewrite Hlen.
Qed.

(** ** The upload pipeline *)

(** C1. Whenever an upload leaves a record, its status is "Broken" (Fail)
    exactly when the detector returned at least one box for the uploaded
    file, and "Non-Broken" (Pass) exactly when it returned none: the status
    depends on the number of findings alone, not on their classes or
    confidences. *)
Theorem status_broken_iff_findings E A req w out w' :
  upload E A req w = (out, w') ->
  detection_history w' <> detection_history w ->
  exists file boxes r,
    files_image req = Some file /\
    model_boxes E (stream file) = Ok boxes /\
    detection_history w' = detection_history w ++ [r] /\
    (vehicle_status r = "Broken"%string <-> (0 < length boxes)%nat) /\
    (vehicle_status r = "Non-Broken"%string <-> length boxes = 0%nat).
Proof.
  intros Hrun Hnew.
  destruct (record_created_inv E A req w out w' Hrun Hnew)
    as (sess & file & boxes & status & st & m & saved & Hacc & Hb & Hres & _ & _
        & -> & _).
  apply process_results_status in Hres as [-> _].
  exists file, boxes, (history_row A sess (file_ext_of file) (status_of boxes) st w).
  split; [apply Hacc|]. split; [done|]. split; [done|]. simpl.
  split; [apply status_of_Broken | apply status_of_Non_Broken].
Qed.

Lemma status_broken_iff_findings_witness :
  let run := upload demo_E (demo_A "4e5f6a7b" 100)
               (demo_post amy "dent.JPG" [1; 9]) initial_world in
  detection_history run.2 <> detection_history initial_world /\
  exists file boxes r,
    files_image (demo_post amy "dent.JPG" [1; 9]) = Some file /\
    model_boxes demo_E (stream file) = Ok boxes /\
    detection_history run.2 = detection_history initial_world ++ [r] /\
    (vehicle_status r = "Broken"%string <-> (0 < length boxes)%nat) /\
    (vehicle_status r = "Non-Broken"%string <-> length boxes = 0%nat).
Proof.
  intros run. split; [by vm_compute|].
  apply (status_broken_iff_findings demo_E (demo_A "4e5f6a7b" 100)
           (demo_post amy "dent.JPG" [1; 9]) initial_world run.1 run.2).
  - apply surjective_pairing.
  - by vm_compute.
Defined.

(** C2. Whenever an upload leaves a record, the stored [detection_count] is
    the number of boxes the detector returned for the uploaded file (zero
    when it returned none). *)
Theorem detection_count_is_number_of_findings E A req w out w' :
  upload E A req w = (out, w') ->
  detection_history w' <> detection_history w ->
  exists file boxes r,
    files_image req = Some file /\
    model_boxes E (stream file) = Ok boxes /\
    detection_history w' = detection_history w ++ [r] /\
    detection_count r = length boxes.
Proof.
  intros Hrun Hnew.
  destruct (record_created_inv E A req w out w' Hrun Hnew)
    as (sess & file & boxes & status & st & m & saved & Hacc & Hb & Hres & _ & _
        & -> & _).
  apply process_results_status in Hres as [-> Hlen].
  exists file, boxes, (history_row A sess (file_ext_of file) (status_of boxes) st w).
  split; [apply Hacc|]. done.
Qed.

Lemma detection_count_is_number_of_findings_witness :
  let run := upload demo_E (demo_A "4e5f6a7b" 100)
               (demo_post amy "dent.JPG" [1; 9]) initial_world in
  detection_history run.2 <> detection_history initial_world /\
  exists file boxes r,
    files_image (demo_post amy "dent.JPG" [1; 9]) = Some file /\
    model_boxes demo_E (stream file) = Ok boxes /\
    detection_history run.2 = detection_history initial_world ++ [r] /\
    detection_count r = length boxes.
Proof.
  intros run. split; [by vm_compute|].
  apply (detection_count_is_number_of_findings demo_E (demo_A "4e5f6a7b" 100)
           (demo_post amy "dent.JPG" [1; 9]) initial_world run.1 run.2).
  - apply surjective_pairing.
  - by vm_compute.
Defined.


(** What is stored after that upload: one file, the annotated image. *)
Example demo_one_file :
  let run := upload demo_E (demo_A "0a1b2c3d" 100)
               (demo_post mallory "car.png" [1; 9]) initial_world in
  map (fun r => (original_image r, result_image r)) (detection_history run.2)
    = [("/tmp/x_20240101_120000_0a1b2c3d.png"%string,
        "/tmp/x_20240101_120000_0a1b2c3d.png"%string)] /\
  map fst (map_to_list (files run.2))
    = ["/tmp/x_20240101_120000_0a1b2c3d.png"%string] /\
  exists m,
    files run.2 !! "/tmp/x_20240101_120000_0a1b2c3d.png"%string
      = Some (Written m).
Proof. split; [by vm_compute|]. split; [by vm_compute|]. by eexists. Qed.



Lemma elem_of_concat_map {A B} (f : A -> list B) (l : list A) a b :
  a ∈ l -> b ∈ f a -> b ∈ concat (map f l).
Proof.
  induction 1 as [a l|a a' l _ IH]; simpl; intros Hb;
    apply elem_of_app; [by left | right; by apply IH].
Qed.

Lemma box_class_name_known E b name :
  model_names E !! cls b = Some name -> box_class_name E b = name.
Proof. unfold box_class_name. by intros ->. Qed.

(** C7. A class name outside [DEFECT_COLORS] gets the one fallback colour
    (0, 255, 0). Whatever the classes of the boxes, an accepted upload goes
    through once its path opens for [file.save], the image decodes, the
    model names every class id and every coordinate is one OpenCV takes:
    the page and the record are produced, every box is counted, and each
    box of an unlisted class is drawn with the fallback colour and listed
    among the detections. The outcome is a function of the inputs. *)
Theorem unknown_class_fallback_colour E A req sess file boxes m saved w :
  accepted req sess file ->
  fs_resolve E (image_path_of A sess (file_ext_of file)) = Some saved ->
  model_boxes E (stream file) = Ok boxes ->
  cv2_imdecode E (stream file) = Some m ->
  Forall (known_class E) boxes ->
  Forall (box_fits E) boxes ->
  exists rd m' r w',
    upload E A req w =
      (Ok (render_template "upload.html"
             [("Image processed successfully!", "success")]
             {| up_username := session_username sess;
                up_result_data := Some rd |}), w') /\
    (forall result,
       fs_resolve E (rd_result_image rd) = Some result ->
       files w' !! result = Some (Written m')) /\
    detection_history w' = detection_history w ++ [r] /\
    detection_count r = length boxes /\
    rd_detection_count rd = length boxes /\
    forall b name,
      b ∈ boxes ->
      model_names E !! cls b = Some name ->
      DEFECT_COLORS !! name = None ->
      DEFECT_COLORS_get name = (0, 255, 0) /\
      (let '(x1, y1, x2, y2) := xyxy b in
       Rectangle (x1, y1) (x2, y2) (0, 255, 0) 3 ∈ mat_drawn m') /\
      {| detection_class := name;
         detection_confidence := format_percent E 2 (conf b) |}
        ∈ rd_detections rd.
Proof.
  intros Hacc Hsaved Hboxes Himg Hknown Hfits.
  pose proof (upload_ok E A req sess file boxes m saved w Hacc Hsaved Hboxes
                Himg Hknown Hfits) as Hrun. cbv zeta in Hrun.
  eexists _, _, _, _. split; [exact Hrun|]. simpl.
  split. { intros result ->. apply lookup_insert_eq. }
  split; [done|].
  split; [simpl; by rewrite length_map|]. split; [by rewrite length_map|].
  intros b name Hb Hname Hcolor.
  assert (DEFECT_COLORS_get name = (0, 255, 0)) as Hget.
  { unfold DEFECT_COLORS_get. by rewrite Hcolor. }
  split; [done|]. split.
  - destruct (xyxy b) as [[[x1 y1] x2] y2] eqn:Hxy.
    apply elem_of_app. right.
    apply (elem_of_concat_map (box_draw_calls E) boxes b); [done|].
    unfold box_draw_calls. rewrite Hxy, (box_class_name_known E b name Hname).
    destruct (cv2_getTextSize E _). rewrite Hget. apply list_elem_of_here.
  - apply list_elem_of_In, in_map_iff. exists b. split.
    + unfold box_detection. by rewrite (box_class_name_known E b name Hname).
    + by apply list_elem_of_In.
Qed.

Lemma unknown_class_fallback_colour_witness :
  let req := demo_post amy "dent.JPG" [1; 9] in
  let file := {| filename := "dent.JPG"; stream := [1; 9] |} in
  let boxes := [demo_dent; demo_rust] in
  let A := demo_A "4e5f6a7b" 100 in
  let m := {| mat_rows := 480; mat_cols := 640; mat_data := [1; 9];
              mat_drawn := [] |} in
  accepted req amy file /\
  fs_resolve demo_E (image_path_of A amy (file_ext_of file))
    = Some "static/uploads/amy_20240101_120000_4e5f6a7b.jpg"%string /\
  model_boxes demo_E (stream file) = Ok boxes /\
  cv2_imdecode demo_E (stream file) = Some m /\
  Forall (known_class demo_E) boxes /\
  Forall (box_fits demo_E) boxes /\
  exists rd m' r w',
    upload demo_E A req initial_world =
      (Ok (render_template "upload.html"
             [("Image processed successfully!", "success")]
             {| up_username := session_username amy;
                up_result_data := Some rd |}), w') /\
    (forall result,
       fs_resolve demo_E (rd_result_image rd) = Some result ->
       files w' !! result = Some (Written m')) /\
    detection_history w' = detection_history initial_world ++ [r] /\
    detection_count r = length boxes /\
    rd_detection_count rd = length boxes /\
    forall b name,
      b ∈ boxes ->
      model_names demo_E !! cls b = Some name ->
      DEFECT_COLORS !! name = None ->
      DEFECT_COLORS_get name = (0, 255, 0) /\
      (let '(x1, y1, x2, y2) := xyxy b in
       Rectangle (x1, y1) (x2, y2) (0, 255, 0) 3 ∈ mat_drawn m') /\
      {| detection_class := name;
         detection_confidence := format_percent demo_E 2 (conf b) |}
        ∈ rd_detections rd.
Proof.
  intros req file boxes A m.
  assert (accepted req amy file) as Hacc by (repeat split; done).
  assert (Forall (known_class demo_E) boxes) as Hknown
    by (repeat constructor; by eexists).
  assert (Forall (box_fits demo_E) boxes) as Hfits
    by (repeat constructor).
  do 5 (split; [done|]). split; [done|].
  exact (unknown_class_fallback_colour demo_E A req amy file boxes m _
           initial_world Hacc eq_refl eq_refl eq_refl Hknown Hfits).
Defined.

(** C8. An accepted upload for which the detector returns no box still runs
    every step, once its path opens for [file.save] and the image decodes:
    the model is called on the saved file, the decoded image is written to
    the file its path in the results folder names as it was read (same
    shape and pixels, nothing drawn), and a row with status "Non-Broken"
    and count 0 is inserted. *)
Theorem empty_findings_full_pipeline E A req sess file m saved w :
  accepted req sess file ->
  fs_resolve E (image_path_of A sess (file_ext_of file)) = Some saved ->
  model_boxes E (stream file) = Ok [] ->
  cv2_imdecode E (stream file) = Some m ->
  exists rd r w',
    upload E A req w =
      (Ok (render_template "upload.html"
             [("Image processed successfully!", "success")]
             {| up_username := session_username sess;
                up_result_data := Some rd |}), w') /\
    rd_vehicle_status rd = "Non-Broken"%string /\
    rd_detections rd = [] /\ rd_detection_count rd = 0%nat /\
    inferences w' = inferences w ++ [rd_original_image rd] /\
    (forall result,
       fs_resolve E (rd_result_image rd) = Some result ->
       files w' !! result = Some (Written m)) /\
    detection_history w' = detection_history w ++ [r] /\
    user_id r = session_user_id sess /\
    vehicle_status r = "Non-Broken"%string /\
    detection_count r = 0%nat /\
    defect_classes r = "None"%string /\
    confidence_scores r = "N/A"%string.
Proof.
  intros Hacc Hsaved Hboxes Himg.
  pose proof (upload_ok E A req sess file [] m saved w Hacc Hsaved Hboxes Himg
                (Forall_nil_2 _) (Forall_nil_2 _)) as Hrun.
  cbv zeta in Hrun. simpl in Hrun. rewrite drawn_on_nil in Hrun.
  eexists _, _, _. split; [exact Hrun|]. simpl.
  do 4 (split; [done|]).
  split. { intros result ->. apply lookup_insert_eq. }
  done.
Qed.

Lemma empty_findings_full_pipeline_witness :
  let req := demo_post amy "clean.png" [0; 9] in
  let file := {| filename := "clean.png"; stream := [0; 9] |} in
  let A := demo_A "0a1b2c3d" 100 in
  let m := {| mat_rows := 480; mat_cols := 640; mat_data := [0; 9];
              mat_drawn := [] |} in
  accepted req amy file /\
  fs_resolve demo_E (image_path_of A amy (file_ext_of file))
    = Some "static/uploads/amy_20240101_120000_0a1b2c3d.png"%string /\
  model_boxes demo_E (stream file) = Ok [] /\
  cv2_imdecode demo_E (stream file) = Some m /\
  exists rd r w',
    upload demo_E A req initial_world =
      (Ok (render_template "upload.html"
             [("Image processed successfully!", "success")]
             {| up_username := session_username amy;
                up_result_data := Some rd |}), w') /\
    rd_vehicle_status rd = "Non-Broken"%string /\
    rd_detections rd = [] /\ rd_detection_count rd = 0%nat /\
    inferences w' = inferences initial_world ++ [rd_original_image rd] /\
    (forall result,
       fs_resolve demo_E (rd_result_image rd) = Some result ->
       files w' !! result = Some (Written m)) /\
    detection_history w' = detection_history initial_world ++ [r] /\
    user_id r = session_user_id amy /\
    vehicle_status r = "Non-Broken"%string /\
    detection_count r = 0%nat /\
    defect_classes r = "None"%string /\
    confidence_scores r = "N/A"%string.
Proof.
  intros req file A m.
  assert (accepted req amy file) as Hacc by (repeat split; done).
  do 4 (split; [done|]).
  exact (empty_findings_full_pipeline demo_E A req amy file m _ initial_world
           Hacc eq_refl eq_refl eq_refl).
Defined.

(** C9, as stated, fails: a GIF sent under the name car.png is saved and
    handed to the detector; only the name is looked at. *)
Lemma other_formats_not_rejected :
  ~ rejects_other_formats demo_E (demo_A "0a1b2c3d" 100)
      (demo_post amy "car.png" demo_gif) initial_world.
Proof.
  intros H.
  specialize (H {| filename := "car.png"; stream := demo_gif |}
                eq_refl eq_refl eq_refl).
  apply (f_equal inferences) in H. vm_compute in H. discriminate.
Qed.

(** What the handler does with that upload, and with two bytes that are no
    image format at all for which the detector answers. *)
Example demo_other_format_run :
  let run := upload demo_E (demo_A "0a1b2c3d" 100)
               (demo_post amy "car.png" demo_gif) initial_world in
  files run.2 !! "static/uploads/amy_20240101_120000_0a1b2c3d.png"%string
    = Some (Uploaded demo_gif) /\
  inferences run.2
    = ["static/uploads/amy_20240101_120000_0a1b2c3d.png"%string].
Proof. by vm_compute. Qed.

Example demo_other_format_recorded :
  let run := upload demo_E (demo_A "0a1b2c3d" 100)
               (demo_post amy "car.png" [1; 9]) initial_world in
  is_jpeg [1; 9] = false /\ is_png [1; 9] = false /\
  map (fun r => (row_id r, vehicle_status r, detection_count r))
      (detection_history run.2)
  = [(1, "Broken"%string, 2%nat)].
Proof. by vm_compute. Qed.

(** C9, as amended. A request whose file has an extension (the text after
    the last dot of its name, lower-cased) other than jpg, jpeg and png is
    answered without touching the world: nothing is saved, the model is not
    called, nothing is written and no row is inserted. For a logged-in POST
    with a named file the answer is the upload form with the "Invalid file
    type" message; no exception is raised. *)
Theorem unsupported_extension_rejected E A req file w :
  files_image req = Some file ->
  file_ext_of file ∉ allowed_extensions ->
  exists resp,
    upload E A req w = (Ok resp, w) /\
    forall sess,
      session req = Some sess -> method req = POST ->
      filename file <> ""%string ->
      resp = upload_form sess [invalid_file_type].
Proof.
  intros Hf Hext. unfold upload. rewrite Hf.
  destruct (session req) as [sess|]; [|by eexists].
  destruct (method req); [by eexists|].
  destruct (String.eqb_spec (filename file) "") as [|Hname].
  - eexists. split; [done|]. by intros ? _ _ ?.
  - rewrite bool_decide_eq_false_2 by done.
    eexists. split; [done|]. by intros ? [= ->] _ _.
Qed.

Lemma unsupported_extension_rejected_witness :
  let req := demo_post amy "car.gif" [1; 9] in
  let file := {| filename := "car.gif"; stream := [1; 9] |} in
  files_image req = Some file /\
  (file_ext_of file ∉ allowed_extensions) /\
  exists resp,
    upload demo_E (demo_A "0a1b2c3d" 100) req demo_world = (Ok resp, demo_world) /\
    forall sess,
      session req = Some sess -> method req = POST ->
      filename file <> ""%string ->
      resp = upload_form sess [invalid_file_type].
Proof.
  intros req file.
  assert (file_ext_of file ∉ allowed_extensions) as Hext
    by (apply (proj1 (bool_decide_eq_false _)); by vm_compute).
  repeat (split; [done|]).
  exact (unsupported_extension_rejected demo_E (demo_A "0a1b2c3d" 100) req
           file demo_world eq_refl Hext).
Defined.

(** ** Detector output is not validated *)

(** C6, as stated, fails: the detector hands back an inverted box with a
    NaN confidence and a box with confidence 1.5, and the request neither
    raises nor leaves the table unchanged. *)
Lemma malformed_findings_not_rejected :
  ~ rejects_malformed demo_E (demo_A "0a1b2c3d" 100)
      (demo_post amy "car.png" [2; 9]) initial_world.
Proof.
  intros H.
  destruct (H {| filename := "car.png"; stream := [2; 9] |}
              [demo_inverted; demo_overconfident] eq_refl eq_refl)
    as [[e He] _].
  - constructor. by left.
  - vm_compute in He. discriminate.
Qed.

(** What the handler does with that detector output. *)
Example demo_malformed_run :
  let run := upload demo_E (demo_A "0a1b2c3d" 100)
               (demo_post amy "car.png" [2; 9]) initial_world in
  (exists resp, run.1 = Ok resp) /\
  map (fun r => (row_id r, vehicle_status r, detection_count r))
      (detection_history run.2)
  = [(1, "Broken"%string, 2%nat)].
Proof. split; [by eexists | by vm_compute]. Qed.

(** C6, amended. Findings are not validated: an accepted upload goes
    through also when some finding has a non-finite confidence, a
    confidence outside [0,1] or a degenerate box, once its path opens for
    [file.save], the image decodes, the model names every class id and
    every coordinate is one OpenCV takes. The page is shown, every finding
    is drawn on the image, which is written to the file its path in the
    results folder names, and a row with status "Broken" and the full count
    is inserted. *)
Theorem malformed_findings_are_recorded E A req sess file boxes m saved w :
  accepted req sess file ->
  fs_resolve E (image_path_of A sess (file_ext_of file)) = Some saved ->
  model_boxes E (stream file) = Ok boxes ->
  cv2_imdecode E (stream file) = Some m ->
  Forall (known_class E) boxes ->
  Forall (box_fits E) boxes ->
  Exists malformed_finding boxes ->
  exists resp r m' w',
    upload E A req w = (Ok resp, w') /\
    detection_history w' = detection_history w ++ [r] /\
    vehicle_status r = "Broken"%string /\
    detection_count r = length boxes /\
    mat_drawn m' = mat_drawn m ++ concat (map (box_draw_calls E) boxes) /\
    (forall b, b ∈ boxes ->
       let '(x1, y1, x2, y2) := xyxy b in
       Rectangle (x1, y1) (x2, y2)
         (DEFECT_COLORS_get (box_class_name E b)) 3 ∈ mat_drawn m') /\
    (forall result,
       fs_resolve E (result_path_of A sess (file_ext_of file)) = Some result ->
       files w' !! result = Some (Written m')).
Proof.
  intros Hacc Hsaved Hboxes Himg Hknown Hfits Hbad.
  pose proof (upload_ok E A req sess file boxes m saved w Hacc Hsaved Hboxes
                Himg Hknown Hfits) as Hrun. cbv zeta in Hrun.
  eexists _, _, (drawn_on m (concat (map (box_draw_calls E) boxes))), _.
  split; [exact Hrun|]. split; [done|]. simpl. split.
  { apply status_of_Broken. destruct Hbad; simpl; lia. }
  split; [by rewrite length_map|]. split; [done|]. split.
  - intros b Hb. destruct (xyxy b) as [[[x1 y1] x2] y2] eqn:Hxy.
    apply elem_of_app. right.
    apply (elem_of_concat_map (box_draw_calls E) boxes b); [done|].
    unfold box_draw_calls. rewrite Hxy.
    destruct (cv2_getTextSize E _). apply list_elem_of_here.
  - intros result ->. apply lookup_insert_eq.
Qed.

Lemma malformed_findings_are_recorded_witness :
  let req := demo_post amy "car.png" [2; 9] in
  let file := {| filename := "car.png"; stream := [2; 9] |} in
  let boxes := [demo_inverted; demo_overconfident] in
  let A := demo_A "0a1b2c3d" 100 in
  let m := {| mat_rows := 480; mat_cols := 640; mat_data := [2; 9];
              mat_drawn := [] |} in
  accepted req amy file /\
  fs_resolve demo_E (image_path_of A amy (file_ext_of file))
    = Some "static/uploads/amy_20240101_120000_0a1b2c3d.png"%string /\
  model_boxes demo_E (stream file) = Ok boxes /\
  cv2_imdecode demo_E (stream file) = Some m /\
  Forall (known_class demo_E) boxes /\
  Forall (box_fits demo_E) boxes /\
  Exists malformed_finding boxes /\
  exists resp r m' w',
    upload demo_E A req initial_world = (Ok resp, w') /\
    detection_history w' = detection_history initial_world ++ [r] /\
    vehicle_status r = "Broken"%string /\
    detection_count r = length boxes /\
    mat_drawn m' = mat_drawn m ++ concat (map (box_draw_calls demo_E) boxes) /\
    (forall b, b ∈ boxes ->
       let '(x1, y1, x2, y2) := xyxy b in
       Rectangle (x1, y1) (x2, y2)
         (DEFECT_COLORS_get (box_class_name demo_E b)) 3 ∈ mat_drawn m') /\
    (forall result,
       fs_resolve demo_E (result_path_of A amy (file_ext_of file))
         = Some result ->
       files w' !! result = Some (Written m')).
Proof.
  intros req file boxes A m.
  assert (accepted req amy file) as Hacc by (repeat split; done).
  assert (Forall (known_class demo_E) boxes) as Hknown
    by (repeat constructor; by eexists).
  assert (Forall (box_fits demo_E) boxes) as Hfits
    by (repeat constructor).
  assert (Exists malformed_finding boxes) as Hbad
    by (constructor; by left).
  do 6 (split; [done|]). split; [done|].
  exact (malformed_findings_are_recorded demo_E A req amy file boxes m _
           initial_world Hacc eq_refl eq_refl eq_refl Hknown Hfits Hbad).
Defined.

(** ** The ledger queries *)

(** C5, as stated, fails: Amy's two inspections of the same second come
    back in insertion order, the lower id first. *)
Lemma recent_ties_not_by_descending_id :
  ~ recent_as_specified 7 5 demo_world.
Proof.
  unfold recent_as_specified. intros H.
  remember (sql.select_history 7 (Some 5%nat) demo_world) as rows eqn:Hrows.
  vm_compute in Hrows. subst rows.
  inversion_clear H as [|? ? _ Hhd]. inversion_clear Hhd as [|? ? Hrel].
  unfold newest_then_highest_id in Hrel. simpl in Hrel. lia.
Qed.

(** C5, amended. The recent query returns the first [n] rows of the
    operator's full listing; the listing holds exactly the operator's rows,
    newest first by timestamp, and rows with equal timestamps stay in
    insertion order (the query has no tie-break on the id). The dashboard
    asks for the first five. *)
Theorem recent_newest_first uid n w :
  let listing := sql.select_history uid None w in
  let recent := sql.select_history uid (Some n) w in
  recent = take n listing /\
  recent_inspections uid w = take 5 listing /\
  Sorted not_older recent /\
  Sorted not_older listing /\
  listing ≡ₚ filter (fun r => user_id r = uid) (detection_history w) /\
  forall t,
    filter (fun r => timestamp r = t) listing
    = filter (fun r => timestamp r = t)
        (filter (fun r => user_id r = uid) (detection_history w)).
Proof.
  cbv zeta. split; [done|]. split; [done|].
  split; [apply select_history_Sorted|].
  split; [apply select_history_Sorted|].
  split; [apply select_history_all_Permutation|].
  intros t. apply order_by_stable.
Qed.

(** What the dashboard shows Amy in [demo_world]: ids and timestamps. *)
Example demo_recent_amy :
  map (fun r => (row_id r, timestamp r)) (recent_inspections 7 demo_world)
  = [(1, 100); (2, 100)].
Proof. by vm_compute. Qed.

(** A request changes the table by at most one appended row: a row of the
    operator logged in, with the next id and one of the two statuses
    [upload] writes. *)
Lemma upload_history E A req w :
  detection_history (upload E A req w).2 = detection_history w \/
  exists r sess,
    detection_history (upload E A req w).2 = detection_history w ++ [r] /\
    session req = Some sess /\ user_id r = session_user_id sess /\
    row_id r = sql.next_rowid w /\
    (vehicle_status r = "Broken"%string \/
     vehicle_status r = "Non-Broken"%string).
Proof.
  destruct (upload_cases E A req w) as [(sess & file & Hacc) | [resp Hsame]].
  2: { left. by rewrite Hsame. }
  rewrite (upload_accepted E A req sess file w Hacc), upload_process_run.
  cbv zeta.
  destruct (fs_resolve E _) as [saved|]; [|by left].
  destruct (model_boxes E (stream file)) as [boxes|e]; [|by left].
  destruct (process_results E boxes _) as [[status st]|e] eqn:Hres;
    [|by left].
  destruct (l_img st) as [m|]; [|by left].
  right. eexists _, sess. split; [done|]. split; [apply Hacc|].
  split; [done|]. split; [done|]. simpl.
  apply process_results_status in Hres as [-> _].
  unfold status_of. destruct (0 <? length boxes)%nat; [by left | by right].
Qed.

(** What another operator uploads never shows in this operator's queries. *)
Lemma other_operator_upload_invisible E A req sess uid n w :
  session req = Some sess -> session_user_id sess <> uid ->
  sql.select_history uid n (upload E A req w).2 = sql.select_history uid n w.
Proof.
  intros Hs Hne. unfold sql.select_history, sql.where_user.
  destruct (upload_history E A req w) as [-> | (r & sess' & -> & Hs' & Hr & _)];
    [done|].
  rewrite Hs in Hs'. injection Hs' as <-.
  rewrite filter_app, filter_cons, decide_False by congruence.
  by rewrite filter_nil, app_nil_r.
Qed.

Lemma upload_statuses_known E A req w :
  statuses_known w -> statuses_known (upload E A req w).2.
Proof.
  unfold statuses_known. intros Hw.
  destruct (upload_history E A req w) as [-> | (r & ? & -> & _ & _ & _ & Hr)];
    [done|].
  apply Forall_app. split; [done|]. by constructor.
Qed.

Lemma serve_statuses_known E reqs : forall w,
  statuses_known w -> statuses_known (serve E reqs w).
Proof.
  induction reqs as [|[A req] reqs IH]; intros w Hw; simpl; [done|].
  apply IH. by apply upload_statuses_known.
Qed.

(** Ids are handed out in increasing order, so table order is id order. *)
Lemma max_rowid_ge rows r : r ∈ rows -> row_id r <= sql.max_rowid rows.
Proof.
  induction 1 as [r rows|r r' rows _ IH]; simpl; lia.
Qed.

Lemma StronglySorted_snoc (l : list Z) x :
  StronglySorted Z.lt l -> Forall (fun y => y < x) l ->
  StronglySorted Z.lt (l ++ [x]).
Proof.
  induction 1 as [|y l Hl IH Hy]; simpl; intros Hall.
  - repeat constructor.
  - apply Forall_cons in Hall as [Hyx Hall]. constructor; [by apply IH|].
    apply Forall_app. split; [done|]. by constructor.
Qed.

Lemma upload_ids_increasing E A req w :
  ids_increasing w -> ids_increasing (upload E A req w).2.
Proof.
  unfold ids_increasing. intros Hw.
  destruct (upload_history E A req w)
    as [-> | (r & ? & -> & _ & _ & Hid & _)]; [done|].
  rewrite map_app. apply StronglySorted_snoc; [done|].
  apply Forall_forall. intros y Hy.
  apply list_elem_of_In, in_map_iff in Hy as (r' & <- & Hr').
  apply list_elem_of_In, max_rowid_ge in Hr'.
  rewrite Hid. unfold sql.next_rowid. lia.
Qed.

Lemma serve_ids_increasing E reqs : forall w,
  ids_increasing w -> ids_increasing (serve E reqs w).
Proof.
  induction reqs as [|[A req] reqs IH]; intros w Hw; simpl; [done|].
  apply IH. by apply upload_ids_increasing.
Qed.

Lemma count_by_status uid rows :
  Forall (fun r => vehicle_status r = "Broken"%string \/
                   vehicle_status r = "Non-Broken"%string) rows ->
  length (sql.where_user uid rows)
  = (length (sql.where_user_status uid "Non-Broken" rows)
     + length (sql.where_user_status uid "Broken" rows))%nat.
Proof.
  unfold sql.where_user, sql.where_user_status.
  induction 1 as [|r rows Hr _ IH]; [done|].
  rewrite !filter_cons.
  destruct (decide (user_id r = uid)) as [Hu|Hu].
  - destruct Hr as [Hr|Hr].
    + rewrite decide_False by (rewrite Hr; intros [_ [=]]).
      rewrite decide_True by done. simpl. lia.
    + rewrite decide_True by done.
      rewrite decide_False by (rewrite Hr; intros [_ [=]]). simpl. lia.
  - rewrite !decide_False by (intros [? _]; done). done.
Qed.

Lemma where_user_status_listing uid status w :
  length (sql.where_user_status uid status (detection_history w))
  = length (filter (fun r => vehicle_status r = status)
                   (sql.select_history uid None w)).
Proof.
  rewrite select_history_all_Permutation.
  unfold sql.where_user, sql.where_user_status.
  rewrite list_filter_filter. f_equal. apply list_filter_iff. tauto.
Qed.

Lemma total_inspections_listing uid w :
  total_inspections uid w = length (sql.select_history uid None w).
Proof.
  unfold total_inspections, sql.count.
  by rewrite select_history_all_Permutation.
Qed.

(** C3. After any sequence of upload requests, served from the empty
    database, the dashboard's three counts for the logged-in operator add
    up, total = non-broken + broken, and they are the length of the very
    listing the history page shows for that operator and the numbers of its
    rows with each status. *)
Theorem aggregate_counts_consistent E reqs req sess :
  session req = Some sess ->
  let w := serve E reqs initial_world in
  exists d h,
    dashboard req w = render_template "dashboard.html" [] d /\
    history req w = render_template "history.html" [] h /\
    dash_total_inspections d
      = (dash_non_broken_count d + dash_broken_count d)%nat /\
    dash_total_inspections d = length (hist_records h) /\
    dash_non_broken_count d
      = length (filter (fun r => vehicle_status r = "Non-Broken"%string)
                       (hist_records h)) /\
    dash_broken_count d
      = length (filter (fun r => vehicle_status r = "Broken"%string)
                       (hist_records h)).
Proof.
  intros Hs w. unfold dashboard, history. rewrite Hs.
  eexists _, _. split; [done|]. split; [done|]. simpl.
  assert (statuses_known w) as Hw.
  { apply serve_statuses_known. constructor. }
  split; [|split; [|split]].
  - apply count_by_status, Hw.
  - apply total_inspections_listing.
  - apply where_user_status_listing.
  - apply where_user_status_listing.
Qed.

Lemma aggregate_counts_consistent_witness :
  let reqs :=
    [ (demo_A "0a1b2c3d" 100, demo_post amy "clean.png" [0; 9]);
      (demo_A "4e5f6a7b" 100, demo_post amy "dent.JPG" [1; 9]);
      (demo_A "8c9d0e1f" 101, demo_post bob "dent.jpeg" [1; 9]) ] in
  let w := serve demo_E reqs initial_world in
  session (demo_get amy) = Some amy /\
  exists d h,
    dashboard (demo_get amy) w = render_template "dashboard.html" [] d /\
    history (demo_get amy) w = render_template "history.html" [] h /\
    dash_total_inspections d
      = (dash_non_broken_count d + dash_broken_count d)%nat /\
    dash_total_inspections d = length (hist_records h) /\
    dash_non_broken_count d
      = length (filter (fun r => vehicle_status r = "Non-Broken"%string)
                       (hist_records h)) /\
    dash_broken_count d
      = length (filter (fun r => vehicle_status r = "Broken"%string)
                       (hist_records h)).
Proof.
  intros reqs w. split; [done|].
  exact (aggregate_counts_consistent demo_E reqs (demo_get amy) amy eq_refl).
Defined.

(** C4. For any state of the table, every row the dashboard lists as
    recent and every row the history page lists is a row of the table
    whose [user_id] is the logged-in operator's, and the dashboard's three
    counts count that operator's rows only. *)
Theorem queries_scoped_to_operator req sess w :
  session req = Some sess ->
  let own := filter (fun r => user_id r = session_user_id sess)
                    (detection_history w) in
  exists d h,
    dashboard req w = render_template "dashboard.html" [] d /\
    history req w = render_template "history.html" [] h /\
    (forall r, r ∈ dash_recent_inspections d ->
               user_id r = session_user_id sess /\ r ∈ detection_history w) /\
    (forall r, r ∈ hist_records h ->
               user_id r = session_user_id sess /\ r ∈ detection_history w) /\
    dash_total_inspections d = length own /\
    dash_non_broken_count d
      = length (filter (fun r => vehicle_status r = "Non-Broken"%string) own) /\
    dash_broken_count d
      = length (filter (fun r => vehicle_status r = "Broken"%string) own).
Proof.
  intros Hs own. unfold dashboard, history. rewrite Hs.
  eexists _, _. split; [done|]. split; [done|].
  split; [intros r; apply (select_history_elem _ (Some 5%nat))|].
  split; [intros r; apply (select_history_elem _ None)|].
  split; [done|]. simpl.
  unfold non_broken_count, broken_count, sql.count, sql.where_user_status, own.
  rewrite !list_filter_filter.
  split; f_equal; apply list_filter_iff; tauto.
Qed.

Lemma queries_scoped_to_operator_witness :
  let own := filter (fun r => user_id r = session_user_id amy)
                    (detection_history demo_world) in
  session (demo_get amy) = Some amy /\
  exists d h,
    dashboard (demo_get amy) demo_world
      = render_template "dashboard.html" [] d /\
    history (demo_get amy) demo_world = render_template "history.html" [] h /\
    (forall r, r ∈ dash_recent_inspections d ->
               user_id r = session_user_id amy /\
               r ∈ detection_history demo_world) /\
    (forall r, r ∈ hist_records h ->
               user_id r = session_user_id amy /\
               r ∈ detection_history demo_world) /\
    dash_total_inspections d = length own /\
    dash_non_broken_count d
      = length (filter (fun r => vehicle_status r = "Non-Broken"%string) own) /\
    dash_broken_count d
      = length (filter (fun r => vehicle_status r = "Broken"%string) own).
Proof.
  intros own. split; [done|].
  exact (queries_scoped_to_operator (demo_get amy) amy demo_world eq_refl).
Defined.

(** * Further properties of the handlers *)

(** ** Uploads: what changes, and when *)

(** X1. [upload] changes nothing on the server (no file, no model call, no
    row) unless the request is a logged-in POST carrying a named file with
    an allowed extension. *)
Theorem upload_changes_need_accepted E A req w :
  (upload E A req w).2 <> w -> exists sess file, accepted req sess file.
Proof.
  intros Hchg.
  destruct (upload_cases E A req w) as [Hacc | [resp Hsame]]; [done|].
  rewrite Hsame in Hchg. by destruct Hchg.
Qed.

Lemma upload_changes_need_accepted_witness :
  let req := demo_post amy "dent.JPG" [1; 9] in
  (upload demo_E (demo_A "4e5f6a7b" 100) req initial_world).2 <> initial_world /\
  exists sess file, accepted req sess file.
Proof.
  intros req.
  assert ((upload demo_E (demo_A "4e5f6a7b" 100) req initial_world).2
          <> initial_world) as Hchg.
  { intros H. apply (f_equal detection_history) in H. by vm_compute in H. }
  split; [done|].
  exact (upload_changes_need_accepted demo_E (demo_A "4e5f6a7b" 100) req
           initial_world Hchg).
Defined.

Lemma upload_raise_inv E A req w e w' :
  upload E A req w = (Raise e, w') ->
  exists sess file,
    accepted req sess file /\
    match fs_resolve E (image_path_of A sess (file_ext_of file)) with
    | None => e = OSError /\ w' = w
    | Some saved => w' = world_analysed A sess file (file_ext_of file) saved w
    end.
Proof.
  intros Hrun.
  destruct (upload_cases E A req w) as [(sess & file & Hacc) | [resp Hsame]].
  2: { by rewrite Hsame in Hrun. }
  exists sess, file. split; [done|].
  rewrite (upload_accepted E A req sess file w Hacc), upload_process_run
    in Hrun. cbv zeta in Hrun.
  destruct (fs_resolve E _) as [saved|];
    [|by injection Hrun as <- <-].
  destruct (model_boxes E (stream file)) as [boxes|e1];
    [|by injection Hrun as _ <-].
  destruct (process_results E boxes _) as [[status st]|e1];
    [|by injection Hrun as _ <-].
  destruct (l_img st) as [m|]; [done | by injection Hrun as _ <-].
Qed.

(** X2. A request that ends in an exception leaves no row and does not
    advance the id counter. When it was [file.save] that could not open
    its path, nothing at all has changed; in every other case the upload
    is already saved and the model has been called: the saved file stays
    behind. *)
Theorem failed_upload_leaves_no_row E A req w e w' :
  upload E A req w = (Raise e, w') ->
  exists sess file,
    session req = Some sess /\ files_image req = Some file /\
    detection_history w' = detection_history w /\
    sqlite_sequence w' = sqlite_sequence w /\
    match fs_resolve E (Py.os_path_join UPLOAD_FOLDER
                          (unique_filename A sess (file_ext_of file))) with
    | None => e = OSError /\ w' = w
    | Some saved =>
        files w' = <[saved := Uploaded (stream file)]> (files w) /\
        inferences w' =
          inferences w ++
          [Py.os_path_join UPLOAD_FOLDER
             (unique_filename A sess (file_ext_of file))]
    end.
Proof.
  intros Hrun.
  destruct (upload_raise_inv E A req w e w' Hrun)
    as (sess & file & (Hs & _ & Hf & _) & Hw).
  exists sess, file. unfold image_path_of in Hw.
  destruct (fs_resolve E _) as [saved|].
  - by subst w'.
  - by destruct Hw as [-> ->].
Qed.

Lemma failed_upload_leaves_no_row_witness :
  let req := demo_post amy "car.png" [5; 9] in
  let run := upload demo_E (demo_A "0a1b2c3d" 100) req demo_world in
  run.1 = Raise InferenceError /\
  exists sess file,
    session req = Some sess /\ files_image req = Some file /\
    detection_history run.2 = detection_history demo_world /\
    sqlite_sequence run.2 = sqlite_sequence demo_world /\
    match fs_resolve demo_E
            (Py.os_path_join UPLOAD_FOLDER
               (unique_filename (demo_A "0a1b2c3d" 100) sess
                  (file_ext_of file))) with
    | None => InferenceError = OSError /\ run.2 = demo_world
    | Some saved =>
        files run.2 = <[saved := Uploaded (stream file)]> (files demo_world) /\
        inferences run.2 =
          inferences demo_world ++
          [Py.os_path_join UPLOAD_FOLDER
             (unique_filename (demo_A "0a1b2c3d" 100) sess
                (file_ext_of file))]
    end.
Proof.
  intros req run.
  assert (run.1 = Raise InferenceError) as H1 by (by vm_compute).
  split; [done|].
  apply (failed_upload_leaves_no_row demo_E (demo_A "0a1b2c3d" 100) req
           demo_world InferenceError run.2).
  rewrite <- H1. apply surjective_pairing.
Defined.

(** A user whose name has a directory part that does not exist: the
    request ends at [file.save]. *)
Example demo_save_fails :
  upload demo_E (demo_A "0a1b2c3d" 100)
    (demo_post {| session_user_id := 3; session_username := "a/b" |}
       "car.png" [1; 9]) demo_world
  = (Raise OSError, demo_world).
Proof. by vm_compute. Qed.

Lemma for_boxes_app E pre : forall post st,
  for_boxes E (pre ++ post) st
  = match for_boxes E pre st with
    | Ok st' => for_boxes E post st'
    | Raise e => Raise e
    end.
Proof.
  induction pre as [|b pre IH]; intros post st; simpl; [done|].
  unfold_outcome. destruct (annotate_box E b st) as [st1|]; [apply IH | done].
Qed.

Lemma for_boxes_raise_known E boxes : forall st e,
  for_boxes E boxes st = Raise e ->
  Forall (known_class E) boxes -> e = Cv2Error.
Proof.
  induction boxes as [|b boxes IH]; simpl; intros st e H Hall; [done|].
  inversion_clear Hall as [|? ? Hb Hrest]. unfold_outcome.
  destruct (annotate_box E b st) as [st1|e1] eqn:H1.
  - by apply (IH st1).
  - injection H as <-.
    apply annotate_box_raise in H1 as [[Hn _] | (_ & _ & ->)]; done.
Qed.

(** X3. When OpenCV cannot decode the saved file, [imread] gives None and
    the drawing calls do nothing with it; an accepted upload whose path
    opened and whose boxes all carry class ids the model names then ends
    in OpenCV's error, at the latest in [imwrite]: no row is inserted,
    nothing is written, and the saved upload stays. *)
Theorem undecodable_image_raises E A req sess file boxes saved w :
  accepted req sess file ->
  fs_resolve E (image_path_of A sess (file_ext_of file)) = Some saved ->
  model_boxes E (stream file) = Ok boxes ->
  cv2_imdecode E (stream file) = None ->
  Forall (known_class E) boxes ->
  exists w',
    upload E A req w = (Raise Cv2Error, w') /\
    detection_history w' = detection_history w /\
    files w' = <[saved := Uploaded (stream file)]> (files w).
Proof.
  intros Hacc Hsaved Hboxes Himg Hknown.
  rewrite (upload_accepted E A req sess file w Hacc), upload_process_run.
  cbv zeta. rewrite Hsaved, Hboxes, Himg.
  destruct (process_results E boxes None) as [[status st]|e] eqn:Hres.
  - apply process_results_inv in Hres as (_ & _ & _ & ->). simpl.
    by eexists.
  - assert (e = Cv2Error) as ->; [|by eexists].
    unfold process_results in Hres.
    destruct (0 <? length boxes)%nat; [|done].
    unfold mbind, Outcome_bind in Hres.
    destruct (for_boxes E boxes _) as [st|e'] eqn:Hloop; [done|].
    injection Hres as <-. by apply (for_boxes_raise_known E boxes _ _ Hloop).
Qed.

Lemma undecodable_image_raises_witness :
  let req := demo_post amy "dent.JPG" [1; 9] in
  let file := {| filename := "dent.JPG"; stream := [1; 9] |} in
  let A := demo_A "4e5f6a7b" 100 in
  let saved := "static/uploads/amy_20240101_120000_4e5f6a7b.jpg"%string in
  accepted req amy file /\
  fs_resolve demo_E_blind (image_path_of A amy (file_ext_of file))
    = Some saved /\
  model_boxes demo_E_blind (stream file) = Ok [demo_dent; demo_rust] /\
  cv2_imdecode demo_E_blind (stream file) = None /\
  Forall (known_class demo_E_blind) [demo_dent; demo_rust] /\
  exists w',
    upload demo_E_blind A req initial_world = (Raise Cv2Error, w') /\
    detection_history w' = detection_history initial_world /\
    files w' = <[saved := Uploaded (stream file)]> (files initial_world).
Proof.
  intros req file A saved.
  assert (accepted req amy file) as Hacc by (repeat split; done).
  assert (Forall (known_class demo_E_blind) [demo_dent; demo_rust]) as Hknown
    by (repeat constructor; by eexists).
  do 4 (split; [done|]). split; [done|].
  exact (undecodable_image_raises demo_E_blind A req amy file
           [demo_dent; demo_rust] saved initial_world Hacc eq_refl eq_refl
           eq_refl Hknown).
Defined.

(** X4. When the model reports a box whose class id is missing from
    [model.names], an accepted upload whose path opened ends in KeyError
    at that box and inserts no row, whatever the boxes after it and
    whether or not the image decodes, provided the boxes before it are
    drawn: their class ids are named and their coordinates are ones OpenCV
    takes. *)
Theorem unknown_class_id_raises E A req sess file pre b post saved w :
  accepted req sess file ->
  fs_resolve E (image_path_of A sess (file_ext_of file)) = Some saved ->
  model_boxes E (stream file) = Ok (pre ++ b :: post) ->
  Forall (known_class E) pre ->
  Forall (box_fits E) pre ->
  model_names E !! cls b = None ->
  exists w',
    upload E A req w = (Raise KeyError, w') /\
    detection_history w' = detection_history w.
Proof.
  intros Hacc Hsaved Hboxes Hknown Hfits Hb.
  rewrite (upload_accepted E A req sess file w Hacc), upload_process_run.
  cbv zeta. rewrite Hsaved, Hboxes.
  assert (process_results E (pre ++ b :: post) (cv2_imdecode E (stream file))
          = Raise KeyError) as ->; [|by eexists].
  unfold process_results.
  assert ((0 <? length (pre ++ b :: post))%nat = true) as ->.
  { apply Nat.ltb_lt. rewrite length_app. simpl. lia. }
  unfold mbind, Outcome_bind.
  rewrite for_boxes_app, (for_boxes_ok E pre _ Hknown Hfits). simpl.
  unfold annotate_box, names_getitem. unfold_outcome. by rewrite Hb.
Qed.

Lemma unknown_class_id_raises_witness :
  let req := demo_post amy "dent.JPG" [1; 9] in
  let file := {| filename := "dent.JPG"; stream := [1; 9] |} in
  let A := demo_A "4e5f6a7b" 100 in
  let b := {| cls := 99; conf := binary64_half; xyxy := (1, 2, 3, 4) |} in
  accepted req amy file /\
  fs_resolve demo_E_alien (image_path_of A amy (file_ext_of file))
    = Some "static/uploads/amy_20240101_120000_4e5f6a7b.jpg"%string /\
  model_boxes demo_E_alien (stream file) = Ok ([demo_dent] ++ b :: []) /\
  Forall (known_class demo_E_alien) [demo_dent] /\
  Forall (box_fits demo_E_alien) [demo_dent] /\
  model_names demo_E_alien !! cls b = None /\
  exists w',
    upload demo_E_alien A req initial_world = (Raise KeyError, w') /\
    detection_history w' = detection_history initial_world.
Proof.
  intros req file A b.
  assert (accepted req amy file) as Hacc by (repeat split; done).
  assert (Forall (known_class demo_E_alien) [demo_dent]) as Hknown
    by (repeat constructor; by eexists).
  assert (Forall (box_fits demo_E_alien) [demo_dent]) as Hfits
    by (repeat constructor).
  do 5 (split; [done|]). split; [done|].
  exact (unknown_class_id_raises demo_E_alien A req amy file [demo_dent] b []
           _ initial_world Hacc eq_refl eq_refl Hknown Hfits eq_refl).
Defined.

(** ** Uploads: what is shown and what is stored *)

(** X5. After a processed upload, the page and the new row tell the same
    story: same status, same count (the number of detections listed), and
    the page's two image paths are the row's file name in the results and
    the uploads folder; the row belongs to the logged-in operator and has
    the INSERT's time. *)
Theorem page_agrees_with_row E A req w out w' :
  upload E A req w = (out, w') ->
  detection_history w' <> detection_history w ->
  exists sess rd r,
    session req = Some sess /\
    out = Ok (render_template "upload.html"
                [("Image processed successfully!", "success")]
                {| up_username := session_username sess;
                   up_result_data := Some rd |}) /\
    detection_history w' = detection_history w ++ [r] /\
    user_id r = session_user_id sess /\
    timestamp r = CURRENT_TIMESTAMP A /\
    rd_vehicle_status rd = vehicle_status r /\
    rd_detection_count rd = detection_count r /\
    length (rd_detections rd) = detection_count r /\
    rd_result_image rd = Py.os_path_join RESULT_FOLDER (result_image r) /\
    rd_original_image rd = Py.os_path_join UPLOAD_FOLDER (original_image r).
Proof.
  intros Hrun Hnew.
  destruct (record_created_inv E A req w out w' Hrun Hnew)
    as (sess & file & boxes & status & st & m & saved & Hacc & _ & _ & _ & ->
        & -> & _).
  eexists sess, _, _. split; [apply Hacc|]. split; [reflexivity|]. done.
Qed.

Lemma page_agrees_with_row_witness :
  let req := demo_post amy "dent.JPG" [1; 9] in
  let A := demo_A "4e5f6a7b" 100 in
  let run := upload demo_E A req initial_world in
  detection_history run.2 <> detection_history initial_world /\
  exists sess rd r,
    session req = Some sess /\
    run.1 = Ok (render_template "upload.html"
                  [("Image processed successfully!", "success")]
                  {| up_username := session_username sess;
                     up_result_data := Some rd |}) /\
    detection_history run.2 = detection_history initial_world ++ [r] /\
    user_id r = session_user_id sess /\
    timestamp r = CURRENT_TIMESTAMP A /\
    rd_vehicle_status rd = vehicle_status r /\
    rd_detection_count rd = detection_count r /\
    length (rd_detections rd) = detection_count r /\
    rd_result_image rd = Py.os_path_join RESULT_FOLDER (result_image r) /\
    rd_original_image rd = Py.os_path_join UPLOAD_FOLDER (original_image r).
Proof.
  intros req A run. split; [by vm_compute|].
  apply (page_agrees_with_row demo_E A req initial_world run.1 run.2).
  - apply surjective_pairing.
  - by vm_compute.
Defined.

Lemma known_classes_named E boxes :
  Forall (known_class E) boxes ->
  Forall2 (fun b name => model_names E !! cls b = Some name)
          boxes (map (box_class_name E) boxes).
Proof.
  induction 1 as [|b boxes [name Hname] _ IH]; simpl; constructor; [|done].
  unfold box_class_name. by rewrite Hname.
Qed.

(** X6. The two summary columns of a new row list the findings in the
    detector's order: [defect_classes] is "None" when there is no box and
    otherwise the class names [model.names] gives the boxes, joined by
    ", "; [confidence_scores] is "N/A" or the confidences formatted to two
    decimals of percent, joined the same way. *)
Theorem summary_columns E A req w out w' :
  upload E A req w = (out, w') ->
  detection_history w' <> detection_history w ->
  exists file boxes names r,
    files_image req = Some file /\
    model_boxes E (stream file) = Ok boxes /\
    Forall2 (fun b name => model_names E !! cls b = Some name) boxes names /\
    detection_history w' = detection_history w ++ [r] /\
    defect_classes r =
      (if names is [] then "None" else Py.join ", " names)%string /\
    confidence_scores r =
      (if boxes is [] then "N/A"
       else Py.join ", " (map (fun b => format_percent E 2 (conf b)) boxes))%string.
Proof.
  intros Hrun Hnew.
  destruct (record_created_inv E A req w out w' Hrun Hnew)
    as (sess & file & boxes & status & st & m & saved & Hacc & Hb & Hres & _ & _
        & -> & _).
  apply process_results_inv in Hres as (Hknown & _ & -> & ->).
  eexists file, boxes, (map (box_class_name E) boxes), _.
  split; [apply Hacc|]. split; [done|].
  split; [by apply known_classes_named|]. split; [reflexivity|].
  simpl. by destruct boxes.
Qed.

Lemma summary_columns_witness :
  let req := demo_post amy "dent.JPG" [1; 9] in
  let run := upload demo_E (demo_A "4e5f6a7b" 100) req initial_world in
  detection_history run.2 <> detection_history initial_world /\
  exists file boxes names r,
    files_image req = Some file /\
    model_boxes demo_E (stream file) = Ok boxes /\
    Forall2 (fun b name => model_names demo_E !! cls b = Some name)
            boxes names /\
    detection_history run.2 = detection_history initial_world ++ [r] /\
    defect_classes r =
      (if names is [] then "None" else Py.join ", " names)%string /\
    confidence_scores r =
      (if boxes is [] then "N/A"
       else Py.join ", "
              (map (fun b => format_percent demo_E 2 (conf b)) boxes))%string.
Proof.
  intros req run. split; [by vm_compute|].
  apply (summary_columns demo_E (demo_A "4e5f6a7b" 100) req initial_world
           run.1 run.2).
  - apply surjective_pairing.
  - by vm_compute.
Defined.

Lemma length_concat_draw_calls E boxes :
  length (concat (map (box_draw_calls E) boxes)) = (3 * length boxes)%nat.
Proof.
  induction boxes as [|b boxes IH]; simpl; [done|].
  rewrite length_app, IH. unfold box_draw_calls.
  destruct (xyxy b) as [[[? ?] ?] ?], (cv2_getTextSize E _). simpl. lia.
Qed.

(** X7. The annotated image a processed upload stores (in the file its
    path in the results folder names) is the decoded upload with the same
    shape and pixels and, drawn on top, three calls per box in the
    detector's order (box, label background, label text): nothing else is
    drawn and nothing is ever resized. *)
Theorem annotation_is_three_calls_per_box E A req w out w' :
  upload E A req w = (out, w') ->
  detection_history w' <> detection_history w ->
  exists sess file boxes m m',
    session req = Some sess /\ files_image req = Some file /\
    model_boxes E (stream file) = Ok boxes /\
    cv2_imdecode E (stream file) = Some m /\
    (forall result,
       fs_resolve E (Py.os_path_join RESULT_FOLDER
                       (unique_filename A sess (file_ext_of file)))
         = Some result ->
       files w' !! result = Some (Written m')) /\
    mat_rows m' = mat_rows m /\ mat_cols m' = mat_cols m /\
    mat_data m' = mat_data m /\
    mat_drawn m' = mat_drawn m ++ concat (map (box_draw_calls E) boxes) /\
    length (mat_drawn m') = (length (mat_drawn m) + 3 * length boxes)%nat.
Proof.
  intros Hrun Hnew.
  destruct (record_created_inv E A req w out w' Hrun Hnew)
    as (sess & file & boxes & status & st & m' & saved & Hacc & Hb & Hres
        & Himg & _ & -> & _).
  apply process_results_inv in Hres as (_ & _ & -> & ->).
  simpl in Himg.
  destruct (cv2_imdecode E (stream file)) as [m|] eqn:Hm; [|done].
  injection Himg as <-.
  exists sess, file, boxes, m,
    (drawn_on m (concat (map (box_draw_calls E) boxes))).
  split; [apply Hacc|]. split; [apply Hacc|]. split; [done|].
  split; [done|]. split.
  { intros result Hres. simpl. unfold result_path_of. rewrite Hres.
    apply lookup_insert_eq. }
  simpl. do 4 (split; [done|]).
  by rewrite length_app, length_concat_draw_calls.
Qed.

Lemma annotation_is_three_calls_per_box_witness :
  let req := demo_post amy "dent.JPG" [1; 9] in
  let A := demo_A "4e5f6a7b" 100 in
  let run := upload demo_E A req initial_world in
  detection_history run.2 <> detection_history initial_world /\
  exists sess file boxes m m',
    session req = Some sess /\ files_image req = Some file /\
    model_boxes demo_E (stream file) = Ok boxes /\
    cv2_imdecode demo_E (stream file) = Some m /\
    (forall result,
       fs_resolve demo_E (Py.os_path_join RESULT_FOLDER
                            (unique_filename A sess (file_ext_of file)))
         = Some result ->
       files run.2 !! result = Some (Written m')) /\
    mat_rows m' = mat_rows m /\ mat_cols m' = mat_cols m /\
    mat_data m' = mat_data m /\
    mat_drawn m' = mat_drawn m ++ concat (map (box_draw_calls demo_E) boxes) /\
    length (mat_drawn m') = (length (mat_drawn m) + 3 * length boxes)%nat.
Proof.
  intros req A run. split; [by vm_compute|].
  apply (annotation_is_three_calls_per_box demo_E A req initial_world
           run.1 run.2).
  - apply surjective_pairing.
  - by vm_compute.
Defined.

(** When the path in the results folder does not open, [imwrite] writes
    nothing and says so only in the value it returns, which [upload] drops:
    the row is inserted all the same and only the upload is on disk. *)
Example demo_unwritten_result :
  let run := upload demo_E_no_results (demo_A "4e5f6a7b" 100)
               (demo_post amy "dent.JPG" [1; 9]) initial_world in
  (exists resp, run.1 = Ok resp) /\
  map (fun r => (row_id r, result_image r)) (detection_history run.2)
    = [(1, "amy_20240101_120000_4e5f6a7b.jpg"%string)] /\
  map_to_list (files run.2)
    = [("static/uploads/amy_20240101_120000_4e5f6a7b.jpg"%string,
        Uploaded [1; 9])].
Proof. split; [by eexists|]. by vm_compute. Qed.

Lemma DEFECT_COLORS_get_colour_drawn name :
  DEFECT_COLORS_get name = colour_drawn name.
Proof.
  unfold DEFECT_COLORS_get, DEFECT_COLORS, colour_drawn.
  repeat (match goal with
          | |- context [String.eqb name ?k] =>
              destruct (String.eqb_spec name k) as [->|?];
              [by vm_compute | rewrite lookup_insert_ne by done]
          end).
  by rewrite lookup_empty.
Qed.

(** X8. Whenever an upload leaves a record, every box has its rectangle
    (thickness 3) in the colour of its class (pink for dent, blue for
    scratch, yellow for lamp_broken, purple for glass_broken, red for
    tire_flat, green for any other class), a filled label background in
    that colour whose bottom edge is the box's top edge and which reaches
    [label_h + 10] rows above it, and the white label text
    "class | percent" five pixels in from that corner. The placement does
    not depend on where the box is: for a box near the top of the image the
    label is drawn at negative rows. *)
Theorem label_placement E A req w out w' :
  upload E A req w = (out, w') ->
  detection_history w' <> detection_history w ->
  exists sess file boxes m',
    session req = Some sess /\ files_image req = Some file /\
    model_boxes E (stream file) = Ok boxes /\
    (forall result,
       fs_resolve E (Py.os_path_join RESULT_FOLDER
                       (unique_filename A sess (file_ext_of file)))
         = Some result ->
       files w' !! result = Some (Written m')) /\
    forall b name x1 y1 x2 y2 label_w label_h,
      b ∈ boxes ->
      model_names E !! cls b = Some name ->
      xyxy b = (x1, y1, x2, y2) ->
      let label := (name +:+ " | " +:+ format_percent E 0 (conf b))%string in
      cv2_getTextSize E label = (label_w, label_h) ->
      let color := colour_drawn name in
      Rectangle (x1, y1) (x2, y2) color 3 ∈ mat_drawn m' /\
      Rectangle (x1, y1 - label_h - 10) (x1 + label_w + 10, y1) color (-1)
        ∈ mat_drawn m' /\
      PutText label (x1 + 5, y1 - 5) (255, 255, 255) 2 ∈ mat_drawn m'.
Proof.
  intros Hrun Hnew.
  destruct (record_created_inv E A req w out w' Hrun Hnew)
    as (sess & file & boxes & status & st & m' & saved & Hacc & Hb & Hres
        & Himg & _ & -> & _).
  apply process_results_inv in Hres as (_ & _ & -> & ->).
  simpl in Himg.
  destruct (cv2_imdecode E (stream file)) as [m|] eqn:Hm; [|done].
  injection Himg as <-.
  exists sess, file, boxes,
    (drawn_on m (concat (map (box_draw_calls E) boxes))).
  split; [apply Hacc|]. split; [apply Hacc|]. split; [done|]. split.
  { intros result Hres. simpl. unfold result_path_of. rewrite Hres.
    apply lookup_insert_eq. }
  cbv zeta. intros b name x1 y1 x2 y2 lw lh Hin Hname Hxy Hsize.
  set (label := (name +:+ " | " +:+ format_percent E 0 (conf b))%string) in *.
  set (color := colour_drawn name).
  assert (box_draw_calls E b =
          [ Rectangle (x1, y1) (x2, y2) color 3;
            Rectangle (x1, y1 - lh - 10) (x1 + lw + 10, y1) color (-1);
            PutText label (x1 + 5, y1 - 5) (255, 255, 255) 2 ]) as Hcalls.
  { unfold box_draw_calls, box_label.
    rewrite Hxy, (box_class_name_known E b name Hname).
    fold label. rewrite Hsize. unfold color.
    by rewrite DEFECT_COLORS_get_colour_drawn. }
  simpl.
  repeat split; apply elem_of_app; right;
    apply (elem_of_concat_map (box_draw_calls E) boxes b); try done;
    rewrite Hcalls; set_solver.
Qed.

Lemma label_placement_witness :
  let req := demo_post amy "dent.JPG" [1; 9] in
  let A := demo_A "4e5f6a7b" 100 in
  let run := upload demo_E A req initial_world in
  detection_history run.2 <> detection_history initial_world /\
  exists sess file boxes m',
    session req = Some sess /\ files_image req = Some file /\
    model_boxes demo_E (stream file) = Ok boxes /\
    (forall result,
       fs_resolve demo_E (Py.os_path_join RESULT_FOLDER
                            (unique_filename A sess (file_ext_of file)))
         = Some result ->
       files run.2 !! result = Some (Written m')) /\
    forall b name x1 y1 x2 y2 label_w label_h,
      b ∈ boxes ->
      model_names demo_E !! cls b = Some name ->
      xyxy b = (x1, y1, x2, y2) ->
      let label :=
        (name +:+ " | " +:+ format_percent demo_E 0 (conf b))%string in
      cv2_getTextSize demo_E label = (label_w, label_h) ->
      let color := colour_drawn name in
      Rectangle (x1, y1) (x2, y2) color 3 ∈ mat_drawn m' /\
      Rectangle (x1, y1 - label_h - 10) (x1 + label_w + 10, y1) color (-1)
        ∈ mat_drawn m' /\
      PutText label (x1 + 5, y1 - 5) (255, 255, 255) 2 ∈ mat_drawn m'.
Proof.
  intros req A run. split; [by vm_compute|].
  apply (label_placement demo_E A req initial_world run.1 run.2).
  - apply surjective_pairing.
  - by vm_compute.
Defined.

(** ** File names and paths *)

Lemma append_cons x (a b : string) : String x a +:+ b = String x (a +:+ b).
Proof. reflexivity. Qed.


Lemma append_assoc (a b c : string) : (a +:+ b) +:+ c = a +:+ (b +:+ c).
Proof.
  induction a as [|x a IH]; [done|]. by rewrite !append_cons, IH.
Qed.

Lemma length_append (a b : string) :
  String.length (a +:+ b) = (String.length a + String.length b)%nat.
Proof.
  induction a as [|x a IH]; [done|]. rewrite append_cons. simpl.
  by rewrite IH.
Qed.

Lemma append_inj_length (a b s t : string) :
  String.length a = String.length b -> a +:+ s = b +:+ t -> a = b /\ s = t.
Proof.
  revert b. induction a as [|x a IH]; intros [|y b] Hlen Heq; try done.
  rewrite !append_cons in Heq.
  injection Heq as -> Heq. injection Hlen as Hlen.
  by destruct (IH b Hlen Heq) as [-> ->].
Qed.



(** [lower] also maps the capitals above 127: capital E acute (201) to
    small e acute (233); the multiplication sign (215) and sharp s (223)
    stay. *)
Example lower_beyond_ascii :
  Py.lower (String (ascii_of_nat 201)
             (String (ascii_of_nat 215) (String (ascii_of_nat 223) "JPG")))
  = String (ascii_of_nat 233)
      (String (ascii_of_nat 215) (String (ascii_of_nat 223) "jpg")).
Proof. reflexivity. Qed.



(** X9. Whatever the case and the dots of the uploaded file's name, the
    name a new row stores ends in ".jpg", ".jpeg" or ".png". *)
Theorem stored_name_has_allowed_extension E A req w out w' :
  upload E A req w = (out, w') ->
  detection_history w' <> detection_history w ->
  exists r stem ext,
    detection_history w' = detection_history w ++ [r] /\
    original_image r = (stem +:+ "." +:+ ext)%string /\
    result_image r = (stem +:+ "." +:+ ext)%string /\
    (ext = "jpg" \/ ext = "jpeg" \/ ext = "png")%string.
Proof.
  intros Hrun Hnew.
  destruct (record_created_inv E A req w out w' Hrun Hnew)
    as (sess & file & boxes & status & st & m & saved & Hacc & _ & _ & _ & _
        & -> & _).
  destruct Hacc as (_ & _ & _ & _ & Hext).
  exists (history_row A sess (file_ext_of file) status st w),
    (session_username sess +:+ "_" +:+ now_strftime A +:+ "_" +:+
     Py.slice_to 8 (uuid4 A))%string, (file_ext_of file).
  split; [done|]. simpl. unfold unique_filename.
  rewrite !append_assoc. split; [done|]. split; [done|].
  unfold allowed_extensions in Hext.
  rewrite !elem_of_union, !elem_of_singleton in Hext. tauto.
Qed.

Lemma stored_name_has_allowed_extension_witness :
  let run := upload demo_E (demo_A "4e5f6a7b" 100)
               (demo_post amy "dent.JPG" [1; 9]) initial_world in
  detection_history run.2 <> detection_history initial_world /\
  exists r stem ext,
    detection_history run.2 = detection_history initial_world ++ [r] /\
    original_image r = (stem +:+ "." +:+ ext)%string /\
    result_image r = (stem +:+ "." +:+ ext)%string /\
    (ext = "jpg" \/ ext = "jpeg" \/ ext = "png")%string.
Proof.
  intros run. split; [by vm_compute|].
  apply (stored_name_has_allowed_extension demo_E (demo_A "4e5f6a7b" 100)
           (demo_post amy "dent.JPG" [1; 9]) initial_world run.1 run.2).
  - apply surjective_pairing.
  - by vm_compute.
Defined.

Lemma length_slice_to n (s : string) :
  (n <= String.length s)%nat -> String.length (Py.slice_to n s) = n.
Proof.
  unfold Py.slice_to. revert s.
  induction n as [|n IH]; intros [|c s] Hlen; simpl in *; try done; try lia.
  rewrite IH; [done | lia].
Qed.

Lemma os_path_join_uploads_inj name1 name2 :
  Py.os_path_join UPLOAD_FOLDER name1 = Py.os_path_join UPLOAD_FOLDER name2 ->
  name1 = name2.
Proof.
  unfold Py.os_path_join.
  destruct name1 as [|c1 n1], name2 as [|c2 n2]; simpl; try done.
  - destruct (Ascii.eqb_spec c2 "/") as [->|_]; intros [=].
  - destruct (Ascii.eqb_spec c1 "/") as [->|_]; intros [=].
  - destruct (Ascii.eqb_spec c1 "/") as [->|_],
             (Ascii.eqb_spec c2 "/") as [->|_]; intros [=]; by subst.
Qed.

(** X19. Two uploads by the same user with the same time stamp and
    extension get different stored names, and different paths in the
    uploads folder, as soon as the first eight characters of their uuids
    differ. *)
Theorem distinct_suffix_distinct_names A1 A2 sess file_ext :
  now_strftime A1 = now_strftime A2 ->
  (8 <= String.length (uuid4 A1))%nat ->
  (8 <= String.length (uuid4 A2))%nat ->
  Py.slice_to 8 (uuid4 A1) <> Py.slice_to 8 (uuid4 A2) ->
  unique_filename A1 sess file_ext <> unique_filename A2 sess file_ext /\
  Py.os_path_join UPLOAD_FOLDER (unique_filename A1 sess file_ext)
    <> Py.os_path_join UPLOAD_FOLDER (unique_filename A2 sess file_ext).
Proof.
  intros Hts Hl1 Hl2 Hne.
  assert (unique_filename A1 sess file_ext <> unique_filename A2 sess file_ext)
    as Hnames.
  { unfold unique_filename. rewrite Hts. intros Heq.
    do 4 apply String.app_inj in Heq.
    apply append_inj_length in Heq as [? _]; [done|].
    by rewrite !length_slice_to. }
  split; [done|]. intros Heq. by apply os_path_join_uploads_inj in Heq.
Qed.

Lemma distinct_suffix_distinct_names_witness :
  let A1 := demo_A "0a1b2c3d" 100 in
  let A2 := demo_A "4e5f6a7b" 100 in
  now_strftime A1 = now_strftime A2 /\
  (8 <= String.length (uuid4 A1))%nat /\
  (8 <= String.length (uuid4 A2))%nat /\
  Py.slice_to 8 (uuid4 A1) <> Py.slice_to 8 (uuid4 A2) /\
  unique_filename A1 amy "png" <> unique_filename A2 amy "png" /\
  Py.os_path_join UPLOAD_FOLDER (unique_filename A1 amy "png")
    <> Py.os_path_join UPLOAD_FOLDER (unique_filename A2 amy "png").
Proof.
  intros A1 A2.
  assert (8 <= String.length (uuid4 A1))%nat as H1 by (vm_compute; lia).
  assert (8 <= String.length (uuid4 A2))%nat as H2 by (vm_compute; lia).
  assert (Py.slice_to 8 (uuid4 A1) <> Py.slice_to 8 (uuid4 A2)) as Hne
    by (by vm_compute).
  do 4 (split; [done|]).
  exact (distinct_suffix_distinct_names A1 A2 amy "png" eq_refl H1 H2 Hne).
Defined.

(** X17. An upload changes the content of at most two files, the one its
    path in the uploads folder names and the one its path in the results
    folder names: every other file keeps its content, whatever the
    outcome. *)
Theorem upload_writes_two_paths E A req w f :
  files (upload E A req w).2 !! f <> files w !! f ->
  exists sess file,
    accepted req sess file /\
    (fs_resolve E (Py.os_path_join UPLOAD_FOLDER
                     (unique_filename A sess (file_ext_of file))) = Some f \/
     fs_resolve E (Py.os_path_join RESULT_FOLDER
                     (unique_filename A sess (file_ext_of file))) = Some f).
Proof.
  intros Hchg.
  destruct (upload_cases E A req w) as [(sess & file & Hacc) | [resp Hsame]].
  2: { rewrite Hsame in Hchg. by destruct Hchg. }
  exists sess, file. split; [done|].
  fold (image_path_of A sess (file_ext_of file)).
  fold (result_path_of A sess (file_ext_of file)).
  rewrite (upload_accepted E A req sess file w Hacc), upload_process_run
    in Hchg. cbv zeta in Hchg.
  destruct (fs_resolve E (image_path_of A sess (file_ext_of file)))
    as [saved|]; [|done].
  destruct (decide (f = saved)) as [->|Hp1]; [by left|].
  right.
  destruct (model_boxes E (stream file)) as [boxes|e]; simpl in Hchg;
    [|by rewrite lookup_insert_ne in Hchg].
  destruct (process_results E boxes _) as [[status st]|e]; simpl in Hchg;
    [|by rewrite lookup_insert_ne in Hchg].
  destruct (l_img st) as [m|]; simpl in Hchg;
    [|by rewrite lookup_insert_ne in Hchg].
  destruct (fs_resolve E (result_path_of A sess (file_ext_of file)))
    as [result|]; simpl in Hchg; [|by rewrite lookup_insert_ne in Hchg].
  destruct (decide (f = result)) as [->|Hp2]; [done|].
  by rewrite !lookup_insert_ne in Hchg.
Qed.

Lemma upload_writes_two_paths_witness :
  let req := demo_post amy "dent.JPG" [1; 9] in
  let A := demo_A "4e5f6a7b" 100 in
  let f := "static/results/amy_20240101_120000_4e5f6a7b.jpg"%string in
  files (upload demo_E A req initial_world).2 !! f
    <> files initial_world !! f /\
  exists sess file,
    accepted req sess file /\
    (fs_resolve demo_E
       (Py.os_path_join UPLOAD_FOLDER
          (unique_filename A sess (file_ext_of file))) = Some f \/
     fs_resolve demo_E
       (Py.os_path_join RESULT_FOLDER
          (unique_filename A sess (file_ext_of file))) = Some f).
Proof.
  intros req A f.
  assert (files (upload demo_E A req initial_world).2 !! f
          <> files initial_world !! f) as Hchg by (by vm_compute).
  split; [done|].
  exact (upload_writes_two_paths demo_E A req initial_world f Hchg).
Defined.

Lemma unique_filename_absolute A sess file_ext :
  Py.startswith "/" (session_username sess) = true ->
  Py.startswith "/" (unique_filename A sess file_ext) = true.
Proof. unfold unique_filename. by destruct (session_username sess). Qed.

(** X18. For a user whose name starts with a slash, [os.path.join] drops
    the folder: the upload is saved at the bare file name, outside the two
    image folders, and the annotated image is then written to the same
    path. Whenever such a user's upload leaves a record, the one file that
    path names holds the annotated image, the upload itself is gone, and
    no other file has changed. *)
Theorem absolute_user_name_overwrites_upload E A req sess w out w' :
  upload E A req w = (out, w') ->
  detection_history w' <> detection_history w ->
  session req = Some sess ->
  Py.startswith "/" (session_username sess) = true ->
  exists file m' saved,
    files_image req = Some file /\
    Py.os_path_join UPLOAD_FOLDER (unique_filename A sess (file_ext_of file))
      = unique_filename A sess (file_ext_of file) /\
    Py.os_path_join RESULT_FOLDER (unique_filename A sess (file_ext_of file))
      = unique_filename A sess (file_ext_of file) /\
    fs_resolve E (unique_filename A sess (file_ext_of file)) = Some saved /\
    files w' !! saved = Some (Written m') /\
    forall f, f <> saved -> files w' !! f = files w !! f.
Proof.
  intros Hrun Hnew Hsess Habs.
  destruct (record_created_inv E A req w out w' Hrun Hnew)
    as (sess' & file & boxes & status & st & m & saved & Hacc & _ & _ & _ & _
        & -> & Hsaved).
  assert (sess' = sess) as ->.
  { destruct Hacc as (Hs & _). rewrite Hsess in Hs. by injection Hs. }
  assert (forall folder,
            Py.os_path_join folder (unique_filename A sess (file_ext_of file))
            = unique_filename A sess (file_ext_of file)) as Hjoin.
  { intros folder. unfold Py.os_path_join.
    by rewrite unique_filename_absolute. }
  exists file, m, saved. split; [apply Hacc|].
  split; [apply Hjoin|]. split; [apply Hjoin|].
  unfold image_path_of in Hsaved. rewrite Hjoin in Hsaved.
  split; [done|]. simpl. unfold result_path_of. rewrite Hjoin, Hsaved. simpl.
  split; [apply lookup_insert_eq|].
  intros f Hf. by rewrite !lookup_insert_ne.
Qed.

Lemma absolute_user_name_overwrites_upload_witness :
  let req := demo_post mallory "dent.JPG" [1; 9] in
  let A := demo_A "4e5f6a7b" 100 in
  let run := upload demo_E A req initial_world in
  detection_history run.2 <> detection_history initial_world /\
  session req = Some mallory /\
  Py.startswith "/" (session_username mallory) = true /\
  exists file m' saved,
    files_image req = Some file /\
    Py.os_path_join UPLOAD_FOLDER
      (unique_filename A mallory (file_ext_of file))
      = unique_filename A mallory (file_ext_of file) /\
    Py.os_path_join RESULT_FOLDER
      (unique_filename A mallory (file_ext_of file))
      = unique_filename A mallory (file_ext_of file) /\
    fs_resolve demo_E (unique_filename A mallory (file_ext_of file))
      = Some saved /\
    files run.2 !! saved = Some (Written m') /\
    forall f, f <> saved -> files run.2 !! f = files initial_world !! f.
Proof.
  intros req A run. split; [by vm_compute|]. do 2 (split; [done|]).
  apply (absolute_user_name_overwrites_upload demo_E A req mallory
           initial_world run.1 run.2).
  - apply surjective_pairing.
  - by vm_compute.
  - done.
  - done.
Defined.

(** ** The ledger over time *)

Lemma upload_effect E A req w :
  let w' := (upload E A req w).2 in
  (detection_history w' = detection_history w /\
   sqlite_sequence w' = sqlite_sequence w) \/
  exists r,
    detection_history w' = detection_history w ++ [r] /\
    row_id r = sql.next_rowid w /\ sqlite_sequence w' = sql.next_rowid w.
Proof.
  cbv zeta.
  destruct (upload_cases E A req w) as [(sess & file & Hacc) | [resp Hsame]].
  2: { left. by rewrite Hsame. }
  rewrite (upload_accepted E A req sess file w Hacc), upload_process_run.
  cbv zeta.
  destruct (fs_resolve E _) as [saved|]; [|by left].
  destruct (model_boxes E (stream file)) as [boxes|e]; [|by left].
  destruct (process_results E boxes _) as [[status st]|e]; [|by left].
  destruct (l_img st) as [m|]; [|by left].
  right. by eexists.
Qed.

Lemma upload_ledger_ids_ok E A req w :
  ledger_ids_ok w -> ledger_ids_ok (upload E A req w).2.
Proof.
  intros (Hsorted & Hbounds & Hseq).
  destruct (upload_effect E A req w) as [[Hh Hs] | (r & Hh & Hid & Hs)];
    unfold ledger_ids_ok; rewrite Hh, Hs; [done|].
  assert (Forall (fun r' => row_id r' < sql.next_rowid w) (detection_history w))
    as Hlt.
  { apply Forall_forall. intros r' Hr'. apply max_rowid_ge in Hr'.
    unfold sql.next_rowid. lia. }
  assert (sqlite_sequence w < sql.next_rowid w) as Hnext
    by (unfold sql.next_rowid; lia).
  split; [|split; [|lia]].
  - rewrite map_app. apply StronglySorted_snoc; [done|].
    rewrite Hid. clear -Hlt. induction Hlt; constructor; done.
  - apply Forall_app. split.
    + eapply Forall_impl; [exact Hbounds|]. simpl. intros; lia.
    + constructor; [|constructor]. rewrite Hid. lia.
Qed.

Lemma serve_ledger_ids_ok E reqs : forall w,
  ledger_ids_ok w -> ledger_ids_ok (serve E reqs w).
Proof.
  induction reqs as [|[A req] reqs IH]; intros w Hw; simpl; [done|].
  apply IH. by apply upload_ledger_ids_ok.
Qed.

Lemma StronglySorted_lt_NoDup (l : list Z) : StronglySorted Z.lt l -> NoDup l.
Proof.
  induction 1 as [|x l _ IH Hall]; constructor; [|done].
  intros Hin. rewrite Forall_forall in Hall. specialize (Hall x Hin). lia.
Qed.

(** X11. After any sequence of upload requests on the empty database the
    rows carry pairwise different ids, strictly increasing in insertion
    order, all between 1 and the AUTOINCREMENT counter. *)
Theorem record_ids_unique_increasing E reqs :
  let w := serve E reqs initial_world in
  StronglySorted Z.lt (map row_id (detection_history w)) /\
  NoDup (map row_id (detection_history w)) /\
  Forall (fun r => 1 <= row_id r <= sqlite_sequence w) (detection_history w).
Proof.
  cbv zeta.
  assert (ledger_ids_ok initial_world) as H0.
  { unfold ledger_ids_ok, initial_world; simpl.
    split; [constructor | split; [constructor | lia]]. }
  destruct (serve_ledger_ids_ok E reqs initial_world H0) as (Hs & Hb & _).
  split; [done|]. split; [by apply StronglySorted_lt_NoDup | done].
Qed.

Lemma upload_prefix E A req w :
  detection_history w `prefix_of` detection_history (upload E A req w).2.
Proof.
  destruct (upload_effect E A req w) as [[-> _] | (r & -> & _)];
    [done | by apply prefix_app_r].
Qed.

(** X12. The ledger is append-only: whatever upload requests are served,
    the rows already in the table stay, unchanged and in place, at the
    front of the table. *)
Theorem ledger_append_only E reqs w :
  detection_history w `prefix_of` detection_history (serve E reqs w).
Proof.
  revert w. induction reqs as [|[A req] reqs IH]; intros w; simpl; [done|].
  etrans; [apply upload_prefix | apply IH].
Qed.

Lemma where_user_snoc uid rows r :
  sql.where_user uid (rows ++ [r])
  = sql.where_user uid rows ++ (if decide (user_id r = uid) then [r] else []).
Proof.
  unfold sql.where_user. rewrite filter_app, filter_cons, filter_nil.
  by destruct (decide (user_id r = uid)).
Qed.

Lemma where_user_status_snoc uid status rows r :
  sql.where_user_status uid status (rows ++ [r])
  = sql.where_user_status uid status rows ++
    (if decide (user_id r = uid /\ vehicle_status r = status) then [r] else []).
Proof.
  unfold sql.where_user_status. rewrite filter_app, filter_cons, filter_nil.
  by destruct (decide (user_id r = uid /\ vehicle_status r = status)).
Qed.

(** X13. A processed upload adds exactly one to the operator's total, and
    exactly one to the broken count when the detector returned a box, to
    the non-broken count when it returned none; the other count stays. *)
Theorem processed_upload_increments_counts E A req w out w' :
  upload E A req w = (out, w') ->
  detection_history w' <> detection_history w ->
  exists sess file boxes,
    session req = Some sess /\ files_image req = Some file /\
    model_boxes E (stream file) = Ok boxes /\
    let uid := session_user_id sess in
    total_inspections uid w' = S (total_inspections uid w) /\
    broken_count uid w'
      = (broken_count uid w + if boxes is [] then 0 else 1)%nat /\
    non_broken_count uid w'
      = (non_broken_count uid w + if boxes is [] then 1 else 0)%nat.
Proof.
  intros Hrun Hnew.
  destruct (record_created_inv E A req w out w' Hrun Hnew)
    as (sess & file & boxes & status & st & m & saved & Hacc & Hb & Hres & _ & _
        & -> & _).
  apply process_results_status in Hres as [-> _].
  exists sess, file, boxes.
  split; [apply Hacc|]. split; [apply Hacc|]. split; [done|]. cbv zeta.
  unfold total_inspections, broken_count, non_broken_count, sql.count. simpl.
  rewrite where_user_snoc, !where_user_status_snoc, !length_app. simpl.
  rewrite decide_True by done.
  destruct boxes as [|b boxes]; simpl.
  - rewrite decide_False by (intros [_ [=]]).
    rewrite decide_True by done. simpl. lia.
  - rewrite decide_True by done.
    rewrite decide_False by (intros [_ [=]]). simpl. lia.
Qed.

Lemma processed_upload_increments_counts_witness :
  let req := demo_post amy "dent.JPG" [1; 9] in
  let run := upload demo_E (demo_A "4e5f6a7b" 100) req demo_world in
  detection_history run.2 <> detection_history demo_world /\
  exists sess file boxes,
    session req = Some sess /\ files_image req = Some file /\
    model_boxes demo_E (stream file) = Ok boxes /\
    let uid := session_user_id sess in
    total_inspections uid run.2 = S (total_inspections uid demo_world) /\
    broken_count uid run.2
      = (broken_count uid demo_world + if boxes is [] then 0 else 1)%nat /\
    non_broken_count uid run.2
      = (non_broken_count uid demo_world + if boxes is [] then 1 else 0)%nat.
Proof.
  intros req run.
  assert (detection_history run.2 <> detection_history demo_world) as Hnew.
  { intros H. apply (f_equal length) in H. by vm_compute in H. }
  split; [done|].
  apply (processed_upload_increments_counts demo_E (demo_A "4e5f6a7b" 100)
           req demo_world run.1 run.2); [apply surjective_pairing | done].
Defined.

(** X14. An upload by one operator changes nothing of what any other
    operator sees: that operator's three counts, recent rows and full
    listing are the same before and after, whatever the upload's outcome. *)
Theorem other_operators_unaffected E A req sess uid w :
  session req = Some sess ->
  session_user_id sess <> uid ->
  let w' := (upload E A req w).2 in
  total_inspections uid w' = total_inspections uid w /\
  broken_count uid w' = broken_count uid w /\
  non_broken_count uid w' = non_broken_count uid w /\
  recent_inspections uid w' = recent_inspections uid w /\
  sql.select_history uid None w' = sql.select_history uid None w.
Proof.
  intros Hs Hne. cbv zeta.
  unfold recent_inspections.
  rewrite !(other_operator_upload_invisible E A req sess uid _ w Hs Hne).
  unfold total_inspections, broken_count, non_broken_count.
  destruct (upload_history E A req w)
    as [-> | (r & sess' & -> & Hs' & Hr & _)]; [done|].
  rewrite Hs in Hs'. injection Hs' as <-.
  rewrite where_user_snoc, !where_user_status_snoc.
  rewrite !decide_False by (try intros [? _]; congruence).
  by rewrite !app_nil_r.
Qed.

Lemma other_operators_unaffected_witness :
  let req := demo_post bob "dent.jpeg" [1; 9] in
  let w' := (upload demo_E (demo_A "8c9d0e1f" 101) req demo_world).2 in
  session req = Some bob /\
  session_user_id bob <> 7 /\
  total_inspections 7 w' = total_inspections 7 demo_world /\
  broken_count 7 w' = broken_count 7 demo_world /\
  non_broken_count 7 w' = non_broken_count 7 demo_world /\
  recent_inspections 7 w' = recent_inspections 7 demo_world /\
  sql.select_history 7 None w' = sql.select_history 7 None demo_world.
Proof.
  intros req w'.
  assert (session_user_id bob <> 7) as Hne by done.
  split; [done|]. split; [done|].
  exact (other_operators_unaffected demo_E (demo_A "8c9d0e1f" 101) req bob 7
           demo_world eq_refl Hne).
Defined.

(** X15. The dashboard lists five recent rows when the operator has at
    least five, and all of them otherwise. *)
Theorem dashboard_recent_is_min_5 uid w :
  length (recent_inspections uid w) = (5 `min` total_inspections uid w)%nat.
Proof.
  unfold recent_inspections. rewrite select_history_limit, length_take.
  by rewrite total_inspections_listing.
Qed.

Lemma order_by_snoc_newest rows r :
  Forall (fun r' => timestamp r' < timestamp r) rows ->
  sql.order_by_timestamp_desc (rows ++ [r])
  = r :: sql.order_by_timestamp_desc rows.
Proof.
  unfold sql.order_by_timestamp_desc. rewrite foldr_app. simpl.
  induction 1 as [|r' rows Hlt _ IH]; simpl; [done|].
  rewrite IH. simpl. by rewrite (proj2 (Z.leb_gt _ _)).
Qed.

(** X16. When the INSERT's clock is ahead of every earlier row of the
    operator, the new row of a processed upload is the first one on the
    operator's dashboard and history page. *)
Theorem newest_upload_listed_first E A req w out w' :
  upload E A req w = (out, w') ->
  detection_history w' <> detection_history w ->
  (forall r' sess, session req = Some sess -> r' ∈ detection_history w ->
                   user_id r' = session_user_id sess ->
                   timestamp r' < CURRENT_TIMESTAMP A) ->
  exists sess r,
    session req = Some sess /\
    detection_history w' = detection_history w ++ [r] /\
    head (recent_inspections (session_user_id sess) w') = Some r /\
    head (sql.select_history (session_user_id sess) None w') = Some r.
Proof.
  intros Hrun Hnew Hclock.
  destruct (record_created_inv E A req w out w' Hrun Hnew)
    as (sess & file & boxes & status & st & m & saved & Hacc & _ & _ & _ & _
        & -> & _).
  destruct Hacc as (Hs & _).
  exists sess, (history_row A sess (file_ext_of file) status st w).
  split; [done|]. split; [done|].
  unfold recent_inspections, sql.select_history, sql.limit. simpl.
  rewrite where_user_snoc. simpl. rewrite decide_True by done.
  rewrite order_by_snoc_newest; [done|].
  apply Forall_forall. intros r' Hr'.
  apply list_elem_of_filter in Hr' as [Hu Hin]. simpl.
  by apply (Hclock r' sess).
Qed.

Lemma newest_upload_listed_first_witness :
  let req := demo_post amy "dent.JPG" [1; 9] in
  let A := demo_A "0f0f0f0f" 200 in
  let run := upload demo_E A req demo_world in
  detection_history run.2 <> detection_history demo_world /\
  (forall r' sess, session req = Some sess -> r' ∈ detection_history demo_world ->
                   user_id r' = session_user_id sess ->
                   timestamp r' < CURRENT_TIMESTAMP A) /\
  exists sess r,
    session req = Some sess /\
    detection_history run.2 = detection_history demo_world ++ [r] /\
    head (recent_inspections (session_user_id sess) run.2) = Some r /\
    head (sql.select_history (session_user_id sess) None run.2) = Some r.
Proof.
  intros req A run.
  assert (detection_history run.2 <> detection_history demo_world) as Hnew.
  { intros H. apply (f_equal length) in H. by vm_compute in H. }
  assert (forall r' sess, session req = Some sess ->
            r' ∈ detection_history demo_world ->
            user_id r' = session_user_id sess ->
            timestamp r' < CURRENT_TIMESTAMP A) as Hclock.
  { intros r' sess _ Hin _.
    assert (Forall (fun r => timestamp r < 200) (detection_history demo_world))
      as Hall by (vm_compute; repeat constructor).
    rewrite Forall_forall in Hall. by apply Hall. }
  split; [done|]. split; [done|].
  apply (newest_upload_listed_first demo_E A req demo_world run.1 run.2);
    [apply surjective_pairing | done | done].
Defined.

(** ** Accounts *)

Lemma head_filter_None {A} (P : A -> Prop) `{!forall x, Decision (P x)}
    (l : list A) :
  head (filter P l) = None <-> Forall (fun x => ~ P x) l.
Proof.
  induction l as [|x l IH]; [by split; [constructor|]|].
  rewrite filter_cons. destruct (decide (P x)) as [Hx|Hx]; simpl.
  - split; [done|]. intros Hall. by apply Forall_cons in Hall as [? _].
  - rewrite IH. split; [by constructor|].
    intros Hall. by apply Forall_cons in Hall as [_ ?].
Qed.

Lemma filter_none {A} (P : A -> Prop) `{!forall x, Decision (P x)}
    (l : list A) :
  Forall (fun x => ~ P x) l -> filter P l = [].
Proof.
  induction 1 as [|x l Hx _ IH]; [done|].
  by rewrite filter_cons, decide_False.
Qed.

(** The registration [register] goes through with, for the given form. *)
Lemma register_cases W a req db :
  (exists h, register W a req db = Returned h /\ accounts_after h = db) \/
  (form_session req = None /\ form_method req = POST /\
   (3 <= String.length (str.strip (form_get req "username")))%nat /\
   (4 <= String.length (form_get req "password"))%nat /\
   form_get req "confirm_password" = form_get req "password" /\
   Forall (fun u => u_username u <> str.strip (form_get req "username"))
          (users db) /\
   register W a req db =
     Returned
       {| response := redirect "login";
          pending := [("Registration successful! Please log in.", "success")];
          session_after := None;
          accounts_after :=
            {| users := users db ++
                 [ {| u_id := users_sql.next_id db;
                      u_username := str.strip (form_get req "username");
                      u_password_hash :=
                        generate_password_hash W (salt a)
                          (form_get req "password");
                      u_created_at := users_now a |} ];
               users_sequence := users_sql.next_id db |} |}).
Proof.
  unfold register.
  destruct (form_session req) as [sess|] eqn:Hs; [left; by eexists|].
  destruct (form_method req) eqn:Hm; [left; by eexists|].
  destruct (_ || _)%bool; [left; by eexists|].
  destruct (Nat.ltb_spec (String.length (str.strip (form_get req "username"))) 3)
    as [|Hu]; [left; by eexists|].
  destruct (Nat.ltb_spec (String.length (form_get req "password")) 4)
    as [|Hp]; [left; by eexists|].
  destruct (String.eqb_spec (form_get req "password")
              (form_get req "confirm_password")) as [Hc|_];
    simpl; [|left; by eexists].
  destruct (users_sql.by_username _ db) as [u|] eqn:Hfind;
    [left; by eexists|].
  apply head_filter_None in Hfind. right.
  unfold users_sql.insert.
  rewrite bool_decide_eq_false_2.
  - repeat (split; [done|]). done.
  - intros Hex. apply Exists_exists in Hex as (u & Hin & Hu').
    rewrite Forall_forall in Hfind. by apply (Hfind u).
Qed.

(** X22. [register] ends in an exception only when it is raced: it is
    SQLite's IntegrityError, raised by the INSERT when the form passed
    every check, the SELECT found the username free, and a request served
    in between has taken it. A registration served with nothing in between
    never raises. *)
Theorem register_raises_only_when_raced W a req db db' e :
  register_between W a req db db' = Raised e ->
  let username := str.strip (form_get req "username") in
  e = IntegrityError /\
  form_session req = None /\ form_method req = POST /\
  users_sql.by_username username db = None /\
  (exists u, u ∈ users db' /\ u_username u = username) /\
  db' <> db /\
  register_between W a req db db = register W a req db /\
  exists h, register W a req db = Returned h.
Proof.
  intros Hrun. cbv zeta.
  assert (exists h, register W a req db = Returned h) as Halone.
  { destruct (register_cases W a req db)
      as [(h & Hh & _) | (_ & _ & _ & _ & _ & _ & Hh)]; by eexists. }
  unfold register_between in Hrun.
  destruct (form_session req) as [sess|] eqn:Hs; [done|].
  destruct (form_method req) eqn:Hm; [done|].
  destruct (_ || _)%bool; [done|].
  destruct (_ <? 3)%nat; [done|].
  destruct (_ <? 4)%nat; [done|].
  destruct (negb _); [done|].
  destruct (users_sql.by_username _ db) as [u|] eqn:Hfind; [done|].
  unfold users_sql.insert in Hrun.
  destruct (bool_decide _) eqn:Hdup; [|done].
  injection Hrun as <-.
  apply bool_decide_eq_true_1, Exists_exists in Hdup as (u & Hin & Hu).
  do 4 (split; [done|]). split; [by exists u|]. split; [|done].
  intros ->. apply head_filter_None in Hfind.
  rewrite Forall_forall in Hfind. by apply (Hfind u).
Qed.

Lemma register_raises_only_when_raced_witness :
  let req := demo_register_form " amy " "pa55word" in
  let username := str.strip (form_get req "username") in
  register_between demo_W (demo_a 95) req initial_accounts demo_accounts
    = Raised IntegrityError /\
  IntegrityError = IntegrityError /\
  form_session req = None /\ form_method req = POST /\
  users_sql.by_username username initial_accounts = None /\
  (exists u, u ∈ users demo_accounts /\ u_username u = username) /\
  demo_accounts <> initial_accounts /\
  register_between demo_W (demo_a 95) req initial_accounts initial_accounts
    = register demo_W (demo_a 95) req initial_accounts /\
  exists h, register demo_W (demo_a 95) req initial_accounts = Returned h.
Proof.
  intros req username.
  assert (register_between demo_W (demo_a 95) req initial_accounts
            demo_accounts = Raised IntegrityError) as Hrun
    by (by vm_compute).
  split; [done|].
  exact (register_raises_only_when_raced demo_W (demo_a 95) req
           initial_accounts demo_accounts IntegrityError Hrun).
Defined.

(** X20. [register] adds a user only for a POST without a session whose
    stripped username has at least 3 characters and is not taken, whose
    password has at least 4 and equals its confirmation; the one row it
    appends carries the stripped username, the hash of the password and
    the next id, and the answer is a redirect to the login page. *)
Theorem register_requirements W a req db h :
  register W a req db = Returned h ->
  accounts_after h <> db ->
  let username := str.strip (form_get req "username") in
  let password := form_get req "password" in
  form_session req = None /\ form_method req = POST /\
  (3 <= String.length username)%nat /\
  (4 <= String.length password)%nat /\
  form_get req "confirm_password" = password /\
  (forall u, u ∈ users db -> u_username u <> username) /\
  users (accounts_after h) =
    users db ++
    [ {| u_id := users_sql.next_id db; u_username := username;
         u_password_hash := generate_password_hash W (salt a) password;
         u_created_at := users_now a |} ] /\
  response h = redirect "login" /\ session_after h = None.
Proof.
  intros Hrun Hnew. cbv zeta.
  destruct (register_cases W a req db)
    as [(h' & Hh & Hsame) | (Hs & Hm & Hu & Hp & Hc & Hfresh & Hh)];
    rewrite Hh in Hrun; injection Hrun as <-; [done|].
  repeat (split; [done|]). split; [|done].
  by apply Forall_forall.
Qed.

Lemma register_requirements_witness :
  let req := demo_register_form " carol " "pa55word" in
  let run := register demo_W (demo_a 95) req demo_accounts in
  exists h,
    run = Returned h /\ accounts_after h <> demo_accounts /\
    let username := str.strip (form_get req "username") in
    let password := form_get req "password" in
    form_session req = None /\ form_method req = POST /\
    (3 <= String.length username)%nat /\
    (4 <= String.length password)%nat /\
    form_get req "confirm_password" = password /\
    (forall u, u ∈ users demo_accounts -> u_username u <> username) /\
    users (accounts_after h) =
      users demo_accounts ++
      [ {| u_id := users_sql.next_id demo_accounts; u_username := username;
           u_password_hash :=
             generate_password_hash demo_W (salt (demo_a 95)) password;
           u_created_at := users_now (demo_a 95) |} ] /\
    response h = redirect "login" /\ session_after h = None.
Proof.
  intros req run. unfold run.
  destruct (register demo_W (demo_a 95) req demo_accounts) as [h|e] eqn:Hh;
    [|by vm_compute in Hh].
  exists h. split; [reflexivity|].
  assert (accounts_after h <> demo_accounts) as Hnew.
  { intros H.
    assert (match register demo_W (demo_a 95) req demo_accounts with
            | Returned h0 => length (users (accounts_after h0))
            | Raised _ => 0%nat
            end = 3%nat) as Hlen by (by vm_compute).
    rewrite Hh, H in Hlen. by vm_compute in Hlen. }
  split; [done|].
  exact (register_requirements demo_W (demo_a 95) req demo_accounts h Hh Hnew).
Defined.

Lemma by_username_Some name db u :
  users_sql.by_username name db = Some u -> u ∈ users db /\ u_username u = name.
Proof.
  intros H. apply head_Some_elem_of, list_elem_of_filter in H. tauto.
Qed.

Lemma by_id_Some uid db u :
  users_sql.by_id uid db = Some u -> u ∈ users db /\ u_id u = uid.
Proof.
  intros H. apply head_Some_elem_of, list_elem_of_filter in H. tauto.
Qed.

(** X23. [login] opens a session only for a POST naming an existing user
    (by the stripped username) with a password that checks against that
    user's stored hash; the session then carries that row's id and
    username, and the [users] table is left as it was. *)
Theorem login_requires_valid_credentials W req db sess :
  form_session req = None ->
  session_after (login W req db) = Some sess ->
  exists u,
    u ∈ users db /\
    u_username u = str.strip (form_get req "username") /\
    check_password_hash W (u_password_hash u) (form_get req "password")
      = true /\
    sess = {| session_user_id := u_id u; session_username := u_username u |} /\
    form_method req = POST /\
    response (login W req db) = redirect "dashboard" /\
    accounts_after (login W req db) = db.
Proof.
  unfold login. intros -> Hsess.
  destruct (form_method req); [done|].
  destruct (_ || _)%bool; [done|].
  destruct (users_sql.by_username _ db) as [u|] eqn:Hfind; [|done].
  destruct (check_password_hash W _ _) eqn:Hcheck; [|done].
  simpl in *. injection Hsess as <-.
  apply by_username_Some in Hfind as [Hin Hname]. by exists u.
Qed.

Lemma login_requires_valid_credentials_witness :
  let req := demo_login_form "amy " "s3cret" in
  form_session req = None /\
  session_after (login demo_W req demo_accounts) = Some amy_session /\
  exists u,
    u ∈ users demo_accounts /\
    u_username u = str.strip (form_get req "username") /\
    check_password_hash demo_W (u_password_hash u) (form_get req "password")
      = true /\
    amy_session
      = {| session_user_id := u_id u; session_username := u_username u |} /\
    form_method req = POST /\
    response (login demo_W req demo_accounts) = redirect "dashboard" /\
    accounts_after (login demo_W req demo_accounts) = demo_accounts.
Proof.
  intros req.
  assert (session_after (login demo_W req demo_accounts) = Some amy_session)
    as Hsess by (by vm_compute).
  split; [done|]. split; [done|].
  exact (login_requires_valid_credentials demo_W req demo_accounts amy_session
           eq_refl Hsess).
Defined.

Lemma length_nonempty (s : string) :
  (1 <= String.length s)%nat -> String.eqb s "" = false.
Proof. destruct s; simpl; [lia | done]. Qed.

(** X24. Registration and login fit together: provided a werkzeug hash
    checks against its own password, the credentials of a registration
    that went through log the user in afterwards, with any padding of
    whitespace around the username, and the session carries the id the
    registration gave. *)
Theorem register_then_login W a req db h req' :
  hash_sound W ->
  register W a req db = Returned h ->
  accounts_after h <> db ->
  form_session req' = None -> form_method req' = POST ->
  str.strip (form_get req' "username") = str.strip (form_get req "username") ->
  form_get req' "password" = form_get req "password" ->
  response (login W req' (accounts_after h)) = redirect "dashboard" /\
  session_after (login W req' (accounts_after h))
    = Some {| session_user_id := users_sql.next_id db;
              session_username := str.strip (form_get req "username") |}.
Proof.
  intros Hsound Hrun Hnew Hs' Hm' Hname Hpw.
  destruct (register_cases W a req db)
    as [(h' & Hh & Hsame) | (_ & _ & Hu & Hp & _ & Hfresh & Hh)];
    rewrite Hh in Hrun; injection Hrun as <-; [done|].
  unfold login. rewrite Hs', Hm', Hname, Hpw.
  rewrite !length_nonempty by lia. simpl.
  unfold users_sql.by_username. simpl.
  rewrite filter_app, (filter_none _ _ Hfresh), filter_cons. simpl.
  rewrite decide_True by done. simpl. by rewrite Hsound.
Qed.

Lemma demo_W_sound : hash_sound demo_W.
Proof. intros s password. apply String.eqb_refl. Qed.

Lemma register_then_login_witness :
  let req := demo_register_form " carol " "pa55word" in
  let req' := demo_login_form "carol" "pa55word" in
  exists h,
    hash_sound demo_W /\
    register demo_W (demo_a 95) req demo_accounts = Returned h /\
    accounts_after h <> demo_accounts /\
    form_session req' = None /\ form_method req' = POST /\
    str.strip (form_get req' "username")
      = str.strip (form_get req "username") /\
    form_get req' "password" = form_get req "password" /\
    response (login demo_W req' (accounts_after h)) = redirect "dashboard" /\
    session_after (login demo_W req' (accounts_after h))
      = Some {| session_user_id := users_sql.next_id demo_accounts;
                session_username := str.strip (form_get req "username") |}.
Proof.
  intros req req'.
  destruct (register demo_W (demo_a 95) req demo_accounts) as [h|e] eqn:Hh;
    [|by vm_compute in Hh].
  exists h.
  assert (accounts_after h <> demo_accounts) as Hnew.
  { intros H.
    assert (match register demo_W (demo_a 95) req demo_accounts with
            | Returned h0 => length (users (accounts_after h0))
            | Raised _ => 0%nat
            end = 3%nat) as Hlen by (by vm_compute).
    rewrite Hh, H in Hlen. by vm_compute in Hlen. }
  split; [exact demo_W_sound|]. split; [reflexivity|]. split; [exact Hnew|].
  do 4 (split; [reflexivity|]).
  exact (register_then_login demo_W (demo_a 95) req demo_accounts h req'
           demo_W_sound Hh Hnew eq_refl eq_refl eq_refl eq_refl).
Defined.

(** How a [profile] request can end: the table untouched, a TypeError
    (POST for a session whose user row is missing), or the password of the
    session's user replaced. *)
Lemma profile_cases W a req db w :
  (exists h, profile W a req db w = Returned h /\ accounts_after h = db) \/
  (profile W a req db w = Raised TypeError /\
   exists sess, form_session req = Some sess /\ form_method req = POST /\
                users_sql.by_id (session_user_id sess) db = None) \/
  (exists sess row h,
     form_session req = Some sess /\ form_method req = POST /\
     users_sql.by_id (session_user_id sess) db = Some row /\
     check_password_hash W (u_password_hash row)
       (form_get req "current_password") = true /\
     (4 <= String.length (form_get req "new_password"))%nat /\
     form_get req "confirm_password" = form_get req "new_password" /\
     profile W a req db w = Returned h /\
     session_after h = Some sess /\
     (exists ctx, response h =
        render_template "profile.html"
          [("Password updated successfully!", "success")] ctx) /\
     accounts_after h =
       users_sql.update_password_hash
         (generate_password_hash W (salt a) (form_get req "new_password"))
         (session_user_id sess) db).
Proof.
  unfold profile.
  destruct (form_session req) as [sess|] eqn:Hs; [|left; by eexists].
  destruct (form_method req) eqn:Hm; [left; by eexists|].
  destruct (users_sql.by_id _ db) as [row|] eqn:Hrow;
    [|right; left; split; [done | by exists sess]].
  destruct (check_password_hash W _ _) eqn:Hcheck; simpl;
    [|left; by eexists].
  destruct (Nat.ltb_spec (String.length (form_get req "new_password")) 4)
    as [|Hlen]; [left; by eexists|].
  destruct (String.eqb_spec (form_get req "new_password")
              (form_get req "confirm_password")) as [Hc|_];
    simpl; [|left; by eexists].
  right; right. eexists sess, row, _.
  do 6 (split; [done|]). split; [reflexivity|]. simpl.
  split; [done|]. split; [by eexists | done].
Qed.

(** X26. [profile] changes the [users] table only for a logged-in POST
    whose current password checks against the stored hash of the session's
    user, whose new password has at least 4 characters and equals its
    confirmation; the change is the UPDATE of that user's hash. *)
Theorem password_change_requires_current W a req db w h :
  profile W a req db w = Returned h ->
  accounts_after h <> db ->
  exists sess row,
    form_session req = Some sess /\ form_method req = POST /\
    row ∈ users db /\ u_id row = session_user_id sess /\
    check_password_hash W (u_password_hash row)
      (form_get req "current_password") = true /\
    (4 <= String.length (form_get req "new_password"))%nat /\
    form_get req "confirm_password" = form_get req "new_password" /\
    accounts_after h =
      users_sql.update_password_hash
        (generate_password_hash W (salt a) (form_get req "new_password"))
        (session_user_id sess) db.
Proof.
  intros Hrun Hnew.
  destruct (profile_cases W a req db w)
    as [(h' & Hh & Hsame) | [[Hh _] |
        (sess & row & h' & Hs & Hm & Hrow & Hc & Hl & Hcf & Hh & _ & _ & Hdb)]];
    rewrite Hh in Hrun; [injection Hrun as <-; done | done |].
  injection Hrun as <-. apply by_id_Some in Hrow as [Hin Hid].
  by exists sess, row.
Qed.

Lemma password_change_requires_current_witness :
  let req := demo_password_form amy_session "s3cret" "n3wpass" in
  exists h,
    profile demo_W (demo_a 99) req demo_accounts demo_world = Returned h /\
    accounts_after h <> demo_accounts /\
    exists sess row,
      form_session req = Some sess /\ form_method req = POST /\
      row ∈ users demo_accounts /\ u_id row = session_user_id sess /\
      check_password_hash demo_W (u_password_hash row)
        (form_get req "current_password") = true /\
      (4 <= String.length (form_get req "new_password"))%nat /\
      form_get req "confirm_password" = form_get req "new_password" /\
      accounts_after h =
        users_sql.update_password_hash
          (generate_password_hash demo_W (salt (demo_a 99))
             (form_get req "new_password"))
          (session_user_id sess) demo_accounts.
Proof.
  intros req.
  destruct (profile demo_W (demo_a 99) req demo_accounts demo_world)
    as [h|e] eqn:Hh; [|by vm_compute in Hh].
  exists h.
  assert (accounts_after h <> demo_accounts) as Hnew.
  { intros H.
    assert (match profile demo_W (demo_a 99) req demo_accounts demo_world with
            | Returned h0 =>
                map u_password_hash (users (accounts_after h0))
            | Raised _ => []
            end = ["n3wpass"; "hunter2"]%string) as Hhash by (by vm_compute).
    rewrite Hh, H in Hhash. by vm_compute in Hhash. }
  split; [reflexivity|]. split; [exact Hnew|].
  exact (password_change_requires_current demo_W (demo_a 99) req demo_accounts
           demo_world h Hh Hnew).
Defined.

Lemma update_password_hash_rows new_hash uid db :
  Forall2 (fun u u' =>
             u_id u' = u_id u /\ u_username u' = u_username u /\
             u_created_at u' = u_created_at u /\
             (u_id u <> uid -> u' = u))
          (users db)
          (users (users_sql.update_password_hash new_hash uid db)).
Proof.
  unfold users_sql.update_password_hash. simpl.
  induction (users db) as [|u l IH]; simpl; constructor; [|done].
  case_bool_decide; simpl; [|done]. repeat split; done.
Qed.

Lemma Forall2_same {A} (R : A -> A -> Prop) (l : list A) :
  (forall x, R x x) -> Forall2 R l l.
Proof. intros HR. induction l; constructor; done. Qed.

(** X27. Whatever a [profile] request does, it leaves the [users] table
    with the same rows in the same order, each with its id, username and
    creation time; the rows of every user other than the session's are
    untouched, so nobody's password but the requester's can change. *)
Theorem profile_touches_only_own_hash W a req db w h :
  profile W a req db w = Returned h ->
  Forall2 (fun u u' =>
             u_id u' = u_id u /\ u_username u' = u_username u /\
             u_created_at u' = u_created_at u /\
             (forall sess, form_session req = Some sess ->
                           u_id u <> session_user_id sess -> u' = u))
          (users db) (users (accounts_after h)).
Proof.
  intros Hrun.
  destruct (profile_cases W a req db w)
    as [(h' & Hh & Hsame) | [[Hh _] |
        (sess & row & h' & Hs & _ & _ & _ & _ & _ & Hh & _ & _ & Hdb)]];
    rewrite Hh in Hrun; [| done |]; injection Hrun as <-.
  - rewrite Hsame. by apply Forall2_same.
  - rewrite Hdb.
    eapply Forall2_impl; [apply update_password_hash_rows|]. simpl.
    intros u u' (? & ? & ? & Hother). repeat (split; [done|]).
    intros sess' Hs'. rewrite Hs in Hs'. injection Hs' as <-. done.
Qed.

Lemma profile_touches_only_own_hash_witness :
  let req := demo_password_form amy_session "s3cret" "n3wpass" in
  exists h,
    profile demo_W (demo_a 99) req demo_accounts demo_world = Returned h /\
    Forall2 (fun u u' =>
               u_id u' = u_id u /\ u_username u' = u_username u /\
               u_created_at u' = u_created_at u /\
               (forall sess, form_session req = Some sess ->
                             u_id u <> session_user_id sess -> u' = u))
            (users demo_accounts) (users (accounts_after h)).
Proof.
  intros req.
  destruct (profile demo_W (demo_a 99) req demo_accounts demo_world)
    as [h|e] eqn:Hh; [|by vm_compute in Hh].
  exists h. split; [reflexivity|].
  exact (profile_touches_only_own_hash demo_W (demo_a 99) req demo_accounts
           demo_world h Hh).
Defined.

Lemma filter_username_unique (l : list UserRow) u :
  NoDup (map u_username l) -> u ∈ l ->
  filter (fun x => u_username x = u_username u) l = [u].
Proof.
  induction l as [|x l IH]; intros Hnd Hin; [by apply elem_of_nil in Hin|].
  simpl in Hnd. apply NoDup_cons in Hnd as [Hx Hnd].
  rewrite filter_cons. apply elem_of_cons in Hin as [->|Hin].
  - rewrite decide_True by done. f_equal. apply filter_none.
    apply Forall_forall. intros y Hy Heq. apply Hx.
    rewrite <- Heq. apply list_elem_of_In, in_map, list_elem_of_In, Hy.
  - rewrite decide_False; [by apply IH|].
    intros Heq. apply Hx. rewrite Heq.
    apply list_elem_of_In, in_map, list_elem_of_In, Hin.
Qed.

Lemma filter_id_unique (l : list UserRow) u :
  NoDup (map u_id l) -> u ∈ l ->
  filter (fun x => u_id x = u_id u) l = [u].
Proof.
  induction l as [|x l IH]; intros Hnd Hin; [by apply elem_of_nil in Hin|].
  simpl in Hnd. apply NoDup_cons in Hnd as [Hx Hnd].
  rewrite filter_cons. apply elem_of_cons in Hin as [->|Hin].
  - rewrite decide_True by done. f_equal. apply filter_none.
    apply Forall_forall. intros y Hy Heq. apply Hx.
    rewrite <- Heq. apply list_elem_of_In, in_map, list_elem_of_In, Hy.
  - rewrite decide_False; [by apply IH|].
    intros Heq. apply Hx. rewrite Heq.
    apply list_elem_of_In, in_map, list_elem_of_In, Hin.
Qed.

Lemma by_username_after_update new_hash db u :
  accounts_wf db -> u ∈ users db ->
  users_sql.by_username (u_username u)
    (users_sql.update_password_hash new_hash (u_id u) db)
  = Some {| u_id := u_id u; u_username := u_username u;
            u_password_hash := new_hash; u_created_at := u_created_at u |}.
Proof.
  intros [Hids Hnames] Hin.
  apply StronglySorted_lt_NoDup in Hids.
  unfold users_sql.by_username, users_sql.update_password_hash. simpl.
  pose proof (filter_username_unique (users db) u Hnames Hin) as Hf.
  revert Hf Hin Hids. clear Hnames.
  induction (users db) as [|x l IH]; intros Hf Hin Hids; [done|].
  simpl in Hids. apply NoDup_cons in Hids as [Hx Hids].
  rewrite filter_cons in Hf. simpl. rewrite filter_cons.
  destruct (decide (u_username x = u_username u)) as [Hxu|Hxu].
  - injection Hf as -> _. rewrite bool_decide_eq_true_2 by done. simpl.
    by rewrite decide_True.
  - apply elem_of_cons in Hin as [->|Hin]; [done|].
    assert (u_username (if bool_decide (u_id x = u_id u)
                        then {| u_id := u_id x; u_username := u_username x;
                                u_password_hash := new_hash;
                                u_created_at := u_created_at x |}
                        else x) = u_username x) as Hsame
      by (by case_bool_decide).
    rewrite decide_False by (by rewrite Hsame). by apply IH.
Qed.

(** X25. Changing the password and logging in fit together: on a [users]
    table with unique ids and usernames, and provided a werkzeug hash
    checks against its own password, after a password change that went
    through for a valid session the user logs in with the new password and
    gets the same session back. *)
Theorem password_change_then_login W a req db w h sess req' :
  hash_sound W -> accounts_wf db ->
  form_session req = Some sess -> valid_session db sess ->
  session_username sess <> ""%string ->
  profile W a req db w = Returned h ->
  accounts_after h <> db ->
  form_session req' = None -> form_method req' = POST ->
  str.strip (form_get req' "username") = session_username sess ->
  form_get req' "password" = form_get req "new_password" ->
  response (login W req' (accounts_after h)) = redirect "dashboard" /\
  session_after (login W req' (accounts_after h)) = Some sess.
Proof.
  intros Hsound Hwf Hs (u & Hin & Hid & Hname) Hne Hrun Hnew Hs' Hm' Hu Hpw.
  destruct (profile_cases W a req db w)
    as [(h' & Hh & Hsame) | [[Hh _] |
        (sess' & row & h' & Hs2 & _ & _ & _ & Hl & _ & Hh & _ & _ & Hdb)]];
    rewrite Hh in Hrun; [injection Hrun as <-; done | done |].
  injection Hrun as <-. rewrite Hs in Hs2. injection Hs2 as <-.
  unfold login. rewrite Hs', Hm', Hu, Hpw, Hdb, <- Hid, <- Hname.
  rewrite by_username_after_update by done.
  destruct (String.eqb_spec (u_username u) "") as [He|_];
    [by rewrite Hname in He|].
  rewrite length_nonempty by lia. simpl. rewrite Hsound. simpl.
  split; [done|]. rewrite Hid, Hname. by destruct sess.
Qed.

Lemma demo_accounts_wf : accounts_wf demo_accounts.
Proof.
  split.
  - vm_compute. repeat constructor.
  - apply (bool_decide_unpack _). by vm_compute.
Qed.

Lemma password_change_then_login_witness :
  let req := demo_password_form amy_session "s3cret" "n3wpass" in
  let req' := demo_login_form "amy" "n3wpass" in
  exists h,
    hash_sound demo_W /\ accounts_wf demo_accounts /\
    form_session req = Some amy_session /\
    valid_session demo_accounts amy_session /\
    session_username amy_session <> ""%string /\
    profile demo_W (demo_a 99) req demo_accounts demo_world = Returned h /\
    accounts_after h <> demo_accounts /\
    form_session req' = None /\ form_method req' = POST /\
    str.strip (form_get req' "username") = session_username amy_session /\
    form_get req' "password" = form_get req "new_password" /\
    response (login demo_W req' (accounts_after h)) = redirect "dashboard" /\
    session_after (login demo_W req' (accounts_after h)) = Some amy_session.
Proof.
  intros req req'.
  destruct (profile demo_W (demo_a 99) req demo_accounts demo_world)
    as [h|e] eqn:Hh; [|by vm_compute in Hh].
  exists h.
  assert (accounts_after h <> demo_accounts) as Hnew.
  { intros H.
    assert (match profile demo_W (demo_a 99) req demo_accounts demo_world with
            | Returned h0 =>
                map u_password_hash (users (accounts_after h0))
            | Raised _ => []
            end = ["n3wpass"; "hunter2"]%string) as Hhash by (by vm_compute).
    rewrite Hh, H in Hhash. by vm_compute in Hhash. }
  assert (valid_session demo_accounts amy_session) as Hvalid.
  { exists {| u_id := 1; u_username := "amy"; u_password_hash := "s3cret";
              u_created_at := 90 |}.
    split; [|done]. vm_compute. apply list_elem_of_here. }
  assert (session_username amy_session <> ""%string) as Hne by done.
  split; [exact demo_W_sound|]. split; [exact demo_accounts_wf|].
  split; [reflexivity|]. split; [exact Hvalid|]. split; [exact Hne|].
  split; [reflexivity|]. split; [exact Hnew|].
  do 4 (split; [reflexivity|]).
  exact (password_change_then_login demo_W (demo_a 99) req demo_accounts
           demo_world h amy_session req' demo_W_sound demo_accounts_wf
           eq_refl Hvalid Hne Hh Hnew eq_refl eq_refl eq_refl eq_refl).
Defined.

(** ** The site over time *)

Lemma rstrip_rstrip s : str.rstrip (str.rstrip s) = str.rstrip s.
Proof.
  induction s as [|c s IH]; [done|]. simpl.
  destruct (str.isspace c && String.eqb (str.rstrip s) "")%bool eqn:Hc;
    [done|].
  simpl. by rewrite IH, Hc.
Qed.

Lemma lstrip_head s :
  str.lstrip s = ""%string \/
  exists c t, str.lstrip s = String c t /\ str.isspace c = false.
Proof.
  induction s as [|c s IH]; [by left|]. simpl.
  destruct (str.isspace c) eqn:Hc; [done|]. right. by exists c, s.
Qed.

Lemma strip_strip s : str.strip (str.strip s) = str.strip s.
Proof.
  unfold str.strip.
  destruct (lstrip_head s) as [-> | (c & t & -> & Hc)]; [done|].
  simpl. rewrite Hc. simpl. rewrite Hc. simpl.
  f_equal. rewrite Hc. simpl. by rewrite rstrip_rstrip.
Qed.

Lemma max_id_ge rows u : u ∈ rows -> u_id u <= users_sql.max_id rows.
Proof.
  induction 1 as [u rows|u u' rows _ IH]; simpl; lia.
Qed.

Lemma update_password_hash_ids new_hash uid db :
  map u_id (users (users_sql.update_password_hash new_hash uid db))
  = map u_id (users db).
Proof.
  simpl. induction (users db) as [|u l IH]; simpl; [done|].
  rewrite IH. by case_bool_decide.
Qed.

Lemma update_password_hash_usernames new_hash uid db :
  map u_username (users (users_sql.update_password_hash new_hash uid db))
  = map u_username (users db).
Proof.
  simpl. induction (users db) as [|u l IH]; simpl; [done|].
  rewrite IH. by case_bool_decide.
Qed.

Lemma register_accounts_ok W a req db h :
  register W a req db = Returned h -> accounts_ok db ->
  accounts_ok (accounts_after h).
Proof.
  intros Hrun Hok.
  destruct (register_cases W a req db)
    as [(h' & Hh & Hsame) | (_ & _ & Hu & _ & _ & Hfresh & Hh)];
    rewrite Hh in Hrun; injection Hrun as <-; [by rewrite Hsame|].
  destruct Hok as [[Hids Hnames] Hshape]. simpl.
  split; [split|]; simpl; rewrite map_app; simpl.
  - apply StronglySorted_snoc; [done|].
    apply Forall_forall. intros y Hy.
    apply list_elem_of_In, in_map_iff in Hy as (u & <- & Hin).
    apply list_elem_of_In, max_id_ge in Hin. unfold users_sql.next_id. lia.
  - apply NoDup_app. split; [done|]. split; [|apply NoDup_singleton].
    intros name Hin Hnew. apply list_elem_of_singleton in Hnew as ->.
    apply list_elem_of_In, in_map_iff in Hin as (u & Heq & Hin).
    apply list_elem_of_In in Hin. rewrite Forall_forall in Hfresh.
    by apply (Hfresh u).
  - apply Forall_app. split; [done|]. constructor; [|constructor].
    split; [done | apply strip_strip].
Qed.

Lemma profile_accounts_ok W a req db w h :
  profile W a req db w = Returned h -> accounts_ok db ->
  accounts_ok (accounts_after h).
Proof.
  intros Hrun Hok.
  destruct (profile_cases W a req db w)
    as [(h' & Hh & Hsame) | [[Hh _] |
        (sess & row & h' & _ & _ & _ & _ & _ & _ & Hh & _ & _ & Hdb)]];
    rewrite Hh in Hrun; [| done |]; injection Hrun as <-.
  - by rewrite Hsame.
  - rewrite Hdb. unfold accounts_ok, accounts_wf.
    by rewrite update_password_hash_ids, update_password_hash_usernames.
Qed.

Lemma step_accounts_ok E W ev s :
  accounts_ok (site_accounts s) -> accounts_ok (site_accounts (step E W ev s)).
Proof.
  intros Hok. destruct ev as [A req | a req | a req]; simpl; [done| |].
  - destruct (register W a req (site_accounts s)) as [h|e] eqn:Hh; [|done].
    by apply (register_accounts_ok W a req (site_accounts s)).
  - destruct (profile W a req (site_accounts s) (site_world s)) as [h|e] eqn:Hh;
      [|done].
    by apply (profile_accounts_ok W a req (site_accounts s) (site_world s)).
Qed.

(** X21. Whatever uploads, registrations and profile requests the site
    serves from the empty database, the [users] table keeps pairwise
    different, increasing ids and pairwise different usernames, and every
    username is at least three characters long with no white space at
    either end. *)
Theorem users_table_invariant E W evs :
  let db := site_accounts (run E W evs initial_site) in
  StronglySorted Z.lt (map u_id (users db)) /\
  NoDup (map u_username (users db)) /\
  Forall (fun u => (3 <= String.length (u_username u))%nat /\
                   str.strip (u_username u) = u_username u) (users db).
Proof.
  cbv zeta.
  assert (accounts_ok (site_accounts initial_site)) as H0.
  { repeat split; simpl; constructor. }
  revert H0. generalize initial_site.
  induction evs as [|ev evs IH]; intros s Hok; simpl.
  - destruct Hok as [[Hids Hnames] Hshape]. split; [done|]. split; [done|].
    by apply Forall_map in Hshape.
  - apply IH. by apply step_accounts_ok.
Qed.

Lemma profile_keeps_rows W a req db w h :
  profile W a req db w = Returned h ->
  Forall2 (fun u u' => u_id u' = u_id u /\ u_username u' = u_username u)
          (users db) (users (accounts_after h)).
Proof.
  intros Hrun.
  destruct (profile_cases W a req db w)
    as [(h' & Hh & Hsame) | [[Hh _] |
        (sess & row & h' & _ & _ & _ & _ & _ & _ & Hh & _ & _ & Hdb)]];
    rewrite Hh in Hrun; [| done |]; injection Hrun as <-.
  - rewrite Hsame. by apply Forall2_same.
  - rewrite Hdb.
    eapply Forall2_impl; [apply update_password_hash_rows|]. simpl.
    intros u u' (? & ? & _). done.
Qed.

Lemma step_keeps_users E W ev s sess :
  valid_session (site_accounts s) sess ->
  valid_session (site_accounts (step E W ev s)) sess.
Proof.
  intros (u & Hin & Hid & Hname).
  destruct ev as [A req | a req | a req]; simpl; [by exists u| |].
  - destruct (register W a req (site_accounts s)) as [h|e] eqn:Hh;
      [|by exists u].
    destruct (register_cases W a req (site_accounts s))
      as [(h' & Hh' & Hsame) | (_ & _ & _ & _ & _ & _ & Hh')];
      rewrite Hh' in Hh; injection Hh as <-; simpl.
    + rewrite Hsame. by exists u.
    + exists u. split; [|done]. apply elem_of_app. by left.
  - destruct (profile W a req (site_accounts s) (site_world s)) as [h|e] eqn:Hh;
      [|by exists u].
    pose proof (profile_keeps_rows W a req (site_accounts s)
                  (site_world s) h Hh) as Hrows.
    simpl. apply list_elem_of_lookup in Hin as [i Hi].
    destruct (Forall2_lookup_l _ _ _ _ _ Hrows Hi) as (u' & Hi' & Hu1 & Hu2).
    exists u'. split; [by eapply list_elem_of_lookup_2|]. split; congruence.
Qed.

Lemma run_keeps_users E W evs : forall s sess,
  valid_session (site_accounts s) sess ->
  valid_session (site_accounts (run E W evs s)) sess.
Proof.
  induction evs as [|ev evs IH]; intros s sess Hv; simpl; [done|].
  apply IH. by apply step_keeps_users.
Qed.

(** X29. A session that names a row of [users] keeps naming one whatever
    the site serves afterwards (users are never removed or renumbered), so
    for such a session [profile] never ends in the TypeError of a missing
    user row. *)
Theorem valid_session_stays_valid E W evs s sess a req w :
  valid_session (site_accounts s) sess ->
  form_session req = Some sess ->
  valid_session (site_accounts (run E W evs s)) sess /\
  exists h, profile W a req (site_accounts (run E W evs s)) w = Returned h.
Proof.
  intros Hv Hs.
  pose proof (run_keeps_users E W evs s sess Hv) as Hv'.
  split; [done|].
  destruct (profile_cases W a req (site_accounts (run E W evs s)) w)
    as [(h & Hh & _) | [[_ (sess' & Hs' & _ & Hnone)] |
        (? & ? & h & _ & _ & _ & _ & _ & _ & Hh & _)]]; [by eexists | | by eexists].
  rewrite Hs in Hs'. injection Hs' as <-.
  destruct Hv' as (u & Hin & Hid & _).
  apply head_filter_None in Hnone. rewrite Forall_forall in Hnone.
  by destruct (Hnone u Hin).
Qed.

Lemma valid_session_stays_valid_witness :
  let s := {| site_world := initial_world; site_accounts := demo_accounts |} in
  let req := demo_password_form amy_session "wrong" "n3wpass" in
  valid_session (site_accounts s) amy_session /\
  form_session req = Some amy_session /\
  valid_session (site_accounts (run demo_E demo_W demo_events s)) amy_session /\
  exists h,
    profile demo_W (demo_a 99) req
      (site_accounts (run demo_E demo_W demo_events s)) demo_world
    = Returned h.
Proof.
  intros s req.
  assert (valid_session (site_accounts s) amy_session) as Hvalid.
  { exists {| u_id := 1; u_username := "amy"; u_password_hash := "s3cret";
              u_created_at := 90 |}.
    split; [|done]. vm_compute. apply list_elem_of_here. }
  split; [exact Hvalid|]. split; [reflexivity|].
  exact (valid_session_stays_valid demo_E demo_W demo_events s amy_session
           (demo_a 99) req demo_world Hvalid eq_refl).
Defined.

Lemma step_rows_have_users E W ev s :
  rows_have_users s ->
  match ev with
  | Upload _ req =>
      forall sess, session req = Some sess ->
                   valid_session (site_accounts s) sess
  | _ => True
  end ->
  rows_have_users (step E W ev s).
Proof.
  intros Hfk Hvalid r Hr.
  assert (forall r, r ∈ detection_history (site_world s) ->
            exists u, u ∈ users (site_accounts (step E W ev s)) /\
                      u_id u = user_id r) as Hold.
  { intros r0 Hr0. destruct (Hfk r0 Hr0) as (u & Hin & Hid).
    destruct (step_keeps_users E W ev s
                {| session_user_id := u_id u; session_username := u_username u |})
      as (u' & Hin' & Hid' & _); [by exists u|].
    exists u'. split; [done|]. simpl in Hid'. congruence. }
  destruct ev as [A req | a req | a req]; simpl in *.
  - destruct (upload_history E A req (site_world s))
      as [Hsame | (r0 & sess & Hnew & Hs & Hu & _)].
    + rewrite Hsame in Hr. by apply Hold.
    + rewrite Hnew in Hr. apply elem_of_app in Hr as [Hr|Hr]; [by apply Hold|].
      apply list_elem_of_singleton in Hr as ->.
      destruct (Hvalid sess Hs) as (u & Hin & Hid & _).
      exists u. split; [done | congruence].
  - apply Hold.
    by destruct (register W a req (site_accounts s)).
  - apply Hold.
    by destruct (profile W a req (site_accounts s) (site_world s)).
Qed.

(** X30. When every upload comes with a session that is valid on arrival
    (as the sessions [login] issues are), every row of the ledger belongs
    to a registered user, whatever the site has served. *)
Theorem rows_reference_registered_users E W evs :
  sessions_valid E W evs initial_site ->
  forall r,
    r ∈ detection_history (site_world (run E W evs initial_site)) ->
    exists u,
      u ∈ users (site_accounts (run E W evs initial_site)) /\
      u_id u = user_id r.
Proof.
  assert (rows_have_users initial_site) as H0.
  { intros r Hr. by apply elem_of_nil in Hr. }
  revert H0. generalize initial_site.
  induction evs as [|ev evs IH]; intros s Hfk Hvalid; simpl; [done|].
  destruct Hvalid as [Hev Hrest].
  apply IH; [|done]. by apply step_rows_have_users.
Qed.

Lemma rows_reference_registered_users_witness :
  sessions_valid demo_E demo_W demo_events initial_site /\
  forall r,
    r ∈ detection_history
          (site_world (run demo_E demo_W demo_events initial_site)) ->
    exists u,
      u ∈ users (site_accounts (run demo_E demo_W demo_events initial_site)) /\
      u_id u = user_id r.
Proof.
  assert (sessions_valid demo_E demo_W demo_events initial_site) as Hvalid.
  { simpl. split; [done|]. split.
    - intros sess [= <-].
      exists {| u_id := 1; u_username := "amy"; u_password_hash := "s3cret";
                u_created_at := 90 |}.
      split; [|done]. vm_compute. apply list_elem_of_here.
    - split; [done|]. split; [done|]. split; [|done].
      intros sess [= <-].
      exists {| u_id := 1; u_username := "amy"; u_password_hash := "n3wpass";
                u_created_at := 90 |}.
      split; [|done]. vm_compute. apply list_elem_of_here. }
  split; [exact Hvalid|].
  exact (rows_reference_registered_users demo_E demo_W demo_events Hvalid).
Defined.

(** X28. Without a session nothing is shown and nothing changes: [home],
    [dashboard], [history], [upload] and [profile] all answer with a
    redirect to the login page, [upload] leaves the world and [profile]
    the [users] table as they were; and [logout] always ends without a
    session. *)
Theorem no_session_no_access E W A a req freq w db :
  session req = None -> form_session freq = None ->
  home None = redirect "login" /\
  dashboard req w = redirect "login" /\
  history req w = redirect "login" /\
  upload E A req w = (Ok (redirect "login"), w) /\
  (exists h, profile W a freq db w = Returned h /\
             response h = redirect "login" /\
             accounts_after h = db /\ session_after h = None) /\
  session_after (logout db) = None /\ accounts_after (logout db) = db.
Proof.
  intros Hs Hfs. unfold dashboard, history, upload, profile.
  rewrite Hs, Hfs. repeat split. by eexists.
Qed.

Lemma no_session_no_access_witness :
  let req := {| method := POST; session := None;
                files_image := Some {| filename := "dent.JPG";
                                       stream := [1; 9] |} |} in
  let freq := {| form_method := POST; form_session := None;
                 form := <["current_password" := "s3cret"%string]>
                         (<["new_password" := "n3wpass"%string]>
                         (<["confirm_password" := "n3wpass"%string]> ∅)) |} in
  session req = None /\ form_session freq = None /\
  home None = redirect "login" /\
  dashboard req demo_world = redirect "login" /\
  history req demo_world = redirect "login" /\
  upload demo_E (demo_A "4e5f6a7b" 100) req demo_world
    = (Ok (redirect "login"), demo_world) /\
  (exists h, profile demo_W (demo_a 99) freq demo_accounts demo_world
               = Returned h /\
             response h = redirect "login" /\
             accounts_after h = demo_accounts /\ session_after h = None) /\
  session_after (logout demo_accounts) = None /\
  accounts_after (logout demo_accounts) = demo_accounts.
Proof.
  intros req freq. split; [reflexivity|]. split; [reflexivity|].
  exact (no_session_no_access demo_E demo_W (demo_A "4e5f6a7b" 100) (demo_a 99)
           req freq demo_world demo_accounts eq_refl eq_refl).
Defined.
